(** * The document-processing pipeline: an embedding of the Go sources

    The development follows the packages of the repository:
    [models] (chunks and task records), [JSONConverter] (the normalizer of
    pkg/converters), [PdfProcessor] (internal/agent/document/pdf),
    [AsynqQueue] (pkg/queue), [ImageProcessor], [AdaptiveThresholdProcessor]
    and [TextractProcessor] (internal/agent/document/image) and
    [DocumentService] (internal/service/document).

    Conventions.  Go [int], [int32] and [int64] are [Z]; the code below
    never leaves the range of its type on inputs a machine can hold, except
    where a wrap-around is written out.  [float64] is the binary64 type
    [float] of the kernel, whose operations round as Go's do; a [float32]
    is the binary64 number of the same value (comparisons agree).
    [time.Time] is a number of nanoseconds.  A Go [error] is its message.
    Calls that leave the process (object store, broker, Redis, OCR engine,
    vision model) read and write an explicit state or take their outcome
    as an argument. *)

From Stdlib Require Import ZArith List Lia Floats Uint63 Permutation Sorted.
From stdpp Require Import base option list gmap strings pretty.
Open Scope string_scope.
Open Scope list_scope.
Open Scope Z_scope.

(** ** Results of fallible calls *)

Inductive Result (A : Type) : Type :=
| Ok (a : A)
| Err (msg : string).
Arguments Ok {A} a.
Arguments Err {A} msg.

Definition isOk {A} (r : Result A) : bool :=
  match r with Ok _ => true | Err _ => false end.

(** [fmt.Errorf("<prefix>: %w", err)] *)
Definition wrapErr (prefix : string) (err : string) : string :=
  prefix +:+ ": " +:+ err.

(** ** Numbers and time *)

(** [float64(n)] for an integer [n] of magnitude below 2^63. *)
Definition float64_of_int (n : Z) : float :=
  if n <? 0 then PrimFloat.opp (PrimFloat.of_uint63 (Uint63.of_Z (- n)))
  else PrimFloat.of_uint63 (Uint63.of_Z n).

(** [int32] wrap-around *)
Definition wrap32 (n : Z) : Z := (n + 2 ^ 31) mod 2 ^ 32 - 2 ^ 31.

Definition Time := Z.
Definition Second : Z := 1000000000.
Definition Minute : Z := 60 * Second.
Definition Hour : Z := 60 * Minute.

(** A float that [encoding/json] can write: neither NaN nor an infinity. *)
Definition jsonFloatOK (f : float) : bool :=
  negb (PrimFloat.is_nan f) && negb (PrimFloat.is_infinity f).

(** ** Strings of the Go standard library, on bytes *)

Definition isASCIISpace (c : Ascii.ascii) : bool :=
  let n := Z.of_N (Ascii.N_of_ascii c) in
  ((9 <=? n) && (n <=? 13)) || (n =? 32).

(** The UTF-8 encodings of the code points above U+007F for which
    [unicode.IsSpace] holds: U+0085, U+00A0, U+1680, U+2000..U+200A,
    U+2028, U+2029, U+202F, U+205F, U+3000. *)
Definition byte_of (n : Z) : Ascii.ascii := Ascii.ascii_of_N (Z.to_N n).

Definition unicodeSpaces : list (list Ascii.ascii) :=
  map (map byte_of)
    ([ [194; 133]; [194; 160]; [225; 154; 128] ]
     ++ map (fun k => [226; 128; 128 + k]) (seqZ 0 11)
     ++ [ [226; 128; 168]; [226; 128; 169]; [226; 128; 175];
          [226; 129; 159]; [227; 128; 128] ]).

Fixpoint stripPrefix (p l : list Ascii.ascii) : option (list Ascii.ascii) :=
  match p, l with
  | [], _ => Some l
  | a :: p', b :: l' => if Ascii.eqb a b then stripPrefix p' l' else None
  | _ :: _, [] => None
  end.

(** One white-space rune removed from the front, if there is one. *)
Definition dropSpaceRune (l : list Ascii.ascii) : option (list Ascii.ascii) :=
  match l with
  | [] => None
  | c :: rest =>
      if isASCIISpace c then Some rest
      else
        fold_right (fun enc acc =>
                      match stripPrefix enc l with
                      | Some r => Some r
                      | None => acc
                      end) None unicodeSpaces
  end.

Fixpoint trimLeft (fuel : nat) (l : list Ascii.ascii) : list Ascii.ascii :=
  match fuel with
  | O => l
  | S fuel' =>
      match dropSpaceRune l with
      | Some rest => trimLeft fuel' rest
      | None => l
      end
  end.

(** The same from the back: a white-space rune is a suffix whose bytes,
    reversed, are a prefix of the reversed string. *)
Definition dropSpaceRuneBack (r : list Ascii.ascii) : option (list Ascii.ascii) :=
  match r with
  | [] => None
  | c :: rest =>
      if isASCIISpace c then Some rest
      else
        fold_right (fun enc acc =>
                      match stripPrefix (rev enc) r with
                      | Some r' => Some r'
                      | None => acc
                      end) None unicodeSpaces
  end.

Fixpoint trimRightRev (fuel : nat) (r : list Ascii.ascii) : list Ascii.ascii :=
  match fuel with
  | O => r
  | S fuel' =>
      match dropSpaceRuneBack r with
      | Some rest => trimRightRev fuel' rest
      | None => r
      end
  end.

(** [strings.TrimSpace]: leading and trailing white space, as Unicode
    defines it, removed. *)
Definition TrimSpace (s : string) : string :=
  let l := String.list_ascii_of_string s in
  let l1 := trimLeft (length l) l in
  String.string_of_list_ascii (rev (trimRightRev (length l1) (rev l1))).

(** [filepath.Ext] on a system whose path separator is the slash: the
    suffix that starts at the last dot of the last path element. *)
Fixpoint extRev (r : list Ascii.ascii) (acc : list Ascii.ascii) : list Ascii.ascii :=
  match r with
  | [] => []
  | c :: r' =>
      if Ascii.eqb c (byte_of 47) then []
      else if Ascii.eqb c (byte_of 46) then c :: acc
      else extRev r' (c :: acc)
  end.

Definition Ext (path : string) : string :=
  String.string_of_list_ascii (extRev (rev (String.list_ascii_of_string path)) []).

(** [strings.ToLower] restricted to what it does on ASCII letters; bytes
    of other code points are kept.  The service below takes the lowering
    function as a parameter, this one instantiates it. *)
Definition lowerASCII (c : Ascii.ascii) : Ascii.ascii :=
  let n := Z.of_N (Ascii.N_of_ascii c) in
  if (65 <=? n) && (n <=? 90) then byte_of (n + 32) else c.

Definition ToLowerASCII (s : string) : string :=
  String.string_of_list_ascii (map lowerASCII (String.list_ascii_of_string s)).

(** [for i := lo; i < hi; i++ { acc = body(acc, i) }] *)
Definition forRange {A} (lo hi : Z) (body : A -> Z -> A) (acc : A) : A :=
  fold_left body (seqZ lo (hi - lo)) acc.

(** ** Values of type [interface{}] that the pipeline stores in metadata *)

(** One entry of the [regions] slice of an OCR chunk: the map literal with
    keys x, y, width, height, text, confidence. *)
Record Region : Type := mkRegion {
  region_x : Z;
  region_y : Z;
  region_width : Z;
  region_height : Z;
  region_text : string;
  region_confidence : float
}.

Inductive Value : Type :=
| VString (s : string)
| VInt (n : Z)
| VInt64 (n : Z)
| VFloat64 (f : float)
| VRegions (rs : list Region).

(** Type assertions [v.(string)], [v.(float64)], [v.(int)], [v.(int64)] on
    the result of a map lookup. *)
Definition asString (v : option Value) : option string :=
  match v with Some (VString s) => Some s | _ => None end.
Definition asFloat64 (v : option Value) : option float :=
  match v with Some (VFloat64 f) => Some f | _ => None end.
Definition asInt (v : option Value) : option Z :=
  match v with Some (VInt n) => Some n | _ => None end.
Definition asInt64 (v : option Value) : option Z :=
  match v with Some (VInt64 n) => Some n | _ => None end.

Definition jsonValueOK (v : Value) : bool :=
  match v with
  | VFloat64 f => jsonFloatOK f
  | VRegions rs => forallb (fun r => jsonFloatOK (region_confidence r)) rs
  | _ => true
  end.

(** ** internal/models *)

Module models.

Module DocumentChunk.
Record t : Type := mk {
  Content : string;
  Metadata : gmap string Value   (* a nil map reads as the empty map *)
}.
End DocumentChunk.

Definition ProcessingStatus := string.
Definition StatusPending : ProcessingStatus := "pending".
Definition StatusRunning : ProcessingStatus := "running".
Definition StatusCompleted : ProcessingStatus := "completed".
Definition StatusFailed : ProcessingStatus := "failed".
Definition StatusCancelled : ProcessingStatus := "cancelled".

Module ProcessingTask.
Record t : Type := mk {
  ID : string;
  Status : ProcessingStatus;
  Type_ : string;
  Priority : Z;
  Progress : float;
  Error : string;
  Metadata : gmap string string;
  CreatedAt : Time;
  UpdatedAt : Time
}.
End ProcessingTask.

End models.

(** ** pkg/converters: the normalizer *)

Module ChunkContent.
Record t : Type := mk {
  Text : string;
  Position : Z;
  Type_ : string;
  Metadata : gmap string Value
}.
End ChunkContent.

Module DocumentMetadata.
Record t : Type := mk {
  FileName : string;
  FileType : string;
  FileSize : Z;
  PageCount : Z;
  Sections : list string;
  Language : string;
  Confidence : float;
  ProcessingMs : Z
}.
End DocumentMetadata.

Module ProcessedDocument.
Record t : Type := mk {
  TaskID : string;
  Status : string;
  Content : list ChunkContent.t;
  Metadata : DocumentMetadata.t;
  ProcessedAt : Time
}.
End ProcessedDocument.

Module JSONConverter.
Import models.

(** The variables of the loop of [Convert]: [doc.Content], the set
    [sections] and [totalConfidence]. *)
Record loopVars : Type := mkLoop {
  content : list ChunkContent.t;
  sections : gset string;
  totalConfidence : float
}.

(** The [ChunkContent] built from chunk number [i] (counted from 0).  Its
    metadata is the chunk's own map; writing [pageNumber] or [imageType]
    back stores the value that was just read. *)
Definition chunkContent (i : Z) (chunk : DocumentChunk.t) : ChunkContent.t :=
  let md := DocumentChunk.Metadata chunk in
  match md !! "pageNumber" with
  | Some pageNum =>
      ChunkContent.mk (DocumentChunk.Content chunk) (i + 1) "page"
                      (<["pageNumber" := pageNum]> md)
  | None =>
      match md !! "imageType" with
      | Some imgType =>
          ChunkContent.mk (DocumentChunk.Content chunk) (i + 1) "image"
                          (<["imageType" := imgType]> md)
      | None =>
          ChunkContent.mk (DocumentChunk.Content chunk) (i + 1) "" md
      end
  end.

(** One iteration of [for i, chunk := range chunks]. *)
Definition loopBody (i : Z) (chunk : DocumentChunk.t) (v : loopVars) : loopVars :=
  let md := DocumentChunk.Metadata chunk in
  let content' := content v ++ [chunkContent i chunk] in
  let sections' :=
    match asString (md !! "section") with
    | Some section => {[ section ]} ∪ sections v
    | None => sections v
    end in
  let total' :=
    match asFloat64 (md !! "confidence") with
    | Some conf => (totalConfidence v + conf)%float
    | None => totalConfidence v
    end in
  mkLoop content' sections' total'.

Fixpoint loopFrom (i : Z) (chunks : list DocumentChunk.t) (v : loopVars) : loopVars :=
  match chunks with
  | [] => v
  | chunk :: rest => loopFrom (i + 1) rest (loopBody i chunk v)
  end.

(** The block that copies the file facts of [chunks[0]]. *)
Definition basicInfo (chunks : list DocumentChunk.t) (m : DocumentMetadata.t)
  : DocumentMetadata.t :=
  match chunks with
  | [] => m
  | first :: _ =>
      let md := DocumentChunk.Metadata first in
      if (0 <? Z.of_nat (size md)) then
        let m1 := match asString (md !! "filename") with
                  | Some fileName =>
                      DocumentMetadata.mk fileName (DocumentMetadata.FileType m)
                        (DocumentMetadata.FileSize m) (DocumentMetadata.PageCount m)
                        (DocumentMetadata.Sections m) (DocumentMetadata.Language m)
                        (DocumentMetadata.Confidence m) (DocumentMetadata.ProcessingMs m)
                  | None => m
                  end in
        let m2 := match asString (md !! "type") with
                  | Some fileType =>
                      DocumentMetadata.mk (DocumentMetadata.FileName m1) fileType
                        (DocumentMetadata.FileSize m1) (DocumentMetadata.PageCount m1)
                        (DocumentMetadata.Sections m1) (DocumentMetadata.Language m1)
                        (DocumentMetadata.Confidence m1) (DocumentMetadata.ProcessingMs m1)
                  | None => m1
                  end in
        let m3 := match asInt64 (md !! "size") with
                  | Some fileSize =>
                      DocumentMetadata.mk (DocumentMetadata.FileName m2)
                        (DocumentMetadata.FileType m2) fileSize
                        (DocumentMetadata.PageCount m2)
                        (DocumentMetadata.Sections m2) (DocumentMetadata.Language m2)
                        (DocumentMetadata.Confidence m2) (DocumentMetadata.ProcessingMs m2)
                  | None => m2
                  end in
        match asInt (md !! "pageCount") with
        | Some pageCount =>
            DocumentMetadata.mk (DocumentMetadata.FileName m3)
              (DocumentMetadata.FileType m3) (DocumentMetadata.FileSize m3) pageCount
              (DocumentMetadata.Sections m3) (DocumentMetadata.Language m3)
              (DocumentMetadata.Confidence m3) (DocumentMetadata.ProcessingMs m3)
        | None => m3
        end
      else m
  end.

(** [Convert].  [now] is the reading of [time.Now()].  The order in which
    Go walks the [sections] map is not specified; the model lists the set
    in the order of [elements]. *)
Definition Convert (now : Time) (chunks : list DocumentChunk.t)
  : Result ProcessedDocument.t :=
  let n := Z.of_nat (length chunks) in
  if n =? 0 then Err "no chunks to convert"
  else
    let v := loopFrom 0 chunks (mkLoop [] ∅ 0%float) in
    let confidence :=
      if 0 <? n then (totalConfidence v / float64_of_int n)%float
      else 1%float in
    let m := DocumentMetadata.mk "" "" 0 0 (elements (sections v)) ""
                                 confidence 0 in
    Ok (ProcessedDocument.mk "" "completed" (content v)
                             (basicInfo chunks m) now).

End JSONConverter.

(** ** internal/agent/document/pdf: the PDF extractor *)

Module PdfProcessor.
Import models.

(** What the PDF library reports for one page: a null page, a page with
    its plain text, or a page whose text extraction fails. *)
Inductive Page : Type :=
| NullPage
| TextPage (text : string)
| FailingPage (err : string).

(** The input stream: reading it may fail, the bytes may not parse, or
    they are a document with its pages; [hashStr] is the hexadecimal
    SHA-256 of the bytes. *)
Inductive Input : Type :=
| ReadError (err : string)
| NotPDF (err : string)
| Document (hashStr : string) (pages : list Page).

(** [pdfReader.Page(pageNum)], pages counted from 1 *)
Definition pageAt (pages : list Page) (pageNum : Z) : Page :=
  nth (Z.to_nat (pageNum - 1)) pages NullPage.

Definition pageChunk (hashStr : string) (pageNum : Z) (text : string)
  : DocumentChunk.t :=
  DocumentChunk.mk text
    (<["page" := VInt pageNum]>
       (<["hash" := VString hashStr]>
          (<["section" := VString ("page_" +:+ pretty pageNum)]> ∅))).

(** The shared state of the page goroutines: the page numbers whose
    goroutine has not returned yet, the buffered channel [chunkChan] (its
    capacity is the page count, a send never blocks) and the error the
    errgroup has kept, which is the first one. *)
Record Conf : Type := mkConf {
  pending : list Z;
  chunkChan : list DocumentChunk.t;
  groupErr : option string
}.

Definition keepFirst (old : option string) (err : string) : option string :=
  match old with Some e => Some e | None => Some err end.

(** Goroutine [pageNum] runs from its start to its return.  The
    semaphore bounds how many run at once, not the order in which they
    reach the channel, so a goroutine is one step.  Once the group has an
    error its context is done and a goroutine may leave through either
    [select]. *)
Inductive finish (hashStr : string) (pages : list Page) (pageNum : Z)
  : Conf -> Conf -> Prop :=
| finish_null c :
    pageAt pages pageNum = NullPage ->
    finish hashStr pages pageNum c c
| finish_send c text :
    pageAt pages pageNum = TextPage text ->
    finish hashStr pages pageNum c
      (mkConf (pending c) (chunkChan c ++ [pageChunk hashStr pageNum text])
              (groupErr c))
| finish_fail c err :
    pageAt pages pageNum = FailingPage err ->
    finish hashStr pages pageNum c
      (mkConf (pending c) (chunkChan c)
         (keepFirst (groupErr c)
            (wrapErr ("failed to get text from page " +:+ pretty pageNum) err)))
| finish_cancelled c :
    groupErr c <> None ->
    finish hashStr pages pageNum c c.

(** The scheduler picks any goroutine that has not returned. *)
Inductive step (hashStr : string) (pages : list Page) : Conf -> Conf -> Prop :=
| step_pick c c' l1 pageNum l2 :
    pending c = l1 ++ pageNum :: l2 ->
    finish hashStr pages pageNum
           (mkConf (l1 ++ l2) (chunkChan c) (groupErr c)) c' ->
    step hashStr pages c c'.

Definition initial (pages : list Page) : Conf :=
  mkConf (seqZ 1 (Z.of_nat (length pages))) [] None.

Definition cleanText (text : string) : string := text.

Definition postProcessChunks (chunks : list DocumentChunk.t)
  : Result (list DocumentChunk.t) :=
  Ok (map (fun chunk =>
             DocumentChunk.mk (cleanText (DocumentChunk.Content chunk))
                              (DocumentChunk.Metadata chunk)) chunks).

(** What [Process] returns once every goroutine has returned and the
    channel is closed and drained. *)
Definition collect (c : Conf) : Result (list DocumentChunk.t) :=
  match groupErr c with
  | Some err => Err err
  | None => postProcessChunks (chunkChan c)
  end.

(** [Process]: the results the code can return on an input, over all
    schedules of the page goroutines (the caller's context stays live). *)
Inductive Process : Input -> Result (list DocumentChunk.t) -> Prop :=
| Process_read_error err :
    Process (ReadError err) (Err err)
| Process_not_pdf err :
    Process (NotPDF err) (Err err)
| Process_pages hashStr pages c :
    rtc (step hashStr pages) (initial pages) c ->
    pending c = [] ->
    Process (Document hashStr pages) (collect c).

(** One schedule, run: the goroutines return in the order [sched]. *)
Definition finishNow (hashStr : string) (pages : list Page) (c : Conf)
  (pageNum : Z) : Conf :=
  match pageAt pages pageNum with
  | NullPage => c
  | TextPage text =>
      mkConf (pending c) (chunkChan c ++ [pageChunk hashStr pageNum text])
             (groupErr c)
  | FailingPage err =>
      mkConf (pending c) (chunkChan c)
         (keepFirst (groupErr c)
            (wrapErr ("failed to get text from page " +:+ pretty pageNum) err))
  end.

Definition ProcessWith (sched : list Z) (input : Input)
  : Result (list DocumentChunk.t) :=
  match input with
  | ReadError err => Err err
  | NotPDF err => Err err
  | Document hashStr pages =>
      collect (fold_left (finishNow hashStr pages) sched (mkConf [] [] None))
  end.

(** The page number a chunk carries. *)
Definition pageOf (chunk : DocumentChunk.t) : option Z :=
  asInt (DocumentChunk.Metadata chunk !! "page").

(** [!page.V.IsNull()] for the page of that number *)
Definition notNull (pages : list Page) (pageNum : Z) : bool :=
  match pageAt pages pageNum with NullPage => false | _ => true end.

End PdfProcessor.

(** ** pkg/queue: the task queue and its status cache *)

Module Task.
Record t : Type := mk {
  ID : string;
  Type_ : string;
  Priority : Z;
  Payload : gmap string Value;
  Metadata : gmap string string;
  CreatedAt : Time
}.
End Task.

Module TaskStatus.
Record t : Type := mk {
  TaskID : string;
  Status : string;
  Progress : float;
  Error : string;
  StartedAt : Time;
  FinishedAt : Time
}.
End TaskStatus.

(** The broker library, as far as the queue uses it: tasks live in named
    queues, a task id is unique within its queue, the client adds a task
    and the inspector looks one up in one queue.  The worker side, which
    moves a task between states, is not part of this package: a broker
    state holds tasks in whatever state they have reached. *)
Module asynq.

Inductive TaskState : Type :=
| TaskStateActive
| TaskStatePending
| TaskStateScheduled
| TaskStateRetry
| TaskStateArchived
| TaskStateCompleted
| TaskStateAggregating.

Module TaskInfo.
Record t : Type := mk {
  ID : string;
  Queue : string;
  Type_ : string;
  Payload : Task.t;        (* the JSON of the task, read as the task *)
  State : TaskState;
  MaxRetry : Z;
  Timeout : Z;
  LastErr : string;
  NextProcessAt : Time;
  CompletedAt : Time
}.
End TaskInfo.

Record Broker : Type := mkBroker {
  tasks : gmap (string * string) TaskInfo.t;   (* by queue name and id *)
  up : bool                                    (* the broker answers *)
}.

(** [client.EnqueueContext] of a task with the options [ProcessIn],
    [MaxRetry], [Timeout], [TaskID] and [Queue]. *)
Definition EnqueueContext (b : Broker) (now : Time) (typename : string)
  (payload : Task.t) (processIn : Z) (maxRetry : Z) (timeout : Z)
  (taskID : string) (queue : string) : Broker * Result TaskInfo.t :=
  if String.eqb (TrimSpace typename) "" then
    (b, Err "task typename cannot be empty")
  else if String.eqb (TrimSpace taskID) "" then
    (b, Err "task ID cannot be empty")
  else if negb (up b) then (b, Err "connection refused")
  else
    match tasks b !! (queue, taskID) with
    | Some _ => (b, Err "task ID conflicts with another task")
    | None =>
        let info := TaskInfo.mk taskID queue typename payload
                      TaskStateScheduled maxRetry timeout ""
                      (now + processIn) 0 in
        (mkBroker (<[(queue, taskID) := info]> (tasks b)) (up b), Ok info)
    end.

(** [inspector.GetTaskInfo(queue, id)] *)
Definition GetTaskInfo (b : Broker) (queue : string) (taskID : string)
  : Result TaskInfo.t :=
  if negb (up b) then Err "connection refused"
  else
    match tasks b !! (queue, taskID) with
    | Some info => Ok info
    | None => Err "task not found"
    end.

End asynq.

(** The Redis client of the status cache.  A stored value is the JSON of
    a status, read as that status, or bytes that are not such a JSON; each
    key has the time at which it expires. *)
Module redis.

Inductive Stored : Type :=
| JSONStatus (status : TaskStatus.t)
| Raw (data : string).

Record Client : Type := mkClient {
  kv : gmap string (Stored * Time);
  up : bool
}.

Inductive Reply : Type :=
| Nil                      (* the error [redis.Nil]: no such key *)
| Failed (err : string)
| Bytes (data : Stored).

Definition Get (c : Client) (now : Time) (key : string) : Reply :=
  if negb (up c) then Failed "connection refused"
  else
    match kv c !! key with
    | Some (data, expiry) => if now <? expiry then Bytes data else Nil
    | None => Nil
    end.

Definition Set_ (c : Client) (now : Time) (key : string) (data : Stored)
  (ttl : Z) : Client * option string :=
  if negb (up c) then (c, Some "connection refused")
  else (mkClient (<[key := (data, now + ttl)]> (kv c)) (up c), None).

End redis.

Module AsynqQueue.

Record t : Type := mk {
  broker : asynq.Broker;
  redis : redis.Client
}.

(** [json.Marshal(task)]: the payload must hold no NaN and no infinity. *)
Definition marshalTask (task : Task.t) : Result Task.t :=
  if forallb (fun kv => jsonValueOK (snd kv)) (map_to_list (Task.Payload task))
  then Ok task
  else Err "json: unsupported value".

Definition marshalStatus (status : TaskStatus.t) : Result redis.Stored :=
  if jsonFloatOK (TaskStatus.Progress status)
  then Ok (redis.JSONStatus status)
  else Err "json: unsupported value".

Definition unmarshalStatus (data : redis.Stored) : Result TaskStatus.t :=
  match data with
  | redis.JSONStatus status => Ok status
  | redis.Raw _ => Err "invalid character"
  end.

(** The [switch task.Priority] of [Enqueue]: the queue option it adds. *)
Definition queueOption (priority : Z) : string :=
  match priority with
  | 1 => "critical"
  | 2 => "default"
  | _ => "low"
  end.

(** [Enqueue].  The task is passed by pointer: the task returned is the
    caller's task after the call. *)
Definition Enqueue (q : t) (now : Time) (task : Task.t)
  : t * Task.t * option string :=
  match marshalTask task with
  | Err err => (q, task, Some (wrapErr "failed to marshal task" err))
  | Ok payload =>
      let queue := queueOption (Task.Priority task) in
      match asynq.EnqueueContext (broker q) now (Task.Type_ task) payload
              Second 3 (30 * Minute) (Task.ID task) queue with
      | (_, Err err) => (q, task, Some (wrapErr "failed to enqueue task" err))
      | (b', Ok info) =>
          (mk b' (redis q),
           Task.mk (asynq.TaskInfo.ID info) (Task.Type_ task)
                   (Task.Priority task) (Task.Payload task)
                   (Task.Metadata task) (Task.CreatedAt task),
           None)
      end
  end.

Definition statusKey (taskID : string) : string := "task_status:" +:+ taskID.

(** [SaveFinalStatus] *)
Definition SaveFinalStatus (q : t) (now : Time) (status : TaskStatus.t)
  : t * option string :=
  let key := statusKey (TaskStatus.TaskID status) in
  match marshalStatus status with
  | Err err => (q, Some (wrapErr "failed to marshal status" err))
  | Ok data =>
      match redis.Set_ (redis q) now key data (24 * Hour) with
      | (_, Some err) => (q, Some (wrapErr "failed to save status" err))
      | (r', None) => (mk (broker q) r', None)
      end
  end.

(** [convertAsynqStatus] *)
Definition convertAsynqStatus (now : Time) (info : asynq.TaskInfo.t)
  : TaskStatus.t :=
  let id := asynq.TaskInfo.ID info in
  let startedAt := asynq.TaskInfo.NextProcessAt info in
  match asynq.TaskInfo.State info with
  | asynq.TaskStatePending =>
      TaskStatus.mk id "pending" 0 "" startedAt now
  | asynq.TaskStateActive =>
      TaskStatus.mk id "running" 0.5 "" startedAt now
  | asynq.TaskStateCompleted =>
      TaskStatus.mk id "completed" 1 "" startedAt
                    (asynq.TaskInfo.CompletedAt info)
  | asynq.TaskStateRetry =>
      TaskStatus.mk id "failed" 0 (asynq.TaskInfo.LastErr info) startedAt now
  | _ =>
      TaskStatus.mk id "" 0 "" startedAt now
  end.

(** The loop of [GetTaskStatus] over the queue names, with its variables
    [info] and [lastErr]: it leaves at the first queue that has the task
    and records the error of every queue probed before. *)
Fixpoint probe (b : asynq.Broker) (taskID : string) (queues : list string)
  (info : option asynq.TaskInfo.t) (lastErr : option string)
  : option asynq.TaskInfo.t * option string :=
  match queues with
  | [] => (info, lastErr)
  | queueName :: rest =>
      match asynq.GetTaskInfo b queueName taskID with
      | Ok found => (Some found, lastErr)
      | Err err => probe b taskID rest None (Some err)
      end
  end.

(** [GetTaskStatus] *)
Definition GetTaskStatus (q : t) (now : Time) (taskID : string)
  : t * Result TaskStatus.t :=
  let key := statusKey taskID in
  match redis.Get (redis q) now key with
  | redis.Failed err =>
      (q, Err (wrapErr "failed to get status from redis" err))
  | redis.Bytes data =>
      match unmarshalStatus data with
      | Err err => (q, Err (wrapErr "failed to unmarshal status" err))
      | Ok status => (q, Ok status)
      end
  | redis.Nil =>
      match probe (broker q) taskID ["critical"; "default"; "low"] None None with
      | (_, Some lastErr) =>
          (q, Err (wrapErr "task not found in any queue" lastErr))
      | (None, None) => (q, Err "nil task info")   (* not reached *)
      | (Some info, None) =>
          let status := convertAsynqStatus now info in
          (fst (SaveFinalStatus q now status), Ok status)
      end
  end.

End AsynqQueue.

(** ** pkg/storage: the object store (S3 back end) *)

Module S3Storage.

Record t : Type := mk {
  objects : gmap string string;   (* key to bytes *)
  up : bool
}.

(** [Store]: the key is the name given, and it is the id returned. *)
Definition Store (s : t) (content : string) (key : string)
  : t * Result string :=
  if negb (up s) then (s, Err (wrapErr "failed to store file" "connection refused"))
  else (mk (<[key := content]> (objects s)) (up s), Ok key).

End S3Storage.

(** ** internal/service/document: the ingest service *)

Module ServiceConfig.
Record t : Type := mk {
  MaxFileSize : Z;
  AllowedTypes : list string;
  StoragePath : string;
  QueuePriority : Z;
  MaxConcurrent : Z;
  ProcessTimeout : Z;
  RetentionPeriod : Z
}.
End ServiceConfig.

(** [multipart.FileHeader], the fields the service reads *)
Module FileHeader.
Record t : Type := mk {
  Filename : string;
  Size : Z
}.
End FileHeader.

Module DocumentService.
Import models.

(** The service with the state of its collaborators: the queue, the
    object store and the lines the logger has written. *)
Record t : Type := mk {
  queue : AsynqQueue.t;
  storage : S3Storage.t;
  logger : list string;
  config : ServiceConfig.t
}.

(** The configuration [NewService] builds when it is given [nil]; the
    fields the literal does not name have their zero value. *)
Definition nilConfig : ServiceConfig.t :=
  ServiceConfig.mk (50 * 1024 * 1024)
    [".pdf"; ".doc"; ".docx"; ".jpg"; ".jpeg"; ".png"; ".tiff"]
    "" 0 5 (30 * Minute) (24 * Hour).

Definition NewService (queue : AsynqQueue.t) (storage : S3Storage.t)
  (logger : list string) (cfg : option ServiceConfig.t) : t :=
  match cfg with
  | None => mk queue storage logger nilConfig
  | Some cfg => mk queue storage logger cfg
  end.

(** The configuration literal of [GetService] (its comment calls it the
    default configuration). *)
Definition getServiceConfig : ServiceConfig.t :=
  ServiceConfig.mk (50 * 1024 * 1024)
    [".pdf"; ".doc"; ".docx"; ".jpg"; ".jpeg"; ".png"; ".tiff"]
    "" 0 5 (30 * Minute) (24 * Hour).

Definition GetService (queue : AsynqQueue.t) (storage : S3Storage.t)
  (logger : list string) : t :=
  NewService queue storage logger (Some getServiceConfig).

Definition log (line : string) (s : t) : t :=
  mk (queue s) (storage s) (logger s ++ [line]) (config s).

Section WithToLower.
(** [strings.ToLower] *)
Variable ToLower : string -> string.

(** The loop of [validateFile] over the allowed types. *)
Fixpoint validType (types : list string) (ext : string) : bool :=
  match types with
  | [] => false
  | t :: rest => if String.eqb t ext then true else validType rest ext
  end.

(** [validateFile]: [None] is the nil error. *)
Definition validateFile (cfg : ServiceConfig.t) (header : FileHeader.t)
  : option string :=
  if ServiceConfig.MaxFileSize cfg <? FileHeader.Size header then
    Some ("file size exceeds maximum limit of "
          +:+ pretty (ServiceConfig.MaxFileSize cfg) +:+ " bytes")
  else
    let ext := ToLower (Ext (FileHeader.Filename header)) in
    if negb (validType (ServiceConfig.AllowedTypes cfg) ext) then
      Some ("unsupported file type: " +:+ ext)
    else None.

(** [ProcessFile].  [taskID] is the identifier [uuid.New()] draws,
    [now] the reading of the clock, [file] the bytes of the upload. *)
Definition ProcessFile (s : t) (now : Time) (taskID : string)
  (file : string) (header : FileHeader.t) : t * Result ProcessingTask.t :=
  let s := log "Starting file processing" s in
  match validateFile (config s) header with
  | Some err => (log "File validation failed" s, Err err)
  | None =>
      let metadata : gmap string string :=
        <["filename" := FileHeader.Filename header]>
          (<["size" := pretty (FileHeader.Size header)]>
             (<["type" := Ext (FileHeader.Filename header)]> ∅)) in
      let task :=
        ProcessingTask.mk taskID StatusPending "document:process"
          (ServiceConfig.QueuePriority (config s)) 0 "" metadata now now in
      match S3Storage.Store (storage s) file (FileHeader.Filename header) with
      | (_, Err err) =>
          (log "Failed to store file" s, Err (wrapErr "failed to store file" err))
      | (storage', Ok fileID) =>
          let s := mk (queue s) storage' (logger s) (config s) in
          let queueTask :=
            Task.mk taskID (ProcessingTask.Type_ task)
              (ProcessingTask.Priority task)
              (<["fileId" := VString fileID]>
                 (<["filename" := VString (FileHeader.Filename header)]>
                    (<["size" := VInt64 (FileHeader.Size header)]>
                       (<["type" := VString (Ext (FileHeader.Filename header))]> ∅))))
              (ProcessingTask.Metadata task)
              (ProcessingTask.CreatedAt task) in
          match AsynqQueue.Enqueue (queue s) now queueTask with
          | (_, _, Some err) =>
              (log "Failed to enqueue task" s,
               Err (wrapErr "failed to enqueue task" err))
          | (queue', _, None) =>
              let s := mk queue' (storage s) (logger s) (config s) in
              let initialStatus := TaskStatus.mk taskID "pending" 0 "" now 0 in
              let s :=
                match AsynqQueue.SaveFinalStatus (queue s) now initialStatus with
                | (_, Some _) => log "Failed to save initial status" s
                | (queue'', None) =>
                    mk queue'' (storage s) (logger s) (config s)
                end in
              (log "File processing task created" s, Ok task)
          end
      end
  end.

End WithToLower.

(** [GetProcessingStatus] *)
Definition GetProcessingStatus (s : t) (now : Time) (taskID : string)
  : t * Result ProcessingTask.t :=
  match AsynqQueue.GetTaskStatus (queue s) now taskID with
  | (_, Err err) => (s, Err (wrapErr "failed to get task status" err))
  | (queue', Ok status) =>
      let st := TaskStatus.Status status in
      let taskStatus :=
        if String.eqb st "pending" then StatusPending
        else if String.eqb st "active" then StatusRunning
        else if String.eqb st "completed" then StatusCompleted
        else if String.eqb st "failed" then StatusFailed
        else StatusPending in
      (mk queue' (storage s) (logger s) (config s),
       Ok (ProcessingTask.mk (TaskStatus.TaskID status) taskStatus
             "document:process" 0 (TaskStatus.Progress status)
             (TaskStatus.Error status) ∅
             (TaskStatus.StartedAt status) (TaskStatus.FinishedAt status)))
  end.

End DocumentService.

(** ** Further operations of the object store and the broker *)

(** [S3Storage.Get]: the bytes stored under the key. *)
Definition S3Storage_Get (s : S3Storage.t) (key : string) : Result string :=
  if negb (S3Storage.up s) then Err (wrapErr "failed to get file" "connection refused")
  else
    match S3Storage.objects s !! key with
    | Some content => Ok content
    | None => Err (wrapErr "failed to get file" "NoSuchKey")
    end.

(** [inspector.DeleteTask(queue, id)] of the broker library: a task that
    is in the queue and not active is removed. *)
Definition asynq_DeleteTask (b : asynq.Broker) (queue : string) (taskID : string)
  : asynq.Broker * option string :=
  if negb (asynq.up b) then (b, Some "connection refused")
  else
    match asynq.tasks b !! (queue, taskID) with
    | None => (b, Some "task not found")
    | Some info =>
        match asynq.TaskInfo.State info with
        | asynq.TaskStateActive => (b, Some "task is in active state")
        | _ => (asynq.mkBroker (delete (queue, taskID) (asynq.tasks b)) (asynq.up b),
                None)
        end
    end.

(** The loop of [AsynqQueue.CancelTask] over the queue names. *)
Fixpoint cancelIn (b : asynq.Broker) (taskID : string) (queues : list string)
  (lastErr : string) : asynq.Broker * option string :=
  match queues with
  | [] => (b, Some (wrapErr "failed to cancel task" lastErr))
  | queue :: rest =>
      match asynq_DeleteTask b queue taskID with
      | (b', None) => (b', None)
      | (_, Some err) => cancelIn b taskID rest err
      end
  end.

(** [AsynqQueue.CancelTask] *)
Definition AsynqQueue_CancelTask (q : AsynqQueue.t) (taskID : string)
  : AsynqQueue.t * option string :=
  let '(b', err) :=
    cancelIn (AsynqQueue.broker q) taskID ["critical"; "default"; "low"] "" in
  (AsynqQueue.mk b' (AsynqQueue.redis q), err).

(** [strconv.ParseInt(s, 10, 64)]: an optional sign and decimal digits, in
    the range of [int64]; [None] is an error. *)
Definition digitOf (c : Ascii.ascii) : option Z :=
  let n := Z.of_N (Ascii.N_of_ascii c) in
  if (48 <=? n) && (n <=? 57) then Some (n - 48) else None.

Fixpoint parseDigits (l : list Ascii.ascii) (acc : Z) : option Z :=
  match l with
  | [] => Some acc
  | c :: rest =>
      match digitOf c with
      | Some d => parseDigits rest (10 * acc + d)
      | None => None
      end
  end.

Definition ParseInt64 (s : string) : option Z :=
  let l := String.list_ascii_of_string s in
  let '(neg, digits) :=
    match l with
    | c :: rest =>
        if Ascii.eqb c (byte_of 43) then (false, rest)
        else if Ascii.eqb c (byte_of 45) then (true, rest)
        else (false, l)
    | [] => (false, l)
    end in
  match digits with
  | [] => None
  | _ =>
      match parseDigits digits 0 with
      | None => None
      | Some un =>
          if neg then (if un <=? 2 ^ 63 then Some (- un) else None)
          else (if un <? 2 ^ 63 then Some un else None)
      end
  end.

(** ** internal/agent: the processor registry *)

Module ProcessorFactory.

(** The processors the factory registers *)
Inductive Processor : Type :=
| pdfProcessor
| textractProcessor.

Definition extToMIME : gmap string string :=
  <[".jpg" := "image/jpeg"]>
    (<[".jpeg" := "image/jpeg"]>
       (<[".png" := "image/png"]>
          (<[".tiff" := "image/tiff"]>
             (<[".pdf" := "application/pdf"]>
                (<[".doc" := "application/msword"]>
                   (<[".docx" :=
                        "application/vnd.openxmlformats-officedocument.wordprocessingml.document"]>
                      ∅)))))).

Record t : Type := mk {
  processors : gmap string Processor
}.

(** [NewProcessorFactory]; [textract] is the error of creating the cloud
    OCR client, if any. *)
Definition NewProcessorFactory (textract : option string) : Result t :=
  match textract with
  | Some err => Err (wrapErr "failed to create textract processor" err)
  | None =>
      Ok (mk (<["image/tiff" := textractProcessor]>
                (<["image/png" := textractProcessor]>
                   (<["image/jpg" := textractProcessor]>
                      (<["image/jpeg" := textractProcessor]>
                         (<["application/pdf" := pdfProcessor]> ∅))))))
  end.

(** [CanProcess] of the two processors *)
Definition CanProcess (ToLower : string -> string) (p : Processor)
  (mimeType : string) : bool :=
  match p with
  | pdfProcessor => String.eqb mimeType "application/pdf"
  | textractProcessor =>
      let m := ToLower mimeType in
      String.eqb m "image/jpeg" || String.eqb m "image/jpg"
      || String.eqb m "image/png" || String.eqb m "image/tiff"
      || String.eqb m "application/pdf"
  end.

(** [GetProcessor], with the lines it logs *)
Definition GetProcessor (ToLower : string -> string) (f : t) (fileType : string)
  : list string * Result Processor :=
  match extToMIME !! ToLower fileType with
  | None =>
      (["Getting processor"; "Unsupported file type"],
       Err ("unsupported file type: " +:+ fileType))
  | Some mimeType =>
      match processors f !! mimeType with
      | None =>
          (["Getting processor"; "Mapped MIME type"; "No processor found"],
           Err ("no processor found for mime type: " +:+ mimeType))
      | Some processor =>
          (["Getting processor"; "Mapped MIME type"], Ok processor)
      end
  end.

End ProcessorFactory.

(** ** internal/service/document: the worker side of the service *)

Section Worker.
Import models.

(** [strings.ToLower] *)
Variable ToLower : string -> string.
(** [processor.Process] on the bytes of the file, as it turns out in
    this run *)
Variable process : ProcessorFactory.Processor -> string -> Result (list DocumentChunk.t).
(** [json.Marshal] of the result document and the decoding of
    [json.NewDecoder(reader).Decode] *)
Variable marshalDoc : ProcessedDocument.t -> Result string.
Variable decodeDoc : string -> Result ProcessedDocument.t.

Definition logLines (lines : list string) (s : DocumentService.t) : DocumentService.t :=
  DocumentService.mk (DocumentService.queue s) (DocumentService.storage s)
                     (DocumentService.logger s ++ lines) (DocumentService.config s).

(** The fields [HandleDocument] sets in the converted document. *)
Definition updateResult (task : Task.t) (now : Time) (doc : ProcessedDocument.t)
  : ProcessedDocument.t :=
  let m := ProcessedDocument.Metadata doc in
  let fileName := default "" (Task.Metadata task !! "filename") in
  let fileType := default "" (Task.Metadata task !! "type") in
  let fileSize :=
    match ParseInt64 (default "" (Task.Metadata task !! "size")) with
    | Some size => size
    | None => DocumentMetadata.FileSize m
    end in
  ProcessedDocument.mk (Task.ID task) (ProcessedDocument.Status doc)
    (ProcessedDocument.Content doc)
    (DocumentMetadata.mk fileName fileType fileSize
       (DocumentMetadata.PageCount m) (DocumentMetadata.Sections m)
       (DocumentMetadata.Language m) (DocumentMetadata.Confidence m)
       (DocumentMetadata.ProcessingMs m))
    now.

(** [HandleDocument] for a task whose payload and metadata maps are
    present; the outer [None] is the panic of the type assertion on
    [fileId]. *)
Definition DocumentService_HandleDocument (factory : ProcessorFactory.t)
  (s : DocumentService.t) (now : Time) (task : Task.t)
  : option (DocumentService.t * option string) :=
  let s := logLines ["Processing document"] s in
  match asString (Task.Payload task !! "fileId") with
  | None => None
  | Some fileID =>
      match S3Storage_Get (DocumentService.storage s) fileID with
      | Err err => Some (s, Some (wrapErr "failed to get file" err))
      | Ok reader =>
          match ProcessorFactory.GetProcessor ToLower factory
                  (default "" (Task.Metadata task !! "type")) with
          | (lines, Err err) =>
              Some (logLines lines s, Some (wrapErr "failed to get processor" err))
          | (lines, Ok processor) =>
              let s := logLines lines s in
              match process processor reader with
              | Err err => Some (s, Some (wrapErr "failed to process document" err))
              | Ok chunks =>
                  match JSONConverter.Convert now chunks with
                  | Err err => Some (s, Some (wrapErr "failed to convert document" err))
                  | Ok processedDoc =>
                      let processedDoc := updateResult task now processedDoc in
                      match marshalDoc processedDoc with
                      | Err err => Some (s, Some (wrapErr "failed to marshal result" err))
                      | Ok resultData =>
                          match S3Storage.Store (DocumentService.storage s) resultData
                                  ("result:" +:+ Task.ID task) with
                          | (_, Err err) =>
                              Some (s, Some (wrapErr "failed to store result" err))
                          | (storage', Ok _) =>
                              let s :=
                                DocumentService.mk (DocumentService.queue s) storage'
                                  (DocumentService.logger s) (DocumentService.config s) in
                              let s := logLines ["Document processing completed"] s in
                              let finalStatus :=
                                TaskStatus.mk (Task.ID task) "completed" 1 ""
                                              (Task.CreatedAt task) now in
                              let s :=
                                match AsynqQueue.SaveFinalStatus
                                        (DocumentService.queue s) now finalStatus with
                                | (_, Some _) => logLines ["Failed to save final status"] s
                                | (queue', None) =>
                                    DocumentService.mk queue' (DocumentService.storage s)
                                      (DocumentService.logger s) (DocumentService.config s)
                                end in
                              Some (s, None)
                          end
                      end
                  end
              end
          end
      end
  end.

(** [GetProcessedDocument] *)
Definition DocumentService_GetProcessedDocument (s : DocumentService.t)
  (now : Time) (taskID : string)
  : DocumentService.t * Result ProcessedDocument.t :=
  match DocumentService.GetProcessingStatus s now taskID with
  | (s', Err err) => (s', Err err)
  | (s', Ok status) =>
      if negb (String.eqb (ProcessingTask.Status status) StatusCompleted) then
        (s', Err ("task is not completed: " +:+ ProcessingTask.Status status))
      else
        match S3Storage_Get (DocumentService.storage s') ("result:" +:+ taskID) with
        | Err err => (s', Err (wrapErr "failed to get result" err))
        | Ok reader =>
            match decodeDoc reader with
            | Err err => (s', Err (wrapErr "failed to decode result" err))
            | Ok result => (s', Ok result)
            end
        end
  end.

(** [CancelTask] *)
Definition DocumentService_CancelTask (s : DocumentService.t) (taskID : string)
  : DocumentService.t * option string :=
  match AsynqQueue_CancelTask (DocumentService.queue s) taskID with
  | (_, Some err) => (s, Some (wrapErr "failed to cancel task" err))
  | (queue', None) =>
      (logLines ["Task cancelled"]
         (DocumentService.mk queue' (DocumentService.storage s)
            (DocumentService.logger s) (DocumentService.config s)),
       None)
  end.

End Worker.

(** ** internal/agent/document/image: local OCR with a vision model *)

(** A word box of the OCR engine *)
Module BoundingBox.
Record t : Type := mk {
  MinX : Z;
  MinY : Z;
  MaxX : Z;
  MaxY : Z;
  Word : string;
  Confidence : float
}.
End BoundingBox.

Module OllamaConfig.
Record t : Type := mk {
  Enabled : bool;
  Endpoint : string;
  Model : string;
  MaxTokens : Z;
  Temperature : float;
  Prompt : string;
  MaxPoolSize : Z;
  PoolTimeout : Z
}.
End OllamaConfig.

(** The options [Process] and the functions it calls read. *)
Module ProcessOptions.
Record t : Type := mk {
  Language : list string;
  MinConfidence : float;
  OllamaConfig_ : OllamaConfig.t
}.
End ProcessOptions.

Module ImageProcessor.
Import models.

(** What the OCR engine does in one run of [performOCRWithClient]: a call
    up to and including [client.Text()] fails with the error the function
    returns; or the text is read and the boxes are not; or both are. *)
Inductive OCROutcome : Type :=
| OCRError (err : string)
| OCRTextOnly (text : string)
| OCRBoxes (text : string) (boxes : list BoundingBox.t).

(** [ollamaPool.Get]: a client, or the time-out or cancellation error *)
Inductive Acquire : Type :=
| PoolClient
| PoolError (err : string).

(** [AnalyzeImage]: the text of the response, or an error (with which
    the function returns the empty string) *)
Inductive Analysis : Type :=
| AnalysisText (response : string)
| AnalysisError (err : string).

(** The outcomes of the calls that leave the process in one run. *)
Record Run : Type := mkRun {
  setup : option string;     (* the error, as returned, of setting the
                                language or the segmentation mode, reading,
                                decoding or preprocessing; none if all pass *)
  ocr : OCROutcome;
  poolGet : Acquire;
  analyzeImage : string -> Analysis     (* by prompt *)
}.

(** The conversion loop of [postProcessOCR] *)
Definition regionOf (box : BoundingBox.t) : Region :=
  mkRegion (BoundingBox.MinX box) (BoundingBox.MinY box)
           (BoundingBox.MaxX box - BoundingBox.MinX box)
           (BoundingBox.MaxY box - BoundingBox.MinY box)
           (BoundingBox.Word box) (BoundingBox.Confidence box).

(** [postProcessOCR] *)
Definition postProcessOCR (config : ProcessOptions.t) (text : string)
  (boxes : list BoundingBox.t) : string * float * list Region :=
  let '(totalConfidence, validBoxes) :=
    fold_left
      (fun '(total, valid) box =>
         if PrimFloat.leb (ProcessOptions.MinConfidence config)
                          (BoundingBox.Confidence box)
         then ((total + BoundingBox.Confidence box)%float, valid ++ [box])
         else (total, valid))
      boxes (0%float, []) in
  let regions := map regionOf validBoxes in
  let avgConfidence :=
    if 0 <? Z.of_nat (length validBoxes)
    then (totalConfidence / float64_of_int (Z.of_nat (length validBoxes)))%float
    else 0%float in
  (text, avgConfidence, regions).

(** [performOCRWithClient], with the line it logs *)
Definition performOCRWithClient (config : ProcessOptions.t) (o : OCROutcome)
  : list string * Result (string * float * list Region) :=
  match o with
  | OCRError err => ([], Err err)
  | OCRTextOnly text => (["Failed to get bounding boxes"], Ok (text, 0%float, []))
  | OCRBoxes text boxes => ([], Ok (postProcessOCR config text boxes))
  end.

Section WithSprintf.
(** [fmt.Sprintf] of a format and one string argument *)
Variable Sprintf : string -> string -> string.

(** [Process]: the lines logged and the chunks or the error. *)
Definition Process (config : ProcessOptions.t) (run : Run)
  : list string * Result (list DocumentChunk.t) :=
  match setup run with
  | Some err => ([], Err err)
  | None =>
      match performOCRWithClient config (ocr run) with
      | (lines, Err err) => (lines, Err err)
      | (lines, Ok (text, confidence, regions)) =>
          let ollama := ProcessOptions.OllamaConfig_ config in
          let '(ollamaText, lines) :=
            if OllamaConfig.Enabled ollama then
              match poolGet run with
              | PoolError _ => ("", lines ++ ["Failed to get Ollama client"])
              | PoolClient =>
                  let prompt := Sprintf (OllamaConfig.Prompt ollama) text in
                  match analyzeImage run prompt with
                  | AnalysisText response => (response, lines)
                  | AnalysisError _ =>
                      ("", lines ++ ["Failed to analyze image with Ollama"])
                  end
              end
            else ("", lines) in
          let chunks :=
            [ DocumentChunk.mk text
                (<["source" := VString "tesseract"]>
                   (<["confidence" := VFloat64 confidence]>
                      (<["regions" := VRegions regions]> ∅))) ] in
          let chunks :=
            if negb (String.eqb ollamaText "") then
              chunks ++
              [ DocumentChunk.mk ollamaText
                  (<["source" := VString "ollama"]>
                     (<["model" := VString (OllamaConfig.Model ollama)]> ∅)) ]
            else chunks in
          (lines, Ok chunks)
      end
  end.

End WithSprintf.

End ImageProcessor.

(** ** internal/agent/document/image: the cloud OCR extractor *)

Module Relationship.
Record t : Type := mk {
  Type_ : string;
  Ids : list string
}.
End Relationship.

(** A block of the analysis; a pointer field is an option. *)
Module Block.
Record t : Type := mk {
  BlockType : string;
  Confidence : option float;
  Text : option string;
  Id : option string;
  EntityTypes : list string;
  Relationships : list Relationship.t;
  RowIndex : option Z;
  ColumnIndex : option Z
}.
End Block.

Module TextractConfig.
Record t : Type := mk {
  MinConfidence : float;
  EnableTable : bool;
  EnableForm : bool
}.
End TextractConfig.

Module Table.
Record t : Type := mk {
  Content : string;
  Rows : Z;
  Cols : Z;
  Cells : list (list string)
}.
End Table.

Module FormField.
Record t : Type := mk {
  Key : string;
  Value_ : string
}.
End FormField.

Module TextractProcessor.
Import models.

Definition BlockTypeLine : string := "LINE".
Definition BlockTypeTable : string := "TABLE".
Definition BlockTypeCell : string := "CELL".
Definition BlockTypeKeyValueSet : string := "KEY_VALUE_SET".
Definition EntityTypeKey : string := "KEY".

(** The input stream and the answer of the service *)
Inductive Reply : Type :=
| ReadFailed (err : string)
| AnalyzeFailed (err : string)
| Analyzed (blocks : list Block.t).

(** [processBlocks]; [None] is the nil dereference of [*block.Text]. *)
Fixpoint processBlocks (config : TextractConfig.t) (blocks : list Block.t)
  (texts : list string) : option (list string) :=
  match blocks with
  | [] => Some texts
  | block :: rest =>
      match Block.Confidence block with
      | Some confidence =>
          if String.eqb (Block.BlockType block) BlockTypeLine
             && PrimFloat.leb (TextractConfig.MinConfidence config) confidence
          then
            match Block.Text block with
            | Some text => processBlocks config rest (texts ++ [text])
            | None => None
            end
          else processBlocks config rest texts
      | None => processBlocks config rest texts
      end
  end.

(** The scan of all blocks for the largest row and column index of a
    cell, from the counts so far. *)
Definition cellExtent (blocks : list Block.t) (counts : Z * Z) : Z * Z :=
  fold_left
    (fun '(rowCount, colCount) childBlock =>
       if String.eqb (Block.BlockType childBlock) BlockTypeCell then
         (match Block.RowIndex childBlock with
          | Some r => if rowCount <? r then r else rowCount
          | None => rowCount
          end,
          match Block.ColumnIndex childBlock with
          | Some c => if colCount <? c then c else colCount
          | None => colCount
          end)
       else (rowCount, colCount))
    blocks counts.

Definition tableExtent (block : Block.t) (blocks : list Block.t) : Z * Z :=
  fold_left
    (fun counts relationship =>
       if String.eqb (Relationship.Type_ relationship) "CHILD"
       then cellExtent blocks counts
       else counts)
    (Block.Relationships block) (0, 0).

Definition newTable (rowCount colCount : Z) : Table.t :=
  Table.mk "" rowCount colCount
    (replicate (Z.to_nat rowCount) (replicate (Z.to_nat colCount) "")).

(** [currentTable.Cells[row][col] = text]; [None] is the index panic. *)
Definition setCell (table : Table.t) (row col : Z) (text : string)
  : option Table.t :=
  if (0 <=? row) && (row <? Z.of_nat (length (Table.Cells table))) then
    let cells := nth (Z.to_nat row) (Table.Cells table) [] in
    if (0 <=? col) && (col <? Z.of_nat (length cells)) then
      Some (Table.mk (Table.Content table) (Table.Rows table) (Table.Cols table)
              (<[Z.to_nat row := <[Z.to_nat col := text]> cells]>
                 (Table.Cells table)))
    else None
  else None.

(** The loop of [processTables] with its variables [tables] and
    [currentTable]. *)
Fixpoint tablesLoop (all : list Block.t) (blocks : list Block.t)
  (tables : list Table.t) (currentTable : option Table.t)
  : option (list Table.t * option Table.t) :=
  match blocks with
  | [] => Some (tables, currentTable)
  | block :: rest =>
      if String.eqb (Block.BlockType block) BlockTypeTable then
        let tables :=
          match currentTable with
          | Some table => tables ++ [table]
          | None => tables
          end in
        let '(rowCount, colCount) := tableExtent block all in
        tablesLoop all rest tables (Some (newTable rowCount colCount))
      else
        match currentTable with
        | Some table =>
            if String.eqb (Block.BlockType block) BlockTypeCell then
              match Block.RowIndex block, Block.ColumnIndex block with
              | Some rowIndex, Some columnIndex =>
                  let row := wrap32 (rowIndex - 1) in
                  let col := wrap32 (columnIndex - 1) in
                  match Block.Text block with
                  | Some text =>
                      match setCell table row col text with
                      | Some table' => tablesLoop all rest tables (Some table')
                      | None => None
                      end
                  | None => tablesLoop all rest tables currentTable
                  end
              | _, _ => tablesLoop all rest tables currentTable
              end
            else tablesLoop all rest tables currentTable
        | None => tablesLoop all rest tables currentTable
        end
  end.

(** [processTables] *)
Definition processTables (blocks : list Block.t) : option (list Table.t) :=
  match tablesLoop blocks blocks [] None with
  | Some (tables, Some table) => Some (tables ++ [table])
  | Some (tables, None) => Some tables
  | None => None
  end.

(** [getTextFromRelationships]: the builder collects, for every id of
    every CHILD relationship, the text of every block with that id,
    each followed by a space. *)
Definition getTextFromRelationships (relationships : list Relationship.t)
  (blocks : list Block.t) : string :=
  let text :=
    fold_left
      (fun text rel =>
         if String.eqb (Relationship.Type_ rel) "CHILD" then
           fold_left
             (fun text id =>
                fold_left
                  (fun text block =>
                     match Block.Id block, Block.Text block with
                     | Some blockId, Some blockText =>
                         if String.eqb blockId id
                         then text +:+ blockText +:+ " "
                         else text
                     | _, _ => text
                     end)
                  blocks text)
             (Relationship.Ids rel) text
         else text)
      relationships "" in
  TrimSpace text.

(** The loops of [getValueFromKeyBlock], which return at the first block
    whose id is listed by a VALUE relationship. *)
Fixpoint valueOfBlock (id : string) (scan : list Block.t) (blocks : list Block.t)
  : option string :=
  match scan with
  | [] => None
  | block :: rest =>
      match Block.Id block with
      | Some blockId =>
          if String.eqb blockId id
          then Some (getTextFromRelationships (Block.Relationships block) blocks)
          else valueOfBlock id rest blocks
      | None => valueOfBlock id rest blocks
      end
  end.

Fixpoint valueOfIds (ids : list string) (blocks : list Block.t) : option string :=
  match ids with
  | [] => None
  | id :: rest =>
      match valueOfBlock id blocks blocks with
      | Some value => Some value
      | None => valueOfIds rest blocks
      end
  end.

Fixpoint valueOfRelationships (relationships : list Relationship.t)
  (blocks : list Block.t) : option string :=
  match relationships with
  | [] => None
  | rel :: rest =>
      if String.eqb (Relationship.Type_ rel) "VALUE" then
        match valueOfIds (Relationship.Ids rel) blocks with
        | Some value => Some value
        | None => valueOfRelationships rest blocks
        end
      else valueOfRelationships rest blocks
  end.

(** [getValueFromKeyBlock] *)
Definition getValueFromKeyBlock (keyBlock : Block.t) (blocks : list Block.t)
  : string :=
  match valueOfRelationships (Block.Relationships keyBlock) blocks with
  | Some value => value
  | None => ""
  end.

(** The test of [processForms] on a block *)
Definition isKeyBlock (block : Block.t) : bool :=
  String.eqb (Block.BlockType block) BlockTypeKeyValueSet
  && match Block.EntityTypes block with
     | first :: _ => String.eqb first EntityTypeKey
     | [] => false
     end.

(** [processForms] *)
Definition processForms (blocks : list Block.t) : list FormField.t :=
  fold_left
    (fun forms block =>
       if isKeyBlock block then
         let key := getTextFromRelationships (Block.Relationships block) blocks in
         let value := getValueFromKeyBlock block blocks in
         if negb (String.eqb key "") && negb (String.eqb value "")
         then forms ++ [FormField.mk key value]
         else forms
       else forms)
    blocks [].

Definition textChunk (textBlocks : list string) : DocumentChunk.t :=
  DocumentChunk.mk (String.concat (String (byte_of 10) "") textBlocks)
    (<["source" := VString "textract"]> (<["type" := VString "text"]> ∅)).

Definition tableChunk (table : Table.t) : DocumentChunk.t :=
  DocumentChunk.mk (Table.Content table)
    (<["source" := VString "textract"]>
       (<["type" := VString "table"]>
          (<["rows" := VInt (Table.Rows table)]>
             (<["cols" := VInt (Table.Cols table)]> ∅)))).

Definition formChunk (form : FormField.t) : DocumentChunk.t :=
  DocumentChunk.mk (FormField.Key form +:+ ": " +:+ FormField.Value_ form)
    (<["source" := VString "textract"]>
       (<["type" := VString "form"]>
          (<["key" := VString (FormField.Key form)]> ∅))).

(** [Process]; [None] is a run that panics. *)
Definition Process (config : TextractConfig.t) (reply : Reply)
  : option (Result (list DocumentChunk.t)) :=
  match reply with
  | ReadFailed err => Some (Err (wrapErr "failed to read file" err))
  | AnalyzeFailed err => Some (Err (wrapErr "failed to analyze document" err))
  | Analyzed blocks =>
      match processBlocks config blocks [] with
      | None => None
      | Some textBlocks =>
          let chunks :=
            if 0 <? Z.of_nat (length textBlocks) then [textChunk textBlocks]
            else [] in
          let withTables :=
            if TextractConfig.EnableTable config then
              match processTables blocks with
              | Some tables => Some (chunks ++ map tableChunk tables)
              | None => None
              end
            else Some chunks in
          match withTables with
          | None => None
          | Some chunks =>
              let chunks :=
                if TextractConfig.EnableForm config
                then chunks ++ map formChunk (processForms blocks)
                else chunks in
              Some (Ok chunks)
          end
      end
  end.

End TextractProcessor.

(** ** internal/agent/document/image: the adaptive-threshold preprocessor *)

Module Rectangle.
Record t : Type := mk {
  MinX : Z;
  MinY : Z;
  MaxX : Z;
  MaxY : Z
}.

(** [Point{x, y}.In(r)] *)
Definition contains (r : t) (x y : Z) : bool :=
  (MinX r <=? x) && (x <? MaxX r) && (MinY r <=? y) && (y <? MaxY r).
End Rectangle.

(** The image [imaging.Grayscale] returns, as the code reads it: its
    bounds and, for a point, the [Y] of
    [color.GrayModel.Convert(grayImg.At(x, y))], a [uint8]. *)
Module GrayImage.
Record t : Type := mk {
  Bounds : Rectangle.t;
  GrayAt : Z -> Z -> Z
}.
End GrayImage.

(** [image.Gray]: one byte per pixel, rows of [Stride] bytes *)
Module Gray.
Record t : Type := mk {
  Pix : list Z;
  Stride : Z;
  Rect : Rectangle.t
}.

Definition PixOffset (img : t) (x y : Z) : Z :=
  (y - Rectangle.MinY (Rect img)) * Stride img + (x - Rectangle.MinX (Rect img)).

(** [image.NewGray(r)] *)
Definition NewGray (r : Rectangle.t) : t :=
  let w := Rectangle.MaxX r - Rectangle.MinX r in
  let h := Rectangle.MaxY r - Rectangle.MinY r in
  mk (replicate (Z.to_nat (w * h)) 0) w r.

(** [draw.Draw(img, img.Rect, &image.Uniform{color.White}, image.Point{},
    draw.Src)]: every pixel becomes 255. *)
Definition fillWhite (img : t) : t :=
  mk (replicate (length (Pix img)) 255) (Stride img) (Rect img).

(** [img.Set(x, y, c)] with [y] the gray value of the color [c]; a point
    outside the rectangle is ignored. *)
Definition Set_ (img : t) (x y : Z) (value : Z) : t :=
  if Rectangle.contains (Rect img) x y
  then mk (<[Z.to_nat (PixOffset img x y) := value]> (Pix img)) (Stride img) (Rect img)
  else img.

(** [img.GrayAt(x, y).Y] *)
Definition GrayAt (img : t) (x y : Z) : Z :=
  if Rectangle.contains (Rect img) x y
  then default 0 (Pix img !! Z.to_nat (PixOffset img x y))
  else 0.
End Gray.

Module AdaptiveThresholdProcessor.

Record t : Type := mk {
  blockSize : Z;
  constant : float
}.

Definition NewAdaptiveThresholdProcessor (blockSize : Z) (constant : float) : t :=
  mk blockSize constant.

(** The argument of [Process]: nil, or an image given by its grayscale
    version. *)
Inductive Input : Type :=
| Nil
| Image (grayImg : GrayImage.t).

(** [halfBlock := p.blockSize / 2]; Go's division truncates. *)
Definition halfBlock (p : t) : Z := Z.quot (blockSize p) 2.

(** The two inner loops: [sum] and [count] over the window of (x, y). *)
Definition windowStats (p : t) (grayImg : GrayImage.t) (x y : Z) : Z * Z :=
  let bounds := GrayImage.Bounds grayImg in
  forRange (- halfBlock p) (halfBlock p + 1)
    (fun acc dy =>
       forRange (- halfBlock p) (halfBlock p + 1)
         (fun '(sum, count) dx =>
            let nx := x + dx in
            let ny := y + dy in
            if (Rectangle.MinX bounds <=? nx) && (nx <? Rectangle.MaxX bounds)
               && (Rectangle.MinY bounds <=? ny) && (ny <? Rectangle.MaxY bounds)
            then (sum + GrayImage.GrayAt grayImg nx ny, count + 1)
            else (sum, count))
         acc)
    (0, 0).

(** The body of the loops over [y] and [x]. *)
Definition thresholdPixel (p : t) (grayImg : GrayImage.t) (result : Gray.t)
  (x y : Z) : Gray.t :=
  let '(sum, count) := windowStats p grayImg x y in
  if 0 <? count then
    let mean := (float64_of_int sum / float64_of_int count)%float in
    let pixel := GrayImage.GrayAt grayImg x y in
    if PrimFloat.ltb (float64_of_int pixel) (mean - constant p)%float
    then Gray.Set_ result x y 0
    else result
  else result.

(** [Process] *)
Definition Process (p : t) (img : Input) : Result Gray.t :=
  match img with
  | Nil => Err "input image is nil"
  | Image grayImg =>
      let bounds := GrayImage.Bounds grayImg in
      let result := Gray.fillWhite (Gray.NewGray bounds) in
      Ok (forRange (Rectangle.MinY bounds) (Rectangle.MaxY bounds)
            (fun result y =>
               forRange (Rectangle.MinX bounds) (Rectangle.MaxX bounds)
                 (fun result x => thresholdPixel p grayImg result x y)
                 result)
            result)
  end.

End AdaptiveThresholdProcessor.

(** ** internal/agent/document/image: edge and table detection *)

Module EdgeDetectionProcessor.

Record t : Type := mk {
  threshold : float
}.

Definition NewEdgeDetectionProcessor (threshold : float) : t := mk threshold.

(** [magnitude] at (x, y): the differences of the two horizontal and of
    the two vertical neighbours.  The gray values are bytes, so the
    products and their sum are exact, fused or not. *)
Definition magnitude (grayImg : GrayImage.t) (x y : Z) : float :=
  let gx := (float64_of_int (GrayImage.GrayAt grayImg (x + 1) y)
             - float64_of_int (GrayImage.GrayAt grayImg (x - 1) y))%float in
  let gy := (float64_of_int (GrayImage.GrayAt grayImg x (y + 1))
             - float64_of_int (GrayImage.GrayAt grayImg x (y - 1)))%float in
  PrimFloat.sqrt (gx * gx + gy * gy)%float.

(** The body of the loops over [y] and [x]. *)
Definition edgePixel (p : t) (grayImg : GrayImage.t) (result : Gray.t)
  (x y : Z) : Gray.t :=
  if PrimFloat.ltb (threshold p) (magnitude grayImg x y)
  then Gray.Set_ result x y 0
  else Gray.Set_ result x y 255.

(** [Process], for an image given by its grayscale version; the error
    it returns is always nil. *)
Definition Process (p : t) (grayImg : GrayImage.t) : Result Gray.t :=
  let bounds := GrayImage.Bounds grayImg in
  let result := Gray.NewGray bounds in
  Ok (forRange (Rectangle.MinY bounds + 1) (Rectangle.MaxY bounds - 1)
        (fun result y =>
           forRange (Rectangle.MinX bounds + 1) (Rectangle.MaxX bounds - 1)
             (fun result x => edgePixel p grayImg result x y)
             result)
        result).

End EdgeDetectionProcessor.

Module TableDetectionProcessor.

Record t : Type := mk {
  minLineLength : Z;
  maxLineGap : Z
}.

Definition NewTableDetectionProcessor (minLineLength maxLineGap : Z) : t :=
  mk minLineLength maxLineGap.

(** [image.Rect(x0, y0, x1, y1)], which orders the coordinates *)
Definition Rect (x0 y0 x1 y1 : Z) : Rectangle.t :=
  let '(x0, x1) := if x1 <? x0 then (x1, x0) else (x0, x1) in
  let '(y0, y1) := if y1 <? y0 then (y1, y0) else (y0, y1) in
  Rectangle.mk x0 y0 x1 y1.

(** The body of the loop over [x] of the scan for horizontal lines, on
    [lineStart], [blackCount] and [horizontalLines]. *)
Definition horizontalStep (p : t) (grayImg : GrayImage.t) (y : Z)
  (s : Z * Z * list Rectangle.t) (x : Z) : Z * Z * list Rectangle.t :=
  let '(lineStart, blackCount, horizontalLines) := s in
  if GrayImage.GrayAt grayImg x y <? 128 then
    ((if lineStart =? -1 then x else lineStart), blackCount + 1, horizontalLines)
  else if negb (lineStart =? -1) then
    (-1, 0,
     if minLineLength p <=? blackCount
     then horizontalLines ++ [Rect lineStart y x (y + 1)]
     else horizontalLines)
  else (lineStart, blackCount, horizontalLines).

(** The scan for horizontal lines of [detectTableCells]: [bounds] are
    the bounds of the image, [grayImg] its grayscale version. *)
Definition horizontalLines (p : t) (bounds : Rectangle.t) (grayImg : GrayImage.t)
  : list Rectangle.t :=
  forRange (Rectangle.MinY bounds) (Rectangle.MaxY bounds)
    (fun horizontalLines y =>
       let '(_, _, horizontalLines) :=
         forRange (Rectangle.MinX bounds) (Rectangle.MaxX bounds)
           (horizontalStep p grayImg y) (-1, 0, horizontalLines) in
       horizontalLines)
    [].

(** The body of the loop over [y] of the scan for vertical lines. *)
Definition verticalStep (p : t) (grayImg : GrayImage.t) (x : Z)
  (s : Z * Z * list Rectangle.t) (y : Z) : Z * Z * list Rectangle.t :=
  let '(lineStart, blackCount, verticalLines) := s in
  if GrayImage.GrayAt grayImg x y <? 128 then
    ((if lineStart =? -1 then y else lineStart), blackCount + 1, verticalLines)
  else if negb (lineStart =? -1) then
    (-1, 0,
     if minLineLength p <=? blackCount
     then verticalLines ++ [Rect x lineStart (x + 1) y]
     else verticalLines)
  else (lineStart, blackCount, verticalLines).

(** The scan for vertical lines *)
Definition verticalLines (p : t) (bounds : Rectangle.t) (grayImg : GrayImage.t)
  : list Rectangle.t :=
  forRange (Rectangle.MinX bounds) (Rectangle.MaxX bounds)
    (fun verticalLines x =>
       let '(_, _, verticalLines) :=
         forRange (Rectangle.MinY bounds) (Rectangle.MaxY bounds)
           (verticalStep p grayImg x) (-1, 0, verticalLines) in
       verticalLines)
    [].

End TableDetectionProcessor.
(** ** Definitions used to state the properties *)

(** *** The normalizer *)

(** The confidence a chunk adds to the running total. *)
Definition addConfidence (total : float) (chunk : models.DocumentChunk.t) : float :=
  match asFloat64 (models.DocumentChunk.Metadata chunk !! "confidence") with
  | Some conf => (total + conf)%float
  | None => total
  end.

Fixpoint contentsFrom (i : Z) (chunks : list models.DocumentChunk.t) : list ChunkContent.t :=
  match chunks with
  | [] => []
  | chunk :: rest => JSONConverter.chunkContent i chunk :: contentsFrom (i + 1) rest
  end.

(** Two chunk sequences a worker hands to the normalizer: the page of a
    one-page PDF, which carries no confidence, and the two chunks of an
    image, the OCR chunk with confidence 80 and the vision chunk without
    one. *)
Definition pdfPageChunk : models.DocumentChunk.t :=
  PdfProcessor.pageChunk "9f86d081" 1 "Hello".

Definition ocrChunk80 : models.DocumentChunk.t :=
  models.DocumentChunk.mk "Hello"
    (<["source" := VString "tesseract"]>
       (<["confidence" := VFloat64 80]> (<["regions" := VRegions []]> ∅))).

Definition visionChunk : models.DocumentChunk.t :=
  models.DocumentChunk.mk "Hello"
    (<["source" := VString "ollama"]> (<["model" := VString "llama3.2-vision"]> ∅)).

Definition confidenceOf (r : Result ProcessedDocument.t) : option float :=
  match r with
  | Ok doc => Some (DocumentMetadata.Confidence (ProcessedDocument.Metadata doc))
  | Err _ => None
  end.

(** *** The PDF extractor *)

(** The chunks are in ascending order of the page number they carry. *)
Definition ascendingPages (chunks : list models.DocumentChunk.t) : Prop :=
  StronglySorted
    (fun a b => match PdfProcessor.pageOf a, PdfProcessor.pageOf b with
                | Some p, Some q => p < q
                | _, _ => False
                end) chunks.

(** The numbers of the pages of a document that are not null, in ascending
    order. *)
Definition nonNullPages (pages : list PdfProcessor.Page) : list Z :=
  filter (fun p => PdfProcessor.notNull pages p = true)
         (seqZ 1 (Z.of_nat (length pages))).

(** While the group has no error, the pages sent and the pages still
    pending that are not null are together the pages of the document that
    are not null. *)
Definition accounted (pages : list PdfProcessor.Page) (c : PdfProcessor.Conf) : Prop :=
  PdfProcessor.groupErr c = None ->
  Permutation
    (map PdfProcessor.pageOf (PdfProcessor.chunkChan c)
     ++ map Some (filter (fun p => PdfProcessor.notNull pages p = true)
                         (PdfProcessor.pending c)))
    (map Some (nonNullPages pages)).

Definition twoPages : PdfProcessor.Input :=
  PdfProcessor.Document "9f86d081"
    [PdfProcessor.TextPage "first"; PdfProcessor.TextPage "second"].

Definition threePagesOneNull : PdfProcessor.Input :=
  PdfProcessor.Document "9f86d081"
    [PdfProcessor.TextPage "first"; PdfProcessor.NullPage;
     PdfProcessor.TextPage "third"].

(** *** The queue *)

(** The broker holds [task] in the queue [name] under the task's id. *)
Definition routedTo (q : AsynqQueue.t) (name : string) (task : Task.t) : Prop :=
  exists info,
    asynq.tasks (AsynqQueue.broker q) !! (name, Task.ID task) = Some info /\
    asynq.TaskInfo.Queue info = name /\
    asynq.TaskInfo.Payload info = task.

(** Between [q] and [q'] no queue other than [name] changed at [taskID]. *)
Definition otherQueuesKept (q q' : AsynqQueue.t) (name taskID : string) : Prop :=
  forall other, other <> name ->
    asynq.tasks (AsynqQueue.broker q') !! (other, taskID)
    = asynq.tasks (AsynqQueue.broker q) !! (other, taskID).

(** A queue with a live broker and a live, empty status cache. *)
Definition emptyQueue : AsynqQueue.t :=
  AsynqQueue.mk (asynq.mkBroker ∅ true) (redis.mkClient ∅ true).

Definition uploadTask (taskID : string) (priority : Z) : Task.t :=
  Task.mk taskID "document:process" priority
    (<["fileId" := VString "report.pdf"]> (<["size" := VInt64 1024]> ∅))
    (<["filename" := "report.pdf"]> ∅) 0.

(** A broker task in the given queue and state. *)
Definition brokerTask (taskID queue : string) (state : asynq.TaskState)
  : asynq.TaskInfo.t :=
  asynq.TaskInfo.mk taskID queue "document:process" (uploadTask taskID 0)
    state 3 (30 * Minute) "" Second 0.

(** A queue that holds one task and whose status cache has no entry. *)
Definition queueHolding (taskID queue : string) (state : asynq.TaskState)
  : AsynqQueue.t :=
  AsynqQueue.mk
    (asynq.mkBroker (<[(queue, taskID) := brokerTask taskID queue state]> ∅) true)
    (redis.mkClient ∅ true).

(** *** The ingest service *)

(** A service over a live, empty queue and a live, empty object store. *)
Definition freshService (cfg : option ServiceConfig.t) : DocumentService.t :=
  DocumentService.NewService emptyQueue (S3Storage.mk ∅ true) [] cfg.

Definition pdfUpload : FileHeader.t := FileHeader.mk "Report.PDF" 2048.
Definition exeUpload : FileHeader.t := FileHeader.mk "file.exe" 2048.
Definition hugeUpload : FileHeader.t := FileHeader.mk "scan.png" (50 * 1024 * 1024 + 1).

(** A service whose queue holds one active task in "critical". *)
Definition serviceWithActiveTask : DocumentService.t :=
  DocumentService.NewService
    (queueHolding "t1" "critical" asynq.TaskStateActive)
    (S3Storage.mk ∅ true) [] None.

(** *** The local OCR and vision extractor *)

(** A format with the argument put in place of its first [%s]; this is
    what [fmt.Sprintf] gives for a format whose only verb is one [%s]. *)
Fixpoint substFirst (format : list Ascii.ascii) (arg : list Ascii.ascii)
  : list Ascii.ascii :=
  match format with
  | a :: ((b :: rest) as tail) =>
      if Ascii.eqb a (byte_of 37) && Ascii.eqb b (byte_of 115)
      then arg ++ rest
      else a :: substFirst tail arg
  | _ => format
  end.

Definition SprintfS (format arg : string) : string :=
  String.string_of_list_ascii
    (substFirst (String.list_ascii_of_string format) (String.list_ascii_of_string arg)).

Definition visionOptions : ProcessOptions.t :=
  ProcessOptions.mk ["eng"] 60
    (OllamaConfig.mk true "http://localhost:11434" "llama3.2-vision" 2048 0.5
                     "Check the OCR text: %s" 4 (30 * Second)).

Definition helloBoxes : list BoundingBox.t :=
  [ BoundingBox.mk 0 0 40 10 "Hello" 90; BoundingBox.mk 50 0 60 10 "~" 12 ].

(** A run in which OCR reads "Hello" and the vision model answers. *)
Definition visionAnswers : ImageProcessor.Run :=
  ImageProcessor.mkRun None (ImageProcessor.OCRBoxes "Hello" helloBoxes)
    ImageProcessor.PoolClient
    (fun _ => ImageProcessor.AnalysisText "Hello, world").

(** The same run with no pool client within the time-out. *)
Definition visionTimesOut : ImageProcessor.Run :=
  ImageProcessor.mkRun None (ImageProcessor.OCRBoxes "Hello" helloBoxes)
    (ImageProcessor.PoolError "timeout waiting for available client")
    (fun _ => ImageProcessor.AnalysisText "Hello, world").

Definition sourceOf (chunk : models.DocumentChunk.t) : option Value :=
  models.DocumentChunk.Metadata chunk !! "source".

(** The OCR chunk of a run: text, and metadata source, confidence and
    regions. *)
Definition isOCRChunk (chunk : models.DocumentChunk.t) (text : string)
  (confidence : float) (regions : list Region) : Prop :=
  models.DocumentChunk.Content chunk = text /\
  models.DocumentChunk.Metadata chunk !! "source" = Some (VString "tesseract") /\
  models.DocumentChunk.Metadata chunk !! "confidence" = Some (VFloat64 confidence) /\
  models.DocumentChunk.Metadata chunk !! "regions" = Some (VRegions regions).

(** *** The cloud OCR extractor *)

Definition isFormChunk (chunk : models.DocumentChunk.t) : bool :=
  match models.DocumentChunk.Metadata chunk !! "type" with
  | Some (VString t) => String.eqb t "form"
  | _ => false
  end.

(** The key text and the value text of a key block. *)
Definition keyText (blocks : list Block.t) (block : Block.t) : string :=
  TextractProcessor.getTextFromRelationships (Block.Relationships block) blocks.

Definition valueText (blocks : list Block.t) (block : Block.t) : string :=
  TextractProcessor.getValueFromKeyBlock block blocks.

(** The key blocks that have a key text and a value text. *)
Definition filledKeyBlock (blocks : list Block.t) (block : Block.t) : bool :=
  TextractProcessor.isKeyBlock block
  && negb (String.eqb (keyText blocks block) "")
  && negb (String.eqb (valueText blocks block) "").

(** The form chunk of a key block: the key text, a colon and a space, and
    the value text. *)
Definition formChunkOf (blocks : list Block.t) (block : Block.t)
  : models.DocumentChunk.t :=
  models.DocumentChunk.mk (keyText blocks block +:+ ": " +:+ valueText blocks block)
    (<["source" := VString "textract"]>
       (<["type" := VString "form"]>
          (<["key" := VString (keyText blocks block)]> ∅))).

Definition formsOf (r : option (Result (list models.DocumentChunk.t)))
  : option (list models.DocumentChunk.t) :=
  match r with
  | Some (Ok chunks) => Some (filter (fun c => isFormChunk c = true) chunks)
  | _ => None
  end.

Definition wordBlock (id text : string) : Block.t :=
  Block.mk "WORD" (Some 99%float) (Some text) (Some id) [] [] None None.

Definition keyBlock (id : string) (children values : list string) : Block.t :=
  Block.mk "KEY_VALUE_SET" (Some 95%float) None (Some id) ["KEY"]
    [Relationship.mk "VALUE" values; Relationship.mk "CHILD" children] None None.

Definition valueBlock (id : string) (children : list string) : Block.t :=
  Block.mk "KEY_VALUE_SET" (Some 95%float) None (Some id) ["VALUE"]
    [Relationship.mk "CHILD" children] None None.

(** A form with the field "Name" filled in with "Alice". *)
Definition filledForm : list Block.t :=
  [ keyBlock "k1" ["w1"] ["v1"]; valueBlock "v1" ["w2"];
    wordBlock "w1" "Name"; wordBlock "w2" "Alice" ].

(** The same form with the field left blank: the value block has no
    words. *)
Definition blankForm : list Block.t :=
  [ keyBlock "k1" ["w1"] ["v1"]; valueBlock "v1" []; wordBlock "w1" "Name" ].

Definition formsOnly : TextractConfig.t := TextractConfig.mk 80 false true.
Definition tablesAndForms : TextractConfig.t := TextractConfig.mk 80 true true.

(** *** The adaptive threshold *)

(** The offsets [-h .. h] and the window of a pixel: the points of the
    image at most [h] columns and [h] rows away. *)
Definition offsets (h : Z) : list Z := seqZ (- h) (2 * h + 1).

Definition window (bounds : Rectangle.t) (h : Z) (x y : Z) : list (Z * Z) :=
  flat_map
    (fun dy =>
       flat_map
         (fun dx =>
            if Rectangle.contains bounds (x + dx) (y + dy)
            then [(x + dx, y + dy)] else [])
         (offsets h))
    (offsets h).

Definition graySum (grayImg : GrayImage.t) (points : list (Z * Z)) : Z :=
  fold_right (fun '(nx, ny) total => GrayImage.GrayAt grayImg nx ny + total) 0 points.

(** The pixel the threshold rule gives from the mean over [points]:
    black, 0, if the gray value is below the mean less the constant, else
    white, 255. *)
Definition thresholdRule (grayImg : GrayImage.t) (constant : float)
  (points : list (Z * Z)) (x y : Z) : Z :=
  let count := Z.of_nat (length points) in
  if (0 <? count)
     && PrimFloat.ltb
          (float64_of_int (GrayImage.GrayAt grayImg x y))
          (float64_of_int (graySum grayImg points) / float64_of_int count
           - constant)%float
  then 0 else 255.

(** The result image has the shape of the bounds: one byte per pixel,
    rows as wide as the bounds. *)
Definition shaped (bounds : Rectangle.t) (r : Gray.t) : Prop :=
  Gray.Rect r = bounds /\
  Gray.Stride r = Rectangle.MaxX bounds - Rectangle.MinX bounds /\
  length (Gray.Pix r)
  = Z.to_nat ((Rectangle.MaxX bounds - Rectangle.MinX bounds)
              * (Rectangle.MaxY bounds - Rectangle.MinY bounds)).

(** A 3 by 3 image, dark in the middle. *)
Definition darkCentre : GrayImage.t :=
  GrayImage.mk (Rectangle.mk 0 0 3 3)
    (fun x y => if (x =? 1) && (y =? 1) then 10 else 200).

(** ** Definitions used to state further properties *)

(** *** The normalizer *)

(** The type [Convert] gives a chunk: by the metadata keys it carries. *)
Definition typeOf (chunk : models.DocumentChunk.t) : string :=
  match models.DocumentChunk.Metadata chunk !! "pageNumber" with
  | Some _ => "page"
  | None =>
      match models.DocumentChunk.Metadata chunk !! "imageType" with
      | Some _ => "image"
      | None => ""
      end
  end.

(** The chunk carries the section [s]. *)
Definition hasSection (s : string) (chunk : models.DocumentChunk.t) : Prop :=
  models.DocumentChunk.Metadata chunk !! "section" = Some (VString s).

(** *** The PDF extractor *)

Definition isFailing (page : PdfProcessor.Page) : bool :=
  match page with PdfProcessor.FailingPage _ => true | _ => false end.

(** The chunk is the chunk of a text page of the document. *)
Definition chunkOfPage (hashStr : string) (pages : list PdfProcessor.Page)
  (chunk : models.DocumentChunk.t) : Prop :=
  exists pageNum text,
    1 <= pageNum <= Z.of_nat (length pages) /\
    PdfProcessor.pageAt pages pageNum = PdfProcessor.TextPage text /\
    chunk = PdfProcessor.pageChunk hashStr pageNum text.

(** The invariant of the page goroutines: the pending numbers are page
    numbers, the chunks sent are chunks of pages, and while the group has
    no error every failing page is still pending. *)
Definition pagesInvariant (hashStr : string) (pages : list PdfProcessor.Page)
  (c : PdfProcessor.Conf) : Prop :=
  Forall (fun p => 1 <= p <= Z.of_nat (length pages)) (PdfProcessor.pending c) /\
  Forall (chunkOfPage hashStr pages) (PdfProcessor.chunkChan c) /\
  (PdfProcessor.groupErr c = None ->
   forall p err, 1 <= p <= Z.of_nat (length pages) ->
     PdfProcessor.pageAt pages p = PdfProcessor.FailingPage err ->
     In p (PdfProcessor.pending c)) /\
  (existsb isFailing pages = false -> PdfProcessor.groupErr c = None).




(** *** The queue *)

Definition completedStatus : TaskStatus.t :=
  TaskStatus.mk "t1" "completed" 1 "" 10 90.

(** *** The ingest service and the worker *)

(** The status [ProcessFile] saves for a new task. *)
Definition initialStatus (taskID : string) (now : Time) : TaskStatus.t :=
  TaskStatus.mk taskID "pending" 0 "" now 0.

(** A service whose broker does not answer; store and cache are live. *)
Definition brokerDownService : DocumentService.t :=
  DocumentService.NewService
    (AsynqQueue.mk (asynq.mkBroker ∅ false) (redis.mkClient ∅ true))
    (S3Storage.mk ∅ true) [] None.

Definition secondUpload : FileHeader.t := FileHeader.mk "Report.PDF" 4096.

(** The registry [NewProcessorFactory] builds when the cloud OCR client
    can be created. *)
Definition registry : ProcessorFactory.t :=
  ProcessorFactory.mk
    (<["image/tiff" := ProcessorFactory.textractProcessor]>
       (<["image/png" := ProcessorFactory.textractProcessor]>
          (<["image/jpg" := ProcessorFactory.textractProcessor]>
             (<["image/jpeg" := ProcessorFactory.textractProcessor]>
                (<["application/pdf" := ProcessorFactory.pdfProcessor]> ∅))))).

Definition wordUpload : FileHeader.t := FileHeader.mk "letter.DOCX" 2048.

(** A processing outcome and a codec for the examples: every file yields
    the one page chunk; the bytes of a document are its task id. *)
Definition onePage (p : ProcessorFactory.Processor) (content : string)
  : Result (list models.DocumentChunk.t) := Ok [pdfPageChunk].

Definition failingProcess (p : ProcessorFactory.Processor) (content : string)
  : Result (list models.DocumentChunk.t) := Err "malformed PDF".

Definition idCodec (doc : ProcessedDocument.t) : Result string :=
  Ok (ProcessedDocument.TaskID doc).

Definition idDecode (data : string) : Result ProcessedDocument.t :=
  Ok (ProcessedDocument.mk data "completed" []
        (DocumentMetadata.mk "" "" 0 0 [] "" 0 0) 0).

(** The service after the upload of "Report.PDF" as task "id-1". *)
Definition uploadedService : DocumentService.t :=
  fst (DocumentService.ProcessFile ToLowerASCII (freshService None) 0 "id-1"
         "%PDF" pdfUpload).

(** The queued task of that upload, as the worker decodes it. *)
Definition uploadedTask : Task.t :=
  Task.mk "id-1" "document:process" 0
    (<["fileId" := VString "Report.PDF"]>
       (<["filename" := VString "Report.PDF"]>
          (<["size" := VInt64 2048]> (<["type" := VString ".PDF"]> ∅))))
    (<["filename" := "Report.PDF"]>
       (<["size" := "2048"]> (<["type" := ".PDF"]> ∅)))
    0.

(** *** The cloud OCR extractor: lines and tables *)

(** A line the extractor accepts: a LINE block that has a confidence, of
    at least [MinConfidence]. *)
Definition acceptedLine (config : TextractConfig.t) (block : Block.t) : bool :=
  String.eqb (Block.BlockType block) TextractProcessor.BlockTypeLine
  && match Block.Confidence block with
     | Some confidence => PrimFloat.leb (TextractConfig.MinConfidence config) confidence
     | None => false
     end.

Definition hasText (block : Block.t) : bool :=
  match Block.Text block with Some _ => true | None => false end.

Definition textOf (block : Block.t) : string := default "" (Block.Text block).

(** The chunk whose metadata carries the type [t]. *)
Definition isTypedChunk (t : string) (chunk : models.DocumentChunk.t) : bool :=
  match models.DocumentChunk.Metadata chunk !! "type" with
  | Some (VString t') => String.eqb t' t
  | _ => false
  end.

Definition isTable (block : Block.t) : bool :=
  String.eqb (Block.BlockType block) TextractProcessor.BlockTypeTable.

Definition isCell (block : Block.t) : bool :=
  String.eqb (Block.BlockType block) TextractProcessor.BlockTypeCell.

Definition hasChildren (block : Block.t) : bool :=
  existsb (fun rel => String.eqb (Relationship.Type_ rel) "CHILD")
          (Block.Relationships block).

(** The largest index, by [index], of the CELL blocks of a document, and
    0 if there is none. *)
Definition largestIndex (index : Block.t -> option Z) (blocks : list Block.t) : Z :=
  fold_right
    (fun block m =>
       if isCell block then
         match index block with Some i => Z.max i m | None => m end
       else m)
    0 blocks.

(** The numbers of rows and columns of the table of a TABLE block. *)
Definition extentOf (blocks : list Block.t) (block : Block.t) : Z * Z :=
  if hasChildren block
  then (largestIndex Block.RowIndex blocks, largestIndex Block.ColumnIndex blocks)
  else (0, 0).

Definition dimensions (table : Table.t) : Z * Z := (Table.Rows table, Table.Cols table).

(** A table as [processTables] builds it: no content, [Rows] rows of
    [Cols] cells. *)
Definition rectangular (table : Table.t) : Prop :=
  Table.Content table = "" /\
  length (Table.Cells table) = Z.to_nat (Table.Rows table) /\
  Forall (fun row => length row = Z.to_nat (Table.Cols table)) (Table.Cells table).

(** The tables finished and the table under construction. *)
Definition tablesSoFar (tables : list Table.t) (currentTable : option Table.t)
  : list Table.t :=
  tables ++ match currentTable with Some table => [table] | None => [] end.

Definition tableBlock (relationships : list Relationship.t) : Block.t :=
  Block.mk "TABLE" (Some 99%float) None None [] relationships None None.

Definition cellBlock (row col : Z) (text : string) : Block.t :=
  Block.mk "CELL" (Some 99%float) (Some text) None [] [] (Some row) (Some col).

Definition lineBlock (confidence : float) (text : option string) : Block.t :=
  Block.mk "LINE" (Some confidence) text None [] [] None None.

(** Two tables of 1 by 2 and 2 by 1 cells. *)
Definition twoTables : list Block.t :=
  [ tableBlock [Relationship.mk "CHILD" ["c1"; "c2"]];
    cellBlock 1 1 "a"; cellBlock 1 2 "b";
    tableBlock [Relationship.mk "CHILD" ["c3"; "c4"]];
    cellBlock 1 1 "c"; cellBlock 2 1 "d" ].

(** A table block that lists no children, and a cell. *)
Definition childlessTable : list Block.t :=
  [ tableBlock []; cellBlock 1 1 "a" ].

(** Three lines, the second below the confidence bound of 80. *)
Definition threeLines : list Block.t :=
  [ lineBlock 99 (Some "Invoice"); lineBlock 40 (Some "smudge");
    lineBlock 90 (Some "Total: 5") ].

Definition textOnly : TextractConfig.t := TextractConfig.mk 80 false false.
Definition tablesOnly : TextractConfig.t := TextractConfig.mk 80 true false.
(** *** The local OCR extractor: word boxes *)

(** A word box the extractor keeps: its confidence is at least
    [MinConfidence]. *)
Definition confident (config : ProcessOptions.t) (box : BoundingBox.t) : bool :=
  PrimFloat.leb (ProcessOptions.MinConfidence config) (BoundingBox.Confidence box).

(** The confidences of the boxes, added from the left to [total]. *)
Definition addConfidences (boxes : list BoundingBox.t) (total : float) : float :=
  fold_left (fun total box => (total + BoundingBox.Confidence box)%float) boxes total.
(** *** Edge and table detection *)

(** The points of an image that are not on its border. *)
Definition interior (bounds : Rectangle.t) (x y : Z) : bool :=
  (Rectangle.MinX bounds + 1 <=? x) && (x <? Rectangle.MaxX bounds - 1)
  && (Rectangle.MinY bounds + 1 <=? y) && (y <? Rectangle.MaxY bounds - 1).

(** The scan of one row or column, [dark] telling the dark positions and
    [mkLine] making the line of a run from its start and its end. *)
Definition scanStep (dark : Z -> bool) (minLen : Z) (mkLine : Z -> Z -> Rectangle.t)
  (s : Z * Z * list Rectangle.t) (pos : Z) : Z * Z * list Rectangle.t :=
  let '(lineStart, blackCount, lines) := s in
  if dark pos then
    ((if lineStart =? -1 then pos else lineStart), blackCount + 1, lines)
  else if negb (lineStart =? -1) then
    (-1, 0, if minLen <=? blackCount then lines ++ [mkLine lineStart pos] else lines)
  else (lineStart, blackCount, lines).

(** The positions [first .. last - 1] of a row or column from [lo] are a
    run of dark positions, not shorter than [minLen], that cannot be
    extended: a light position precedes it unless it starts at [lo], and
    the position [last], before [hi], is light. *)
Definition isRun (dark : Z -> bool) (lo hi minLen first last : Z) : Prop :=
  lo <= first /\ first < last /\ last < hi /\
  (forall i, first <= i < last -> dark i = true) /\
  dark last = false /\
  minLen <= last - first /\
  (first = lo \/ dark (first - 1) = false).

(** A line of the scan for horizontal lines: one pixel high, over a run
    of dark pixels of a row. *)
Definition horizontalRun (bounds : Rectangle.t) (grayImg : GrayImage.t) (minLen : Z)
  (line : Rectangle.t) : Prop :=
  exists y first last,
    line = Rectangle.mk first y last (y + 1) /\
    Rectangle.MinY bounds <= y < Rectangle.MaxY bounds /\
    isRun (fun x => GrayImage.GrayAt grayImg x y <? 128)
          (Rectangle.MinX bounds) (Rectangle.MaxX bounds) minLen first last.

(** A line of the scan for vertical lines: one pixel wide, over a run of
    dark pixels of a column. *)
Definition verticalRun (bounds : Rectangle.t) (grayImg : GrayImage.t) (minLen : Z)
  (line : Rectangle.t) : Prop :=
  exists x first last,
    line = Rectangle.mk x first (x + 1) last /\
    Rectangle.MinX bounds <= x < Rectangle.MaxX bounds /\
    isRun (fun y => GrayImage.GrayAt grayImg x y <? 128)
          (Rectangle.MinY bounds) (Rectangle.MaxY bounds) minLen first last.

(** A row of 6 pixels: dark, dark, light, dark, dark, dark. *)
Definition sixPixels : GrayImage.t :=
  GrayImage.mk (Rectangle.mk 0 0 6 1)
    (fun x y => if x =? 2 then 255 else 0).

(** The 3 by 3 image of [darkCentre], one shade lighter in the corner
    (2, 2). *)
Definition darkCentreLightCorner : GrayImage.t :=
  GrayImage.mk (Rectangle.mk 0 0 3 3)
    (fun x y => if (x =? 1) && (y =? 1) then 10
                else if (x =? 2) && (y =? 2) then 201 else 200).

(** A 6 by 4 image, dark in its two left columns. *)
Definition darkLeftColumns : GrayImage.t :=
  GrayImage.mk (Rectangle.mk 0 0 6 4)
    (fun x y => if x <? 2 then 0 else 255).
(** * Properties *)

(** ** The string functions on examples *)

Example TrimSpace_examples :
  TrimSpace "  Name " = "Name" /\ TrimSpace " " = "" /\ TrimSpace "" = "" /\
  TrimSpace (String (byte_of 194) (String (byte_of 160) "Name"))   (* U+00A0 *)
  = "Name" /\
  TrimSpace ("a b" +:+ String (byte_of 227) (String (byte_of 128) (String (byte_of 128) "")))
  = "a b".                                                          (* U+3000 *)
Proof. vm_compute. auto. Qed.

Example Ext_examples :
  Ext "a/b.c/Report.PDF" = ".PDF" /\ Ext "a.b/c" = "" /\ Ext "x.tar.gz" = ".gz"
  /\ Ext "noext" = "".
Proof. vm_compute. auto. Qed.

Example ToLowerASCII_example : ToLowerASCII ".PDF" = ".pdf".
Proof. reflexivity. Qed.

Example SprintfS_example :
  SprintfS "Check the OCR text: %s now" "abc" = "Check the OCR text: abc now".
Proof. reflexivity. Qed.

(** ** The normalizer *)

Section ConverterFacts.
Import models JSONConverter.

Lemma loopFrom_totalConfidence chunks : forall i v,
  totalConfidence (loopFrom i chunks v)
  = fold_left addConfidence chunks (totalConfidence v).
Proof.
  induction chunks as [|chunk rest IH]; intros i v; simpl; [reflexivity|].
  rewrite IH. reflexivity.
Qed.

Lemma loopFrom_content chunks : forall i v,
  content (loopFrom i chunks v) = content v ++ contentsFrom i chunks.
Proof.
  induction chunks as [|chunk rest IH]; intros i v; simpl.
  - now rewrite app_nil_r.
  - rewrite IH. simpl. now rewrite <- app_assoc.
Qed.

Lemma chunkContent_Position i chunk :
  ChunkContent.Position (chunkContent i chunk) = i + 1.
Proof.
  unfold chunkContent.
  destruct (DocumentChunk.Metadata chunk !! "pageNumber"); [reflexivity|].
  destruct (DocumentChunk.Metadata chunk !! "imageType"); reflexivity.
Qed.

Lemma contentsFrom_lookup chunks : forall i (j : nat) c,
  contentsFrom i chunks !! j = Some c ->
  ChunkContent.Position c = i + Z.of_nat j + 1.
Proof.
  induction chunks as [|chunk rest IH]; intros i j c H; [discriminate|].
  destruct j as [|j]; simpl in H.
  - injection H as <-. rewrite chunkContent_Position. lia.
  - apply IH in H. lia.
Qed.

Lemma contentsFrom_length chunks : forall i,
  length (contentsFrom i chunks) = length chunks.
Proof. induction chunks; intros; simpl; auto. Qed.

Lemma basicInfo_Confidence chunks m :
  DocumentMetadata.Confidence (basicInfo chunks m) = DocumentMetadata.Confidence m.
Proof.
  unfold basicInfo. destruct chunks as [|first rest]; [reflexivity|].
  destruct (0 <? _); [|reflexivity].
  destruct (asString (_ !! "filename")), (asString (_ !! "type")),
    (asInt64 (_ !! "size")), (asInt (_ !! "pageCount")); reflexivity.
Qed.

(** [Convert] fails on no chunks and on nothing else. *)
Lemma Convert_total now chunks :
  chunks <> [] -> exists doc, Convert now chunks = Ok doc.
Proof.
  intros Hne. unfold Convert.
  destruct chunks as [|c rest]; [congruence|].
  replace (Z.of_nat (length (c :: rest)) =? 0) with false; [eauto|].
  symmetry; apply Z.eqb_neq; simpl length; lia.
Qed.

Lemma Convert_Content now chunks doc :
  Convert now chunks = Ok doc ->
  ProcessedDocument.Content doc = contentsFrom 0 chunks.
Proof.
  unfold Convert. destruct (_ =? 0); [discriminate|].
  intros H; injection H as <-. simpl. now rewrite loopFrom_content.
Qed.

(** What the code stores in [metadata.confidence]: the sum of the
    float64 confidences over the number of all chunks. *)
Lemma Convert_Confidence now chunks doc :
  Convert now chunks = Ok doc ->
  DocumentMetadata.Confidence (ProcessedDocument.Metadata doc)
  = (fold_left addConfidence chunks 0 / float64_of_int (Z.of_nat (length chunks)))%float.
Proof.
  unfold Convert. destruct (Z.of_nat (length chunks) =? 0) eqn:E0; [discriminate|].
  intros H; injection H as <-. simpl.
  rewrite basicInfo_Confidence. simpl.
  apply Z.eqb_neq in E0.
  replace (0 <? Z.of_nat (length chunks)) with true by (symmetry; apply Z.ltb_lt; lia).
  now rewrite loopFrom_totalConfidence.
Qed.

End ConverterFacts.

(** C1, the code at the inputs where it departs from the specification: when no
    chunk carries a confidence, [Convert] stores 0 in [metadata.confidence],
    not 1.0; and with one chunk of confidence 80 and one chunk without a
    confidence it stores 40, the sum over the number of all chunks, not the
    mean 80 of the chunks that carry one. *)
Theorem Convert_confidence_divides_by_all_chunks :
  confidenceOf (JSONConverter.Convert 0 [pdfPageChunk]) = Some 0%float /\
  confidenceOf (JSONConverter.Convert 0 [ocrChunk80; visionChunk]) = Some 40%float.
Proof. split; vm_compute; reflexivity. Qed.

(** ** The PDF extractor *)

Section PdfFacts.
Import models PdfProcessor.
Variable hashStr : string.
Variable pages : list Page.

Lemma pageOf_pageChunk pageNum text :
  pageOf (pageChunk hashStr pageNum text) = Some pageNum.
Proof. unfold pageOf, pageChunk. simpl. now rewrite lookup_insert_eq. Qed.

Lemma pageOf_postProcess chunks out :
  postProcessChunks chunks = Ok out -> map pageOf out = map pageOf chunks.
Proof.
  unfold postProcessChunks. intros H; injection H as <-.
  rewrite map_map. reflexivity.
Qed.

Lemma accounted_initial : accounted pages (initial pages).
Proof. intros _. simpl. reflexivity. Qed.

Lemma keepFirst_Some old err : keepFirst old err <> None.
Proof. destruct old; discriminate. Qed.

Lemma accounted_step c c' :
  step hashStr pages c c' -> accounted pages c -> accounted pages c'.
Proof.
  intros [c0 c1 l1 pageNum l2 Hpend Hfin] Hacc.
  unfold accounted in *. rewrite Hpend in Hacc.
  inversion Hfin as [c2 Hpage|c2 text Hpage|c2 err Hpage|c2 Herr]; subst; simpl in *.
  - intros Hnone. specialize (Hacc Hnone).
    rewrite filter_app, filter_cons_False in Hacc
      by (unfold notNull; now rewrite Hpage).
    now rewrite filter_app.
  - intros Hnone. specialize (Hacc Hnone).
    rewrite filter_app, filter_cons_True in Hacc
      by (unfold notNull; now rewrite Hpage).
    rewrite map_app in *. simpl in *. rewrite pageOf_pageChunk.
    rewrite filter_app, map_app.
    etransitivity; [|exact Hacc].
    rewrite <- !app_assoc. apply Permutation_app_head. simpl.
    apply Permutation_middle.
  - intros Hnone. now apply keepFirst_Some in Hnone.
  - intros Hnone. contradiction.
Qed.

Lemma accounted_reachable c :
  rtc (step hashStr pages) (initial pages) c -> accounted pages c.
Proof.
  intros Hrun.
  refine (rtc_ind_r (fun c => accounted pages c) (initial pages) _ _ c Hrun).
  - apply accounted_initial.
  - intros y z _ Hstep IH. exact (accounted_step y z Hstep IH).
Qed.

(** A run of the goroutines in the order [sched], as steps of the
    scheduler. *)
Lemma schedule_steps sched : forall pend c0,
  Permutation sched pend ->
  let c := fold_left (finishNow hashStr pages) sched c0 in
  rtc (step hashStr pages) (mkConf pend (chunkChan c0) (groupErr c0))
      (mkConf [] (chunkChan c) (groupErr c)).
Proof.
  induction sched as [|p sched IH]; intros pend c0 Hperm; simpl.
  - apply Permutation_nil in Hperm. subst. apply rtc_refl.
  - assert (Hin : In p pend) by (eapply Permutation_in; [exact Hperm|now left]).
    apply in_split in Hin as (l1 & l2 & ->).
    apply Permutation_cons_app_inv in Hperm.
    eapply rtc_l; [|apply (IH (l1 ++ l2) _ Hperm)].
    eapply step_pick; [reflexivity|]. simpl.
    unfold finishNow.
    destruct (pageAt pages p) as [|text|e] eqn:Hpage; simpl.
    + now apply finish_null.
    + apply (finish_send hashStr pages p
               (mkConf (l1 ++ l2) (chunkChan c0) (groupErr c0)) text Hpage).
    + apply (finish_fail hashStr pages p
               (mkConf (l1 ++ l2) (chunkChan c0) (groupErr c0)) e Hpage).
Qed.

(** Every order of the goroutines is a run of [Process]. *)
Lemma ProcessWith_is_a_run sched :
  Permutation sched (seqZ 1 (Z.of_nat (length pages))) ->
  Process (Document hashStr pages) (ProcessWith sched (Document hashStr pages)).
Proof.
  intros Hperm. simpl.
  pose proof (schedule_steps sched _ (mkConf [] [] None) Hperm) as Hrun. simpl in Hrun.
  set (c := fold_left (finishNow hashStr pages) sched (mkConf [] [] None)) in *.
  change (collect c) with (collect (mkConf [] (chunkChan c) (groupErr c))).
  now apply Process_pages.
Qed.

(** The chunks [Process] returns carry the numbers of the pages that
    are not null, each once. *)
Lemma Process_pages_permutation out :
  Process (Document hashStr pages) (Ok out) ->
  Permutation (map pageOf out) (map Some (nonNullPages pages)).
Proof.
  intros H. inversion H as [| |h ps c Hrun Hpend Hin Hout]; subst.
  apply accounted_reachable in Hrun. unfold accounted in Hrun.
  unfold collect in Hout. destruct (groupErr c); [discriminate|].
  apply pageOf_postProcess in Hout. rewrite Hout.
  specialize (Hrun eq_refl). rewrite Hpend in Hrun. simpl in Hrun.
  now rewrite app_nil_r in Hrun.
Qed.

Lemma schedule_without_failure sched : forall c,
  Forall (fun page => match page with FailingPage _ => False | _ => True end) pages ->
  groupErr c = None ->
  groupErr (fold_left (finishNow hashStr pages) sched c) = None.
Proof.
  induction sched as [|p sched IH]; intros c Hpages Hc; simpl; [exact Hc|].
  apply IH; [exact Hpages|]. unfold finishNow.
  destruct (pageAt pages p) as [|text|err] eqn:Hpage; simpl; try exact Hc.
  exfalso. unfold pageAt in Hpage.
  destruct (nth_in_or_default (Z.to_nat (p - 1)) pages NullPage) as [Hin|Hd].
  - rewrite Forall_forall in Hpages. apply list_elem_of_In in Hin.
    apply Hpages in Hin. now rewrite Hpage in Hin.
  - congruence.
Qed.

(** A document none of whose pages fails is processed: some run returns
    chunks, for instance the run in page order. *)
Lemma Process_returns_chunks :
  Forall (fun page => match page with FailingPage _ => False | _ => True end) pages ->
  exists out, Process (Document hashStr pages) (Ok out).
Proof.
  intros Hpages.
  pose proof (ProcessWith_is_a_run (seqZ 1 (Z.of_nat (length pages)))
                (Permutation_refl _)) as Hrun.
  simpl in Hrun. unfold collect in Hrun.
  rewrite schedule_without_failure in Hrun by auto.
  unfold postProcessChunks in Hrun. eauto.
Qed.

End PdfFacts.

(** C2, the statement of the specification fails: on a PDF of two pages
    the goroutine of page 2 may reach the channel first, and [Process]
    then returns the chunk of page 2 before the chunk of page 1. *)
Lemma pdf_chunks_not_always_ascending :
  ~ (forall out, PdfProcessor.Process twoPages (Ok out) -> ascendingPages out).
Proof.
  intros Hsorted.
  assert (Hrun : PdfProcessor.Process twoPages (PdfProcessor.ProcessWith [2; 1] twoPages)).
  { apply ProcessWith_is_a_run. simpl. apply perm_swap. }
  apply Hsorted in Hrun.
  inversion Hrun as [|a l _ Hall]; subst.
  inversion Hall as [|b l' Hlt _]; subst.
  vm_compute in Hlt. discriminate.
Qed.

(** C2, amended: every document [Convert] returns has as many content
    entries as there were chunks, and the entry at index [i] has position
    [i + 1]; and the chunks a run of the PDF extractor returns carry the
    page numbers of the pages that are not null, each exactly once, in the
    order in which the page workers delivered them. *)
Theorem positions_and_pdf_pages :
  (forall now chunks doc,
      JSONConverter.Convert now chunks = Ok doc ->
      length (ProcessedDocument.Content doc) = length chunks /\
      forall (i : nat) c,
        ProcessedDocument.Content doc !! i = Some c ->
        ChunkContent.Position c = Z.of_nat i + 1)
  /\
  (forall hashStr pages out,
      PdfProcessor.Process (PdfProcessor.Document hashStr pages) (Ok out) ->
      Permutation (map PdfProcessor.pageOf out) (map Some (nonNullPages pages))).
Proof.
  split.
  - intros now chunks doc Hconv.
    apply Convert_Content in Hconv. rewrite Hconv. split.
    + apply contentsFrom_length.
    + intros i c Hi. apply contentsFrom_lookup in Hi. lia.
  - intros hashStr pages out. apply Process_pages_permutation.
Qed.

(** The two parts at concrete inputs: the document of two chunks, and the
    run of a three-page PDF with a null page in which page 3 is delivered
    before page 1. *)
Lemma positions_and_pdf_pages_witness :
  (exists doc,
      JSONConverter.Convert 0 [pdfPageChunk; visionChunk] = Ok doc /\
      length (ProcessedDocument.Content doc) = 2%nat /\
      forall (i : nat) c,
        ProcessedDocument.Content doc !! i = Some c ->
        ChunkContent.Position c = Z.of_nat i + 1)
  /\
  (PdfProcessor.Process threePagesOneNull
     (Ok [ PdfProcessor.pageChunk "9f86d081" 3 "third";
           PdfProcessor.pageChunk "9f86d081" 1 "first" ]) /\
   Permutation
     (map PdfProcessor.pageOf
          [ PdfProcessor.pageChunk "9f86d081" 3 "third";
            PdfProcessor.pageChunk "9f86d081" 1 "first" ])
     [Some 1; Some 3]).
Proof.
  assert (Hrun : PdfProcessor.Process threePagesOneNull
                   (PdfProcessor.ProcessWith [3; 2; 1] threePagesOneNull)).
  { apply ProcessWith_is_a_run. simpl.
    symmetry. apply (Permutation_rev [1; 2; 3]). }
  split.
  - eexists. split; [reflexivity|].
    apply (proj1 positions_and_pdf_pages 0 [pdfPageChunk; visionChunk]).
    reflexivity.
  - split; [exact Hrun|].
    exact (proj2 positions_and_pdf_pages _ _ _ Hrun).
Defined.

(** ** The queue *)

Section QueueFacts.
Import AsynqQueue.

Lemma marshalTask_Ok task payload :
  marshalTask task = Ok payload -> payload = task.
Proof. unfold marshalTask. destruct (forallb _ _); congruence. Qed.

(** A successful [Enqueue] adds one broker task, under the queue of the
    priority switch and the id of the task, and leaves the cache. *)
Lemma Enqueue_inserts q now task q' task' :
  Enqueue q now task = (q', task', None) ->
  exists info,
    asynq.tasks (broker q')
    = <[(queueOption (Task.Priority task), Task.ID task) := info]>
        (asynq.tasks (broker q)) /\
    asynq.TaskInfo.Queue info = queueOption (Task.Priority task) /\
    asynq.TaskInfo.ID info = Task.ID task /\
    asynq.TaskInfo.Payload info = task /\
    asynq.TaskInfo.State info = asynq.TaskStateScheduled /\
    redis q' = redis q /\ task' = task.
Proof.
  unfold Enqueue.
  destruct (marshalTask task) as [payload|err] eqn:Hm; [|discriminate].
  apply marshalTask_Ok in Hm. subst payload.
  unfold asynq.EnqueueContext.
  destruct (String.eqb (TrimSpace (Task.Type_ task)) ""); [discriminate|].
  destruct (String.eqb (TrimSpace (Task.ID task)) ""); [discriminate|].
  destruct (negb (asynq.up (broker q))); [discriminate|].
  destruct (asynq.tasks (broker q) !! _); [discriminate|].
  intros H. injection H as <- <-. simpl.
  eexists. repeat split. destruct task; reflexivity.
Qed.

Lemma Enqueue_routed q now task q' task' :
  Enqueue q now task = (q', task', None) ->
  routedTo q' (queueOption (Task.Priority task)) task /\
  otherQueuesKept q q' (queueOption (Task.Priority task)) (Task.ID task).
Proof.
  intros H. apply Enqueue_inserts in H as (info & Htasks & Hq & _ & Hp & _).
  split.
  - exists info. rewrite Htasks, lookup_insert_eq. auto.
  - intros other Hother. rewrite Htasks.
    apply lookup_insert_ne. congruence.
Qed.

Lemma queueOption_cases priority :
  (priority = 1 /\ queueOption priority = "critical") \/
  (priority = 2 /\ queueOption priority = "default") \/
  (priority <> 1 /\ priority <> 2 /\ queueOption priority = "low").
Proof.
  destruct priority as [|p|p]; simpl.
  - right; right; repeat split; discriminate.
  - destruct p as [p|p|]; simpl.
    + right; right; repeat split; discriminate.
    + destruct p; [right; right; repeat split; discriminate ..|].
      right; left; auto.
    + left; auto.
  - right; right; repeat split; discriminate.
Qed.

(** A cached status is returned as it is. *)
Lemma GetTaskStatus_hit q now taskID status :
  redis.Get (redis q) now (statusKey taskID) = redis.Bytes (redis.JSONStatus status) ->
  GetTaskStatus q now taskID = (q, Ok status).
Proof. unfold GetTaskStatus. intros ->. reflexivity. Qed.

(** The projection of the broker states. *)
Lemma convertAsynqStatus_projection now info :
  let status := convertAsynqStatus now info in
  TaskStatus.TaskID status = asynq.TaskInfo.ID info /\
  match asynq.TaskInfo.State info with
  | asynq.TaskStatePending => TaskStatus.Status status = "pending"
  | asynq.TaskStateActive =>
      TaskStatus.Status status = "running" /\
      TaskStatus.Progress status = 0.5%float
  | asynq.TaskStateCompleted =>
      TaskStatus.Status status = "completed" /\
      TaskStatus.Progress status = 1%float
  | asynq.TaskStateRetry =>
      TaskStatus.Status status = "failed" /\
      TaskStatus.Error status = asynq.TaskInfo.LastErr info
  | _ => TaskStatus.Status status = ""
  end.
Proof.
  unfold convertAsynqStatus.
  destruct (asynq.TaskInfo.State info); simpl; auto.
Qed.

(** On a miss, a task of the queue "critical" is found and projected. *)
Lemma GetTaskStatus_critical q now taskID info :
  redis.Get (redis q) now (statusKey taskID) = redis.Nil ->
  asynq.GetTaskInfo (broker q) "critical" taskID = Ok info ->
  snd (GetTaskStatus q now taskID) = Ok (convertAsynqStatus now info).
Proof.
  unfold GetTaskStatus. intros -> Hinfo. simpl. rewrite Hinfo. reflexivity.
Qed.

(** On a miss, a task that is not in the queue "critical" is reported as
    not found, whatever the queues "default" and "low" hold: the error of
    the first probe stays in [lastErr] when a later probe succeeds. *)
Lemma GetTaskStatus_not_in_critical q now taskID err :
  redis.Get (redis q) now (statusKey taskID) = redis.Nil ->
  asynq.GetTaskInfo (broker q) "critical" taskID = Err err ->
  exists msg, GetTaskStatus q now taskID = (q, Err msg).
Proof.
  unfold GetTaskStatus. intros -> Hcrit. simpl. rewrite Hcrit.
  destruct (asynq.GetTaskInfo (broker q) "default" taskID); [eauto|].
  destruct (asynq.GetTaskInfo (broker q) "low" taskID); eauto.
Qed.

End QueueFacts.

(** C3, the code at an input where it departs from the specification: the status
    cache has no entry for the task and the broker holds the task, pending,
    in the queue "low".  [GetTaskStatus] probes "critical", "default" and
    "low", finds the task in "low", and still returns the error
    "task not found in any queue" instead of the status pending. *)
Theorem GetTaskStatus_fails_for_task_in_low_queue :
  asynq.GetTaskInfo (AsynqQueue.broker (queueHolding "t1" "low" asynq.TaskStatePending))
                    "low" "t1"
  = Ok (brokerTask "t1" "low" asynq.TaskStatePending)
  /\
  AsynqQueue.GetTaskStatus (queueHolding "t1" "low" asynq.TaskStatePending) 100 "t1"
  = (queueHolding "t1" "low" asynq.TaskStatePending,
     Err "task not found in any queue: task not found").
Proof. split; vm_compute; reflexivity. Qed.

(** C6: a task that [Enqueue] accepts is in the broker's queue "critical"
    when its priority is 1, in "default" when it is 2 and in "low" for any
    other priority, and the other queues are as before. *)
Theorem Enqueue_routes_by_priority q now task q' task' :
  AsynqQueue.Enqueue q now task = (q', task', None) ->
  (Task.Priority task = 1 ->
     routedTo q' "critical" task /\ otherQueuesKept q q' "critical" (Task.ID task)) /\
  (Task.Priority task = 2 ->
     routedTo q' "default" task /\ otherQueuesKept q q' "default" (Task.ID task)) /\
  (Task.Priority task <> 1 -> Task.Priority task <> 2 ->
     routedTo q' "low" task /\ otherQueuesKept q q' "low" (Task.ID task)).
Proof.
  intros H. apply Enqueue_routed in H.
  destruct (queueOption_cases (Task.Priority task))
    as [[Hp Hq]|[[Hp Hq]|(Hp1 & Hp2 & Hq)]]; rewrite Hq in H;
    repeat split; intros; try exact (proj1 H); try exact (proj2 H); congruence.
Qed.

(** Three uploads of priority 1, 2 and 0 into an empty queue. *)
Lemma Enqueue_routes_by_priority_witness :
  routedTo (fst (fst (AsynqQueue.Enqueue emptyQueue 0 (uploadTask "t1" 1))))
           "critical" (uploadTask "t1" 1) /\
  routedTo (fst (fst (AsynqQueue.Enqueue emptyQueue 0 (uploadTask "t2" 2))))
           "default" (uploadTask "t2" 2) /\
  routedTo (fst (fst (AsynqQueue.Enqueue emptyQueue 0 (uploadTask "t3" 0))))
           "low" (uploadTask "t3" 0).
Proof.
  repeat split.
  - refine (proj1 (proj1 (Enqueue_routes_by_priority emptyQueue 0 (uploadTask "t1" 1)
                            _ (uploadTask "t1" 1) _) eq_refl)).
    vm_compute. reflexivity.
  - refine (proj1 (proj1 (proj2 (Enqueue_routes_by_priority emptyQueue 0
                            (uploadTask "t2" 2) _ (uploadTask "t2" 2) _)) eq_refl)).
    vm_compute. reflexivity.
  - refine (proj1 (proj2 (proj2 (Enqueue_routes_by_priority emptyQueue 0
                            (uploadTask "t3" 0) _ (uploadTask "t3" 0) _)) _ _)).
    + vm_compute. reflexivity.
    + discriminate.
    + discriminate.
Defined.

(** ** The ingest service *)

Section ServiceFacts.
Import models DocumentService.
Variable ToLower : string -> string.

Lemma validType_In types ext :
  validType types ext = true <-> In ext types.
Proof.
  induction types as [|t rest IH]; simpl.
  - split; [discriminate|tauto].
  - destruct (String.eqb_spec t ext) as [->|Hne].
    + split; auto.
    + rewrite IH. split; [auto|]. intros [H|H]; [congruence|exact H].
Qed.

(** [validateFile] accepts exactly the files within the size limit whose
    lowered extension is an allowed type. *)
Lemma validateFile_None cfg header :
  validateFile ToLower cfg header = None <->
  FileHeader.Size header <= ServiceConfig.MaxFileSize cfg /\
  In (ToLower (Ext (FileHeader.Filename header))) (ServiceConfig.AllowedTypes cfg).
Proof.
  unfold validateFile.
  destruct (Z.ltb_spec (ServiceConfig.MaxFileSize cfg) (FileHeader.Size header)) as [Hlt|Hle].
  - split; [discriminate|]. intros [H _]. lia.
  - destruct (validType _ _) eqn:Hv; simpl.
    + apply validType_In in Hv. tauto.
    + split; [discriminate|]. intros [_ H]. apply validType_In in H. congruence.
Qed.

(** A file that [validateFile] refuses changes the log and nothing else. *)
Lemma ProcessFile_refused s now taskID file header err :
  validateFile ToLower (config s) header = Some err ->
  ProcessFile ToLower s now taskID file header
  = (log "File validation failed" (log "Starting file processing" s), Err err).
Proof. unfold ProcessFile. simpl. intros ->. reflexivity. Qed.

(** What a successful [ProcessFile] has done: the task it returns has
    the configured priority, and the queue was reached through one
    successful [Enqueue] of a task with that id and priority, followed
    by at most a write to the status cache. *)
Lemma ProcessFile_Ok s now taskID file header s' task :
  ProcessFile ToLower s now taskID file header = (s', Ok task) ->
  ProcessingTask.ID task = taskID /\
  ProcessingTask.Priority task = ServiceConfig.QueuePriority (config s) /\
  exists queueTask q1 queueTask',
    Task.ID queueTask = taskID /\
    Task.Priority queueTask = ServiceConfig.QueuePriority (config s) /\
    AsynqQueue.Enqueue (queue s) now queueTask = (q1, queueTask', None) /\
    AsynqQueue.broker (queue s') = AsynqQueue.broker q1.
Proof.
  unfold ProcessFile. simpl.
  destruct (validateFile ToLower (config s) header); [discriminate|].
  destruct (S3Storage.Store (storage s) file (FileHeader.Filename header))
    as [storage' [fileID|err]]; [|discriminate].
  simpl.
  match goal with
  | |- context [AsynqQueue.Enqueue ?q ?n ?t] =>
      set (queueTask := t); destruct (AsynqQueue.Enqueue q n queueTask)
        as [[q1 queueTask'] [err|]] eqn:Henq
  end; [discriminate|].
  intros H. injection H as <- <-. simpl.
  repeat split.
  exists queueTask, q1, queueTask'. repeat split; [exact Henq|].
  unfold AsynqQueue.SaveFinalStatus.
  destruct (AsynqQueue.marshalStatus _); simpl; [|reflexivity].
  destruct (redis.Set_ _ _ _ _ _) as [r' [e|]]; reflexivity.
Qed.

End ServiceFacts.

(** C7: when the size in the header exceeds [MaxFileSize], or the lowered
    extension of the file name is not an allowed type, [ProcessFile]
    returns an error and leaves the queue (broker and status cache), the
    object store and the configuration as they were; for every other
    header [validateFile] returns no error. *)
Theorem ProcessFile_rejects_invalid_file
  (ToLower : string -> string) s now taskID file header :
  (FileHeader.Size header > ServiceConfig.MaxFileSize (DocumentService.config s) \/
   ~ In (ToLower (Ext (FileHeader.Filename header)))
        (ServiceConfig.AllowedTypes (DocumentService.config s)) ->
   exists err s',
     DocumentService.ProcessFile ToLower s now taskID file header = (s', Err err) /\
     DocumentService.queue s' = DocumentService.queue s /\
     DocumentService.storage s' = DocumentService.storage s /\
     DocumentService.config s' = DocumentService.config s)
  /\
  (~ (FileHeader.Size header > ServiceConfig.MaxFileSize (DocumentService.config s) \/
      ~ In (ToLower (Ext (FileHeader.Filename header)))
           (ServiceConfig.AllowedTypes (DocumentService.config s))) ->
   DocumentService.validateFile ToLower (DocumentService.config s) header = None).
Proof.
  split.
  - intros Hbad.
    destruct (DocumentService.validateFile ToLower (DocumentService.config s) header)
      as [err|] eqn:Hv.
    + exists err. eexists. split.
      * now apply ProcessFile_refused.
      * auto.
    + apply validateFile_None in Hv as [Hsize Hin].
      destruct Hbad as [Hbad|Hbad]; [lia|contradiction].
  - intros Hgood. apply validateFile_None. split.
    + destruct (Z.le_gt_cases (FileHeader.Size header)
                  (ServiceConfig.MaxFileSize (DocumentService.config s))); [assumption|].
      exfalso. apply Hgood. left. lia.
    + destruct (in_dec String.string_dec (ToLower (Ext (FileHeader.Filename header)))
                  (ServiceConfig.AllowedTypes (DocumentService.config s))); [assumption|].
      exfalso. apply Hgood. now right.
Qed.

(** An executable and an oversized image are refused by a fresh service
    and leave it as it was; a PDF with an upper-case extension passes. *)
Lemma ProcessFile_rejects_invalid_file_witness :
  (exists err s',
      DocumentService.ProcessFile ToLowerASCII (freshService None) 0 "id-1"
                                  "MZ" exeUpload = (s', Err err) /\
      DocumentService.queue s' = emptyQueue /\
      DocumentService.storage s' = S3Storage.mk ∅ true /\
      DocumentService.config s' = DocumentService.nilConfig)
  /\
  (exists err s',
      DocumentService.ProcessFile ToLowerASCII (freshService None) 0 "id-2"
                                  "PNG" hugeUpload = (s', Err err) /\
      DocumentService.queue s' = emptyQueue /\
      DocumentService.storage s' = S3Storage.mk ∅ true /\
      DocumentService.config s' = DocumentService.nilConfig)
  /\
  DocumentService.validateFile ToLowerASCII DocumentService.nilConfig pdfUpload = None.
Proof.
  split; [|split].
  - apply (proj1 (ProcessFile_rejects_invalid_file ToLowerASCII (freshService None)
                    0 "id-1" "MZ" exeUpload)).
    right. vm_compute. intuition discriminate.
  - apply (proj1 (ProcessFile_rejects_invalid_file ToLowerASCII (freshService None)
                    0 "id-2" "PNG" hugeUpload)).
    left. vm_compute. reflexivity.
  - apply (proj2 (ProcessFile_rejects_invalid_file ToLowerASCII (freshService None)
                    0 "id-3" "%PDF" pdfUpload)).
    vm_compute. intros [H|H]; [discriminate|]. apply H. tauto.
Defined.

(** C9: when the queue reports the status "running", the value its
    projection gives an active broker task, [GetProcessingStatus] returns
    a task whose status is pending. *)
Theorem GetProcessingStatus_running_is_pending s now taskID q' status :
  AsynqQueue.GetTaskStatus (DocumentService.queue s) now taskID = (q', Ok status) ->
  TaskStatus.Status status = "running" ->
  exists s' task,
    DocumentService.GetProcessingStatus s now taskID = (s', Ok task) /\
    models.ProcessingTask.Status task = models.StatusPending.
Proof.
  intros Hget Hrun. unfold DocumentService.GetProcessingStatus.
  rewrite Hget, Hrun. simpl. eauto.
Qed.

(** A task that is active in the queue "critical" is reported as
    pending. *)
Lemma GetProcessingStatus_running_is_pending_witness :
  asynq.TaskInfo.State (brokerTask "t1" "critical" asynq.TaskStateActive)
  = asynq.TaskStateActive /\
  exists s' task,
    DocumentService.GetProcessingStatus serviceWithActiveTask 100 "t1" = (s', Ok task) /\
    models.ProcessingTask.Status task = models.StatusPending.
Proof.
  split; [reflexivity|].
  refine (GetProcessingStatus_running_is_pending serviceWithActiveTask 100 "t1" _
            (AsynqQueue.convertAsynqStatus 100
               (brokerTask "t1" "critical" asynq.TaskStateActive)) _ _).
  - vm_compute. reflexivity.
  - reflexivity.
Defined.

(** C10: with the configuration [NewService] builds from [nil], and with
    the one [GetService] passes, [QueuePriority] is 0; every task
    [ProcessFile] creates then has priority 0 and is in the broker's queue
    "low", and the queues "critical" and "default" are as before. *)
Theorem default_config_enqueues_to_low
  (ToLower : string -> string) q st lg cfg now taskID file header s' task :
  cfg = None \/ cfg = Some DocumentService.getServiceConfig ->
  DocumentService.ProcessFile ToLower (DocumentService.NewService q st lg cfg)
                              now taskID file header = (s', Ok task) ->
  ServiceConfig.QueuePriority
    (DocumentService.config (DocumentService.NewService q st lg cfg)) = 0 /\
  models.ProcessingTask.Priority task = 0 /\
  (exists info,
      asynq.tasks (AsynqQueue.broker (DocumentService.queue s')) !! ("low", taskID)
      = Some info /\
      asynq.TaskInfo.Queue info = "low" /\
      Task.Priority (asynq.TaskInfo.Payload info) = 0) /\
  asynq.tasks (AsynqQueue.broker (DocumentService.queue s')) !! ("critical", taskID)
  = asynq.tasks (AsynqQueue.broker q) !! ("critical", taskID) /\
  asynq.tasks (AsynqQueue.broker (DocumentService.queue s')) !! ("default", taskID)
  = asynq.tasks (AsynqQueue.broker q) !! ("default", taskID).
Proof.
  intros Hcfg Hrun.
  assert (Hzero : ServiceConfig.QueuePriority
            (DocumentService.config (DocumentService.NewService q st lg cfg)) = 0)
    by (destruct Hcfg as [->| ->]; reflexivity).
  apply ProcessFile_Ok in Hrun
    as (Hid & Hprio & queueTask & q1 & queueTask' & Hqid & Hqprio & Henq & Hbroker).
  rewrite Hzero in Hprio, Hqprio.
  assert (Hq : DocumentService.queue (DocumentService.NewService q st lg cfg) = q)
    by (destruct cfg; reflexivity).
  rewrite Hq in Henq.
  apply Enqueue_inserts in Henq as (info & Htasks & Hqueue & _ & Hpayload & _).
  rewrite Hqprio in Htasks, Hqueue. rewrite Hqid in Htasks. simpl in Htasks, Hqueue.
  rewrite Hbroker, Htasks.
  repeat split; try assumption.
  - exists info. rewrite lookup_insert_eq. repeat split; [assumption|].
    now rewrite Hpayload.
  - apply lookup_insert_ne. congruence.
  - apply lookup_insert_ne. congruence.
Qed.

(** An upload to a fresh service built from the nil configuration. *)
Lemma default_config_enqueues_to_low_witness :
  exists s' task,
    DocumentService.ProcessFile ToLowerASCII (freshService None) 0 "id-1"
                                "%PDF" pdfUpload = (s', Ok task) /\
    models.ProcessingTask.Priority task = 0 /\
    (exists info,
        asynq.tasks (AsynqQueue.broker (DocumentService.queue s')) !! ("low", "id-1")
        = Some info /\
        asynq.TaskInfo.Queue info = "low") /\
    asynq.tasks (AsynqQueue.broker (DocumentService.queue s')) !! ("critical", "id-1")
    = None.
Proof.
  destruct (DocumentService.ProcessFile ToLowerASCII (freshService None) 0 "id-1"
              "%PDF" pdfUpload) as [s' [task|err]] eqn:Hrun;
    [|vm_compute in Hrun; discriminate].
  exists s', task. split; [reflexivity|].
  destruct (default_config_enqueues_to_low ToLowerASCII emptyQueue
              (S3Storage.mk ∅ true) [] None 0 "id-1" "%PDF" pdfUpload s' task
              (or_introl eq_refl) Hrun)
    as (_ & Hprio & (info & Hlow & Hq & _) & Hcrit & _).
  repeat split; [exact Hprio| |exact Hcrit].
  exists info. auto.
Defined.

(** ** The local OCR and vision extractor *)

Section ImageFacts.
Import models ImageProcessor.
Variable Sprintf : string -> string -> string.

(** Once OCR has returned, [Process] returns chunks whatever the pool
    and the vision model do: the OCR chunk first, then at most the
    chunk of the vision text. *)
Lemma Process_after_OCR config run lines0 text confidence regions :
  setup run = None ->
  performOCRWithClient config (ocr run) = (lines0, Ok (text, confidence, regions)) ->
  exists lines ollamaText,
    Process Sprintf config run
    = (lines,
       Ok (DocumentChunk.mk text
             (<["source" := VString "tesseract"]>
                (<["confidence" := VFloat64 confidence]>
                   (<["regions" := VRegions regions]> ∅)))
           :: (if negb (String.eqb ollamaText "")
               then [DocumentChunk.mk ollamaText
                       (<["source" := VString "ollama"]>
                          (<["model" := VString (OllamaConfig.Model
                               (ProcessOptions.OllamaConfig_ config))]> ∅))]
               else [])))
    /\
    (forall response,
        OllamaConfig.Enabled (ProcessOptions.OllamaConfig_ config) = true ->
        poolGet run = PoolClient ->
        analyzeImage run
          (Sprintf (OllamaConfig.Prompt (ProcessOptions.OllamaConfig_ config)) text)
        = AnalysisText response ->
        ollamaText = response).
Proof.
  intros Hsetup Hocr. unfold Process. rewrite Hsetup, Hocr.
  destruct (OllamaConfig.Enabled (ProcessOptions.OllamaConfig_ config)).
  - destruct (poolGet run) as [|e].
    + destruct (analyzeImage run _) as [response|e] eqn:Han.
      * exists lines0, response. split.
        -- destruct (negb (String.eqb response "")); reflexivity.
        -- intros r _ _ Hr. congruence.
      * exists (lines0 ++ ["Failed to analyze image with Ollama"]), "".
        split; [reflexivity|]. intros r _ _ Hr. congruence.
    + exists (lines0 ++ ["Failed to get Ollama client"]), "".
      split; [reflexivity|]. intros r _ Hr. discriminate.
  - exists lines0, "". split; [reflexivity|]. intros r Hr. discriminate.
Qed.

End ImageFacts.

(** C4, the statement of the specification fails: in a run where the
    vision model answers "Hello, world", the second chunk holds that text
    and its metadata carries the source "ollama", not "vision". *)
Lemma vision_chunk_source_is_not_vision :
  exists lines first second,
    ImageProcessor.Process SprintfS visionOptions visionAnswers
    = (lines, Ok [first; second]) /\
    models.DocumentChunk.Content second = "Hello, world" /\
    sourceOf second = Some (VString "ollama") /\
    sourceOf second <> Some (VString "vision").
Proof.
  exists [],
    (models.DocumentChunk.mk "Hello"
       (<["source" := VString "tesseract"]>
          (<["confidence" := VFloat64 90]>
             (<["regions" := VRegions [mkRegion 0 0 40 10 "Hello" 90]]> ∅)))),
    (models.DocumentChunk.mk "Hello, world"
       (<["source" := VString "ollama"]>
          (<["model" := VString "llama3.2-vision"]> ∅))).
  split; [vm_compute; reflexivity|].
  split; [reflexivity|].
  assert (H : sourceOf
            (models.DocumentChunk.mk "Hello, world"
               (<["source" := VString "ollama"]>
                  (<["model" := VString "llama3.2-vision"]> ∅)))
          = Some (VString "ollama")) by apply lookup_insert_eq.
  split; [exact H|]. rewrite H. discriminate.
Qed.

(** C4, amended: in every run in which OCR returns, [Process] returns
    chunks whose first is the OCR chunk, with its text and the metadata
    source "tesseract", confidence and regions, whether or not a vision
    client is acquired and whether or not the analysis succeeds; at most
    one chunk follows; and when the vision call returns a text that is
    not empty, that text is the second chunk, and its metadata carries
    source "ollama". *)
Theorem Process_emits_ocr_chunk_then_ollama_chunk
  (Sprintf : string -> string -> string) config run lines0 text confidence regions :
  ImageProcessor.setup run = None ->
  ImageProcessor.performOCRWithClient config (ImageProcessor.ocr run)
  = (lines0, Ok (text, confidence, regions)) ->
  exists lines first rest,
    ImageProcessor.Process Sprintf config run = (lines, Ok (first :: rest)) /\
    isOCRChunk first text confidence regions /\
    (length rest <= 1)%nat /\
    (forall response,
        OllamaConfig.Enabled (ProcessOptions.OllamaConfig_ config) = true ->
        ImageProcessor.poolGet run = ImageProcessor.PoolClient ->
        ImageProcessor.analyzeImage run
          (Sprintf (OllamaConfig.Prompt (ProcessOptions.OllamaConfig_ config)) text)
        = ImageProcessor.AnalysisText response ->
        response <> "" ->
        exists second,
          rest = [second] /\
          models.DocumentChunk.Content second = response /\
          sourceOf second = Some (VString "ollama")).
Proof.
  intros Hsetup Hocr.
  destruct (Process_after_OCR Sprintf config run lines0 text confidence regions
              Hsetup Hocr) as (lines & ollamaText & Hrun & Htext).
  do 3 eexists. split; [exact Hrun|]. split; [|split].
  - unfold isOCRChunk. simpl. split; [reflexivity|].
    rewrite lookup_insert_eq.
    rewrite lookup_insert_ne by discriminate. rewrite lookup_insert_eq.
    do 2 (rewrite lookup_insert_ne by discriminate). rewrite lookup_insert_eq.
    auto.
  - destruct (negb (String.eqb ollamaText "")); simpl; lia.
  - intros response Hen Hget Han Hne.
    rewrite (Htext response Hen Hget Han).
    destruct (String.eqb_spec response "") as [->|_]; [congruence|]. simpl.
    eexists. split; [reflexivity|]. split; [reflexivity|].
    unfold sourceOf. simpl. apply lookup_insert_eq.
Qed.

(** A run in which the vision model answers, and a run in which no
    client is acquired in time. *)
Lemma Process_emits_ocr_chunk_then_ollama_chunk_witness :
  (exists lines first second,
      ImageProcessor.Process SprintfS visionOptions visionAnswers
      = (lines, Ok [first; second]) /\
      isOCRChunk first "Hello" 90 [mkRegion 0 0 40 10 "Hello" 90] /\
      models.DocumentChunk.Content second = "Hello, world" /\
      sourceOf second = Some (VString "ollama"))
  /\
  (exists lines first,
      ImageProcessor.Process SprintfS visionOptions visionTimesOut
      = (lines, Ok [first]) /\
      isOCRChunk first "Hello" 90 [mkRegion 0 0 40 10 "Hello" 90]).
Proof.
  split.
  - destruct (Process_emits_ocr_chunk_then_ollama_chunk SprintfS visionOptions
                visionAnswers [] "Hello" 90%float [mkRegion 0 0 40 10 "Hello" 90]
                eq_refl)
      as (lines & first & rest & Hrun & Hocr & _ & Hvision).
    { vm_compute. reflexivity. }
    destruct (Hvision "Hello, world" eq_refl eq_refl eq_refl)
      as (second & -> & Hcontent & Hsource); [discriminate|].
    exists lines, first, second. auto.
  - destruct (Process_emits_ocr_chunk_then_ollama_chunk SprintfS visionOptions
                visionTimesOut [] "Hello" 90%float [mkRegion 0 0 40 10 "Hello" 90]
                eq_refl)
      as (lines & first & rest & Hrun & Hocr & Hlen & _).
    { vm_compute. reflexivity. }
    assert (Hrest : rest = []).
    { assert (H : exists l c, ImageProcessor.Process SprintfS visionOptions visionTimesOut
                              = (l, Ok [c])) by (do 2 eexists; vm_compute; reflexivity).
      destruct H as (l & c & H). rewrite H in Hrun. congruence. }
    subst rest. exists lines, first. auto.
Defined.

(** ** The cloud OCR extractor *)

Section TextractFacts.
Import models TextractProcessor.

(** The loop of [processForms] over a part of the blocks. *)
Lemma forms_loop all l : forall forms,
  fold_left
    (fun forms block =>
       if isKeyBlock block then
         let key := getTextFromRelationships (Block.Relationships block) all in
         let value := getValueFromKeyBlock block all in
         if negb (String.eqb key "") && negb (String.eqb value "")
         then forms ++ [FormField.mk key value]
         else forms
       else forms) l forms
  = forms
    ++ map (fun block => FormField.mk (keyText all block) (valueText all block))
           (filter (fun block => filledKeyBlock all block = true) l).
Proof.
  induction l as [|block l IH]; intros forms; simpl.
  - now rewrite app_nil_r.
  - rewrite IH. clear IH.
    destruct (filledKeyBlock all block) eqn:Hfilled.
    + rewrite filter_cons_True by exact Hfilled.
      unfold filledKeyBlock, keyText, valueText in Hfilled.
      apply andb_prop in Hfilled as [Hk Hv]. apply andb_prop in Hk as [Hk Hn].
      rewrite Hk. simpl. rewrite Hn, Hv. simpl.
      now rewrite <- app_assoc.
    + rewrite filter_cons_False by congruence.
      unfold filledKeyBlock, keyText, valueText in Hfilled.
      destruct (isKeyBlock block); [|reflexivity].
      simpl in *. rewrite Hfilled. reflexivity.
Qed.

(** [processForms] lists the key blocks that have a key text and a value
    text, in the order of the blocks. *)
Lemma processForms_filled blocks :
  processForms blocks
  = map (fun block => FormField.mk (keyText blocks block) (valueText blocks block))
        (filter (fun block => filledKeyBlock blocks block = true) blocks).
Proof. unfold processForms. now rewrite forms_loop. Qed.

Lemma isFormChunk_formChunk form : isFormChunk (formChunk form) = true.
Proof.
  unfold isFormChunk, formChunk. simpl.
  rewrite lookup_insert_ne by discriminate. now rewrite lookup_insert_eq.
Qed.

Lemma isFormChunk_tableChunk table : isFormChunk (tableChunk table) = false.
Proof.
  unfold isFormChunk, tableChunk. simpl.
  rewrite lookup_insert_ne by discriminate. now rewrite lookup_insert_eq.
Qed.

Lemma isFormChunk_textChunk texts : isFormChunk (textChunk texts) = false.
Proof.
  unfold isFormChunk, textChunk. simpl.
  rewrite lookup_insert_ne by discriminate. now rewrite lookup_insert_eq.
Qed.

Lemma filter_form_forms forms :
  filter (fun c => isFormChunk c = true) (map formChunk forms) = map formChunk forms.
Proof.
  induction forms as [|form rest IH]; [reflexivity|]. simpl.
  rewrite filter_cons_True by apply isFormChunk_formChunk. now rewrite IH.
Qed.

Lemma filter_form_tables tables :
  filter (fun c => isFormChunk c = true) (map tableChunk tables) = [].
Proof.
  induction tables as [|table rest IH]; [reflexivity|]. simpl.
  rewrite filter_cons_False; [exact IH|].
  rewrite isFormChunk_tableChunk. discriminate.
Qed.

Lemma filter_form_text (texts : list string) :
  filter (fun c => isFormChunk c = true)
         (if 0 <? Z.of_nat (length texts) then [textChunk texts] else []) = [].
Proof.
  destruct (0 <? _); [|reflexivity].
  rewrite filter_cons_False; [reflexivity|].
  rewrite isFormChunk_textChunk. discriminate.
Qed.

(** With tables off and every accepted line carrying its text, the
    extractor returns chunks. *)
Lemma Process_returns config blocks texts :
  TextractConfig.EnableTable config = false ->
  processBlocks config blocks [] = Some texts ->
  exists chunks, Process config (Analyzed blocks) = Some (Ok chunks).
Proof.
  intros Htab Htexts. unfold Process. rewrite Htexts, Htab. eauto.
Qed.

End TextractFacts.

(** C5, the statement of the specification fails: a form whose field
    "Name" is left blank has one KEY_VALUE_SET block with entity type KEY,
    and with [EnableForm] set the extractor emits no form chunk for it. *)
Lemma blank_field_has_no_form_chunk :
  ~ (exists forms,
        formsOf (TextractProcessor.Process formsOnly
                   (TextractProcessor.Analyzed blankForm)) = Some forms /\
        length forms
        = length (filter (fun b => TextractProcessor.isKeyBlock b = true) blankForm)).
Proof.
  intros (forms & Hforms & Hlen).
  vm_compute in Hforms. injection Hforms as <-.
  vm_compute in Hlen. discriminate.
Qed.

(** C5, amended: when [EnableForm] is set and the extractor returns, its
    form chunks are, in the order of the blocks, one for each KEY_VALUE_SET
    block whose first entity type is KEY and whose key text and value text
    are both not empty; the content of each is the key text, a colon and a
    space, and the value text.  A run that does not return chunks has
    panicked on a line without text or, with tables on, on a cell outside
    its table. *)
Theorem form_chunks_of_filled_key_blocks config blocks :
  TextractConfig.EnableForm config = true ->
  match TextractProcessor.Process config (TextractProcessor.Analyzed blocks) with
  | Some (Ok chunks) =>
      filter (fun c => isFormChunk c = true) chunks
      = map (formChunkOf blocks)
            (filter (fun block => filledKeyBlock blocks block = true) blocks)
  | Some (Err _) => False
  | None =>
      TextractProcessor.processBlocks config blocks [] = None \/
      (TextractConfig.EnableTable config = true /\
       TextractProcessor.processTables blocks = None)
  end.
Proof.
  intros Hform. unfold TextractProcessor.Process. rewrite Hform.
  destruct (TextractProcessor.processBlocks config blocks []) as [texts|]; [|now left].
  assert (Hforms :
    map TextractProcessor.formChunk (TextractProcessor.processForms blocks)
    = map (formChunkOf blocks)
          (filter (fun block => filledKeyBlock blocks block = true) blocks)).
  { rewrite processForms_filled, map_map. reflexivity. }
  destruct (TextractConfig.EnableTable config).
  - destruct (TextractProcessor.processTables blocks) as [tables|]; [|right; auto].
    rewrite !filter_app, filter_form_text, filter_form_tables, filter_form_forms.
    exact Hforms.
  - rewrite filter_app, filter_form_text, filter_form_forms. exact Hforms.
Qed.

(** The form with the field "Name" filled in with "Alice". *)
Lemma form_chunks_of_filled_key_blocks_witness :
  formsOf (TextractProcessor.Process tablesAndForms
             (TextractProcessor.Analyzed filledForm))
  = Some [formChunkOf filledForm (keyBlock "k1" ["w1"] ["v1"])]
  /\
  models.DocumentChunk.Content (formChunkOf filledForm (keyBlock "k1" ["w1"] ["v1"]))
  = "Name: Alice".
Proof.
  split; [|reflexivity].
  pose proof (form_chunks_of_filled_key_blocks tablesAndForms filledForm eq_refl) as H.
  destruct (TextractProcessor.Process tablesAndForms
              (TextractProcessor.Analyzed filledForm)) as [[chunks|err]|] eqn:Hrun.
  - simpl. rewrite H. reflexivity.
  - contradiction.
  - vm_compute in Hrun. discriminate.
Defined.

(** ** The adaptive threshold *)

Section ListFacts.

Lemma graySum_cons grayImg nx ny l :
  graySum grayImg ((nx, ny) :: l) = GrayImage.GrayAt grayImg nx ny + graySum grayImg l.
Proof. reflexivity. Qed.

Lemma graySum_app grayImg l1 l2 :
  graySum grayImg (l1 ++ l2) = graySum grayImg l1 + graySum grayImg l2.
Proof.
  induction l1 as [|[nx ny] l1 IH]; simpl; [reflexivity|]. rewrite IH. lia.
Qed.

Lemma NoDup_flat_map {A B} (f : A -> list B) (l : list A) :
  NoDup l ->
  (forall a, In a l -> NoDup (f a)) ->
  (forall a1 a2 b, In a1 l -> In a2 l -> In b (f a1) -> In b (f a2) -> a1 = a2) ->
  NoDup (flat_map f l).
Proof.
  induction l as [|a l IH]; intros Hl Hf Hdisj; simpl; [constructor|].
  apply NoDup_cons in Hl as [Ha Hl].
  apply NoDup_app. split; [|split].
  - apply Hf. now left.
  - intros b Hb Hb'. apply list_elem_of_In in Hb, Hb'.
    apply in_flat_map in Hb' as (a' & Ha' & Hb').
    assert (a = a') by (apply (Hdisj a a' b); simpl; auto).
    subst a'. apply Ha. now apply list_elem_of_In.
  - apply IH; [exact Hl| |].
    + intros a' Ha'. apply Hf. now right.
    + intros a1 a2 b H1 H2. apply Hdisj; now right.
Qed.

(** Nested loops over rows and columns are one loop over the points. *)
Lemma nested_loops {R} (f : R -> Z -> Z -> R) (xs ys : list Z) : forall r,
  fold_left (fun r y => fold_left (fun r x => f r x y) xs r) ys r
  = fold_left (fun r '(x, y) => f r x y)
              (flat_map (fun y => map (fun x => (x, y)) xs) ys) r.
Proof.
  induction ys as [|y ys IH]; intros r; simpl; [reflexivity|].
  rewrite fold_left_app, <- IH. f_equal.
  clear IH. revert r.
  induction xs as [|x xs IHx]; intros r; simpl; [reflexivity|apply IHx].
Qed.

End ListFacts.

Section ThresholdFacts.
Import AdaptiveThresholdProcessor.
Variable p : t.
Variable grayImg : GrayImage.t.

Let bounds := GrayImage.Bounds grayImg.
Let W := Rectangle.MaxX bounds - Rectangle.MinX bounds.
Let H := Rectangle.MaxY bounds - Rectangle.MinY bounds.

(** The loop over [dx] adds the points of one row of the window. *)
Lemma row_loop x ny (ds : list Z) : forall sum count,
  fold_left
    (fun '(sum, count) dx =>
       let nx := x + dx in
       if (Rectangle.MinX bounds <=? nx) && (nx <? Rectangle.MaxX bounds)
          && (Rectangle.MinY bounds <=? ny) && (ny <? Rectangle.MaxY bounds)
       then (sum + GrayImage.GrayAt grayImg nx ny, count + 1)
       else (sum, count))
    ds (sum, count)
  = let row := flat_map (fun dx => if Rectangle.contains bounds (x + dx) ny
                                   then [(x + dx, ny)] else []) ds in
    (sum + graySum grayImg row, count + Z.of_nat (length row)).
Proof.
  induction ds as [|dx ds IH]; intros sum count; cbn [fold_left flat_map].
  - cbn. f_equal; lia.
  - change ((Rectangle.MinX bounds <=? x + dx) && (x + dx <? Rectangle.MaxX bounds)
            && (Rectangle.MinY bounds <=? ny) && (ny <? Rectangle.MaxY bounds))
      with (Rectangle.contains bounds (x + dx) ny).
    destruct (Rectangle.contains bounds (x + dx) ny); rewrite IH; cbn zeta.
    + cbn [app]. rewrite graySum_cons, length_cons, Nat2Z.inj_succ.
      f_equal; lia.
    + reflexivity.
Qed.

Lemma window_loop x y (ds dys : list Z) : forall sum count,
  fold_left
    (fun acc dy =>
       fold_left
         (fun '(sum, count) dx =>
            let nx := x + dx in
            let ny := y + dy in
            if (Rectangle.MinX bounds <=? nx) && (nx <? Rectangle.MaxX bounds)
               && (Rectangle.MinY bounds <=? ny) && (ny <? Rectangle.MaxY bounds)
            then (sum + GrayImage.GrayAt grayImg nx ny, count + 1)
            else (sum, count))
         ds acc)
    dys (sum, count)
  = let points :=
      flat_map (fun dy =>
                  flat_map (fun dx => if Rectangle.contains bounds (x + dx) (y + dy)
                                      then [(x + dx, y + dy)] else []) ds) dys in
    (sum + graySum grayImg points, count + Z.of_nat (length points)).
Proof.
  induction dys as [|dy dys IH]; intros sum count; cbn [fold_left flat_map].
  - cbn. f_equal; lia.
  - pose proof (row_loop x (y + dy) ds sum count) as Hrow.
    cbn zeta in Hrow, IH |- *. rewrite Hrow, IH.
    rewrite graySum_app, length_app, Nat2Z.inj_add. f_equal; lia.
Qed.

(** [sum] and [count] are the sum and the number of the window's
    points. *)
Lemma windowStats_window x y :
  windowStats p grayImg x y
  = (graySum grayImg (window bounds (halfBlock p) x y),
     Z.of_nat (length (window bounds (halfBlock p) x y))).
Proof.
  unfold windowStats, forRange, window, offsets.
  replace (halfBlock p + 1 - - halfBlock p) with (2 * halfBlock p + 1) by lia.
  fold bounds. rewrite window_loop. simpl. reflexivity.
Qed.

Lemma thresholdPixel_rule result x y :
  thresholdPixel p grayImg result x y
  = if thresholdRule grayImg (constant p) (window bounds (halfBlock p) x y) x y =? 0
    then Gray.Set_ result x y 0 else result.
Proof.
  unfold thresholdPixel, thresholdRule. rewrite windowStats_window.
  destruct (0 <? Z.of_nat (length (window bounds (halfBlock p) x y))); simpl;
    [|reflexivity].
  destruct (PrimFloat.ltb _ _); reflexivity.
Qed.

Lemma shaped_initial : shaped bounds (Gray.fillWhite (Gray.NewGray bounds)).
Proof.
  unfold shaped, Gray.fillWhite, Gray.NewGray. simpl.
  repeat split. now rewrite !length_replicate.
Qed.

Lemma shaped_Set r x y v : shaped bounds r -> shaped bounds (Gray.Set_ r x y v).
Proof.
  intros (Hr & Hs & Hl). unfold Gray.Set_.
  destruct (Rectangle.contains (Gray.Rect r) x y); [|now repeat split].
  repeat split; simpl; auto. now rewrite length_insert.
Qed.

Lemma contains_spec x y :
  Rectangle.contains bounds x y = true <->
  Rectangle.MinX bounds <= x < Rectangle.MaxX bounds /\
  Rectangle.MinY bounds <= y < Rectangle.MaxY bounds.
Proof. unfold Rectangle.contains. lia. Qed.

Lemma offset_in_range r x y :
  shaped bounds r -> Rectangle.contains bounds x y = true ->
  0 <= Gray.PixOffset r x y < W * H.
Proof.
  intros (Hr & Hs & _) Hin. apply contains_spec in Hin.
  unfold Gray.PixOffset. rewrite Hr, Hs. unfold W, H in *. nia.
Qed.

Lemma offset_injective r x y x' y' :
  shaped bounds r ->
  Rectangle.contains bounds x y = true ->
  Rectangle.contains bounds x' y' = true ->
  Gray.PixOffset r x y = Gray.PixOffset r x' y' -> x = x' /\ y = y'.
Proof.
  intros (Hr & Hs & _) Hin Hin'. apply contains_spec in Hin, Hin'.
  unfold Gray.PixOffset. rewrite Hr, Hs. unfold W in *. intros Heq.
  assert (y = y') by nia. subst. lia.
Qed.

Lemma GrayAt_initial x y :
  Rectangle.contains bounds x y = true ->
  Gray.GrayAt (Gray.fillWhite (Gray.NewGray bounds)) x y = 255.
Proof.
  intros Hin. pose proof (offset_in_range _ x y shaped_initial Hin) as Hoff.
  unfold Gray.GrayAt. simpl. fold bounds. rewrite Hin.
  rewrite lookup_replicate_2; [reflexivity|].
  rewrite length_replicate. fold W H. unfold Gray.PixOffset in *. simpl in *. lia.
Qed.

Lemma GrayAt_Set r x y v x' y' :
  shaped bounds r ->
  Rectangle.contains bounds x y = true ->
  Rectangle.contains bounds x' y' = true ->
  Gray.GrayAt (Gray.Set_ r x y v) x' y'
  = if (x =? x') && (y =? y') then v else Gray.GrayAt r x' y'.
Proof.
  intros Hsh Hin Hin'. pose proof Hsh as (Hr & Hs & Hl).
  pose proof (offset_in_range r x y Hsh Hin) as Hoff.
  pose proof (offset_in_range r x' y' Hsh Hin') as Hoff'.
  unfold Gray.Set_, Gray.GrayAt. rewrite Hr, Hin. simpl. rewrite Hin'.
  match goal with
  | |- context [Gray.PixOffset (Gray.mk ?pix ?stride ?rect) x' y'] =>
      replace (Gray.PixOffset (Gray.mk pix stride rect) x' y')
        with (Gray.PixOffset r x' y')
        by (unfold Gray.PixOffset; simpl; now rewrite Hr)
  end.
  destruct ((x =? x') && (y =? y')) eqn:Heq.
  - assert (x = x' /\ y = y') as [-> ->] by lia.
    rewrite list_lookup_insert_eq; [reflexivity|]. lia.
  - rewrite list_lookup_insert_ne; [reflexivity|].
    intros Hoffs. apply Z2Nat.inj in Hoffs; try lia.
    apply (offset_injective r x y x' y' Hsh Hin Hin') in Hoffs. lia.
Qed.

(** The loop over a list of points of the image: a pixel is black when
    one of the points is that pixel and the rule makes it black, and is
    as it was otherwise. *)
Lemma points_loop (points : list (Z * Z)) : forall r x' y',
  shaped bounds r ->
  Forall (fun '(x, y) => Rectangle.contains bounds x y = true) points ->
  Rectangle.contains bounds x' y' = true ->
  Gray.GrayAt
    (fold_left (fun r '(x, y) => thresholdPixel p grayImg r x y) points r) x' y'
  = if existsb (fun '(x, y) =>
                  (x =? x') && (y =? y')
                  && (thresholdRule grayImg (constant p)
                        (window bounds (halfBlock p) x y) x y =? 0)) points
    then 0 else Gray.GrayAt r x' y'.
Proof.
  induction points as [|[x y] points IH]; intros r x' y' Hsh Hall Hin'; simpl;
    [reflexivity|].
  apply Forall_cons in Hall as [Hin Hall].
  rewrite thresholdPixel_rule.
  destruct (thresholdRule grayImg (constant p) (window bounds (halfBlock p) x y) x y =? 0)
    eqn:Hblack.
  - rewrite IH by auto using shaped_Set.
    rewrite GrayAt_Set by assumption.
    rewrite andb_true_r.
    destruct ((x =? x') && (y =? y')); simpl; [|reflexivity].
    now destruct (existsb _ points).
  - rewrite IH by assumption. now rewrite andb_false_r.
Qed.

(** A pixel of the result. *)
Lemma Process_pixel result x y :
  Process p (Image grayImg) = Ok result ->
  Rectangle.contains bounds x y = true ->
  Gray.GrayAt result x y
  = thresholdRule grayImg (constant p) (window bounds (halfBlock p) x y) x y.
Proof.
  unfold Process, forRange. fold bounds. intros Hres Hin. injection Hres as <-.
  rewrite (nested_loops (fun r x y => thresholdPixel p grayImg r x y)).
  rewrite points_loop; [|apply shaped_initial| |exact Hin].
  - rewrite GrayAt_initial by exact Hin.
    set (rule := thresholdRule grayImg (constant p)).
    destruct (existsb _ _) eqn:Hex.
    + apply existsb_exists in Hex as ([x0 y0] & _ & Hx0).
      assert (x0 = x /\ y0 = y /\ rule (window bounds (halfBlock p) x0 y0) x0 y0 = 0)
        as (-> & -> & ->) by lia.
      reflexivity.
    + assert (Hnot : rule (window bounds (halfBlock p) x y) x y <> 0).
      { intros Hzero.
        assert (Htrue : existsb
                  (fun '(x0, y0) =>
                     (x0 =? x) && (y0 =? y)
                     && (rule (window bounds (halfBlock p) x0 y0) x0 y0 =? 0))
                  (flat_map
                     (fun y0 => map (fun x0 => (x0, y0))
                        (seqZ (Rectangle.MinX bounds)
                              (Rectangle.MaxX bounds - Rectangle.MinX bounds)))
                     (seqZ (Rectangle.MinY bounds)
                           (Rectangle.MaxY bounds - Rectangle.MinY bounds))) = true).
        { apply existsb_exists. exists (x, y). split.
          - apply contains_spec in Hin.
            apply in_flat_map. exists y. split.
            + apply list_elem_of_In, elem_of_seqZ. lia.
            + apply in_map_iff. exists x. split; [reflexivity|].
              apply list_elem_of_In, elem_of_seqZ. lia.
          - rewrite Hzero. lia. }
        congruence. }
      unfold rule, thresholdRule in *.
      destruct (_ && _); [congruence|reflexivity].
  - apply Forall_forall. intros [x0 y0] Hxy.
    apply list_elem_of_In, in_flat_map in Hxy as (y1 & Hy1 & Hxy).
    apply in_map_iff in Hxy as (x1 & Heq & Hx1). injection Heq as -> ->.
    apply list_elem_of_In, elem_of_seqZ in Hy1, Hx1.
    apply contains_spec. lia.
Qed.

(** [Process] returns an image for every image. *)
Lemma Process_image_Ok :
  exists result, Process p (Image grayImg) = Ok result.
Proof. unfold Process. eauto. Qed.

End ThresholdFacts.

Section WindowFacts.
Variable bounds : Rectangle.t.
Variable h x y : Z.

(** The window is the set of the image points at most [h] columns and
    [h] rows from (x, y). *)
Lemma window_In nx ny :
  In (nx, ny) (window bounds h x y) <->
  Rectangle.contains bounds nx ny = true /\
  Z.abs (nx - x) <= h /\ Z.abs (ny - y) <= h.
Proof.
  unfold window, offsets. rewrite in_flat_map. split.
  - intros (dy & Hdy & Hin). apply in_flat_map in Hin as (dx & Hdx & Hin).
    apply list_elem_of_In, elem_of_seqZ in Hdy, Hdx.
    destruct (Rectangle.contains bounds (x + dx) (y + dy)) eqn:Hc; [|contradiction].
    destruct Hin as [Heq|[]]. injection Heq as <- <-. split; [exact Hc|lia].
  - intros (Hc & Hx & Hy). exists (ny - y). split.
    + apply list_elem_of_In, elem_of_seqZ. lia.
    + apply in_flat_map. exists (nx - x). split.
      * apply list_elem_of_In, elem_of_seqZ. lia.
      * replace (x + (nx - x)) with nx by lia.
        replace (y + (ny - y)) with ny by lia.
        rewrite Hc. now left.
Qed.

Lemma window_NoDup : NoDup (window bounds h x y).
Proof.
  unfold window. apply NoDup_flat_map.
  - apply NoDup_seqZ.
  - intros dy _. apply NoDup_flat_map.
    + apply NoDup_seqZ.
    + intros dx _. destruct (Rectangle.contains _ _ _); repeat constructor.
      intros Hin. inversion Hin.
    + intros dx1 dx2 [nx ny] _ _ H1 H2.
      destruct (Rectangle.contains bounds (x + dx1) (y + dy)); [|contradiction].
      destruct (Rectangle.contains bounds (x + dx2) (y + dy)); [|contradiction].
      destruct H1 as [H1|[]], H2 as [H2|[]]. injection H1. injection H2. lia.
  - intros dy1 dy2 [nx ny] _ _ H1 H2.
    apply in_flat_map in H1 as (dx1 & _ & H1).
    apply in_flat_map in H2 as (dx2 & _ & H2).
    destruct (Rectangle.contains bounds (x + dx1) (y + dy1)); [|contradiction].
    destruct (Rectangle.contains bounds (x + dx2) (y + dy2)); [|contradiction].
    destruct H1 as [H1|[]], H2 as [H2|[]]. injection H1. injection H2. lia.
Qed.

End WindowFacts.

(** C8, the statement of the specification fails: with [blockSize] 2 the
    window of the middle pixel of a 3 by 3 image is the whole image, 9
    pixels of sum 1610, not a window of 2 by 2 pixels. *)
Lemma even_block_window_is_not_blockSize_square :
  AdaptiveThresholdProcessor.windowStats
    (AdaptiveThresholdProcessor.NewAdaptiveThresholdProcessor 2 2) darkCentre 1 1
  = (1610, 9)
  /\
  snd (AdaptiveThresholdProcessor.windowStats
         (AdaptiveThresholdProcessor.NewAdaptiveThresholdProcessor 2 2) darkCentre 1 1)
  <> AdaptiveThresholdProcessor.blockSize
       (AdaptiveThresholdProcessor.NewAdaptiveThresholdProcessor 2 2)
     * AdaptiveThresholdProcessor.blockSize
         (AdaptiveThresholdProcessor.NewAdaptiveThresholdProcessor 2 2).
Proof. split; [reflexivity|]. vm_compute. discriminate. Qed.

(** C8, amended: for every pixel (x, y) of the image, with h the quotient
    of [blockSize] by 2, truncated, the result is black at (x, y) iff the
    window of (x, y) is not empty and the gray value of the pixel is
    strictly below the mean gray value of the window less the constant,
    and white otherwise; the window is the set of the pixels of the image
    at most h columns and h rows from (x, y), a square of side 2h + 1 cut
    at the border, and 2h + 1 is [blockSize] when [blockSize] is odd and
    positive.  Mean, difference and comparison are float64 operations on
    the grayscale version of the input. *)
Theorem adaptive_threshold_pixel p grayImg result x y :
  AdaptiveThresholdProcessor.Process p (AdaptiveThresholdProcessor.Image grayImg)
  = Ok result ->
  Rectangle.contains (GrayImage.Bounds grayImg) x y = true ->
  let h := Z.quot (AdaptiveThresholdProcessor.blockSize p) 2 in
  let points := window (GrayImage.Bounds grayImg) h x y in
  Gray.GrayAt result x y
  = thresholdRule grayImg (AdaptiveThresholdProcessor.constant p) points x y
  /\ NoDup points
  /\ (forall nx ny,
         In (nx, ny) points <->
         Rectangle.contains (GrayImage.Bounds grayImg) nx ny = true /\
         Z.abs (nx - x) <= h /\ Z.abs (ny - y) <= h)
  /\ (0 < AdaptiveThresholdProcessor.blockSize p ->
      Z.odd (AdaptiveThresholdProcessor.blockSize p) = true ->
      2 * h + 1 = AdaptiveThresholdProcessor.blockSize p).
Proof.
  intros Hres Hin h points. split; [|split; [|split]].
  - exact (Process_pixel p grayImg result x y Hres Hin).
  - apply window_NoDup.
  - intros nx ny. apply window_In.
  - intros Hpos Hodd. subst h.
    apply Z.odd_spec in Hodd as [k Hk]. rewrite Hk in *.
    rewrite Z.quot_div_nonneg by lia.
    replace (2 * k + 1) with (1 + k * 2) by lia.
    rewrite Z.div_add by lia. change (1 / 2) with 0. lia.
Qed.

(** The 3 by 3 image with the dark centre under a block of size 3: the
    centre becomes black, the corner stays white. *)
Lemma adaptive_threshold_pixel_witness :
  exists result,
    AdaptiveThresholdProcessor.Process
      (AdaptiveThresholdProcessor.NewAdaptiveThresholdProcessor 3 2)
      (AdaptiveThresholdProcessor.Image darkCentre) = Ok result
    /\ Gray.GrayAt result 1 1
       = thresholdRule darkCentre 2 (window (Rectangle.mk 0 0 3 3) 1 1 1) 1 1
    /\ Gray.GrayAt result 1 1 = 0
    /\ Gray.GrayAt result 0 0
       = thresholdRule darkCentre 2 (window (Rectangle.mk 0 0 3 3) 1 0 0) 0 0
    /\ Gray.GrayAt result 0 0 = 255.
Proof.
  eexists. split; [reflexivity|].
  split; [|split; [reflexivity|split; [|reflexivity]]].
  - refine (proj1 (adaptive_threshold_pixel
                     (AdaptiveThresholdProcessor.NewAdaptiveThresholdProcessor 3 2)
                     darkCentre _ 1 1 eq_refl eq_refl)).
  - refine (proj1 (adaptive_threshold_pixel
                     (AdaptiveThresholdProcessor.NewAdaptiveThresholdProcessor 3 2)
                     darkCentre _ 0 0 eq_refl eq_refl)).
Defined.

(** * Further properties *)

(** ** The normalizer *)

Section ConverterMore.
Import models JSONConverter.

Lemma contentsFrom_lookup_chunk chunks : forall i (j : nat) c,
  contentsFrom i chunks !! j = Some c ->
  exists chunk, chunks !! j = Some chunk /\ c = chunkContent (i + Z.of_nat j) chunk.
Proof.
  induction chunks as [|chunk rest IH]; intros i j c Hj; [discriminate|].
  destruct j as [|j]; simpl in Hj.
  - injection Hj as <-. exists chunk. split; [reflexivity|].
    f_equal. lia.
  - apply IH in Hj as (chunk' & Hl & ->). exists chunk'. split; [exact Hl|].
    f_equal. lia.
Qed.

Lemma chunkContent_keeps i chunk :
  ChunkContent.Text (chunkContent i chunk) = DocumentChunk.Content chunk /\
  ChunkContent.Metadata (chunkContent i chunk) = DocumentChunk.Metadata chunk /\
  ChunkContent.Type_ (chunkContent i chunk) = typeOf chunk.
Proof.
  unfold chunkContent, typeOf.
  destruct (DocumentChunk.Metadata chunk !! "pageNumber") as [v|] eqn:Hp; simpl.
  - repeat split. now apply insert_id.
  - destruct (DocumentChunk.Metadata chunk !! "imageType") as [v|] eqn:Hi; simpl.
    + repeat split. now apply insert_id.
    + repeat split.
Qed.

Lemma basicInfo_Sections chunks m :
  DocumentMetadata.Sections (basicInfo chunks m) = DocumentMetadata.Sections m.
Proof.
  unfold basicInfo. destruct chunks as [|first rest]; [reflexivity|].
  destruct (0 <? _); [|reflexivity].
  destruct (asString (_ !! "filename")), (asString (_ !! "type")),
    (asInt64 (_ !! "size")), (asInt (_ !! "pageCount")); reflexivity.
Qed.

Lemma asString_Some (v : option Value) s :
  asString v = Some s <-> v = Some (VString s).
Proof.
  destruct v as [[]|]; simpl; split; intros H; try discriminate; congruence.
Qed.

Lemma loopFrom_sections chunks : forall i v s,
  s ∈ sections (loopFrom i chunks v) <->
  s ∈ sections v \/ exists chunk, In chunk chunks /\ hasSection s chunk.
Proof.
  induction chunks as [|chunk rest IH]; intros i v s; simpl.
  - split; [auto|]. intros [H|(c & [] & _)]. exact H.
  - rewrite IH. unfold loopBody at 1. simpl.
    destruct (asString (DocumentChunk.Metadata chunk !! "section")) as [sec|] eqn:Hs.
    + apply asString_Some in Hs. rewrite elem_of_union, elem_of_singleton. split.
      * intros [[->|H]|(c & Hc & Hsec)].
        -- right. exists chunk. split; [now left|exact Hs].
        -- now left.
        -- right. exists c. split; [now right|exact Hsec].
      * intros [H|(c & [<-|Hc] & Hsec)].
        -- left. now right.
        -- left. left. unfold hasSection in Hsec. congruence.
        -- right. exists c. split; assumption.
    + split.
      * intros [H|(c & Hc & Hsec)].
        -- now left.
        -- right. exists c. split; [now right|exact Hsec].
      * intros [H|(c & [<-|Hc] & Hsec)].
        -- now left.
        -- unfold hasSection in Hsec. rewrite Hsec in Hs. discriminate.
        -- right. exists c. split; assumption.
Qed.

Lemma Convert_Sections_of now chunks doc :
  Convert now chunks = Ok doc ->
  NoDup (DocumentMetadata.Sections (ProcessedDocument.Metadata doc)) /\
  forall s,
    In s (DocumentMetadata.Sections (ProcessedDocument.Metadata doc)) <->
    exists chunk, In chunk chunks /\ hasSection s chunk.
Proof.
  unfold Convert. destruct (_ =? 0); [discriminate|].
  intros H. injection H as <-. simpl. rewrite basicInfo_Sections. simpl. split.
  - apply NoDup_elements.
  - intros s. rewrite <- list_elem_of_In, elem_of_elements, loopFrom_sections. simpl.
    split.
    + intros [H|H]; [|exact H]. now apply elem_of_empty in H.
    + auto.
Qed.

End ConverterMore.



(** X2: the sections of the document [Convert] returns are the section
    strings the chunks carry, each listed once. *)
Theorem Convert_Sections now chunks doc :
  JSONConverter.Convert now chunks = Ok doc ->
  NoDup (DocumentMetadata.Sections (ProcessedDocument.Metadata doc)) /\
  forall s,
    In s (DocumentMetadata.Sections (ProcessedDocument.Metadata doc)) <->
    exists chunk, In chunk chunks /\ hasSection s chunk.
Proof. apply Convert_Sections_of. Qed.

(** Two chunks of the same section and one of another. *)
Lemma Convert_Sections_witness :
  exists doc,
    JSONConverter.Convert 0 [pdfPageChunk; pdfPageChunk; ocrChunk80] = Ok doc /\
    NoDup (DocumentMetadata.Sections (ProcessedDocument.Metadata doc)) /\
    In "page_1" (DocumentMetadata.Sections (ProcessedDocument.Metadata doc)).
Proof.
  destruct (Convert_total 0 [pdfPageChunk; pdfPageChunk; ocrChunk80]) as [doc Hdoc];
    [discriminate|].
  exists doc. split; [exact Hdoc|].
  destruct (Convert_Sections 0 _ doc Hdoc) as [Hnodup Hin].
  split; [exact Hnodup|]. apply Hin. exists pdfPageChunk. split; [now left|].
  unfold hasSection, pdfPageChunk, PdfProcessor.pageChunk. simpl.
  do 2 (rewrite lookup_insert_ne by discriminate). apply lookup_insert_eq.
Defined.

(** ** The PDF extractor *)

Section PdfMore.
Import models PdfProcessor.
Variable hashStr : string.
Variable pages : list Page.

Lemma pageAt_failing p err :
  pageAt pages p = FailingPage err -> existsb isFailing pages = true.
Proof.
  unfold pageAt. intros Hp.
  destruct (nth_in_or_default (Z.to_nat (p - 1)) pages NullPage) as [Hin|Hd].
  - rewrite Hp in Hin. apply existsb_exists. exists (FailingPage err).
    split; [exact Hin|reflexivity].
  - congruence.
Qed.


Lemma pagesInvariant_initial : pagesInvariant hashStr pages (initial pages).
Proof.
  unfold pagesInvariant, initial. simpl. repeat split.
  - apply Forall_forall. intros p Hp. apply elem_of_seqZ in Hp. lia.
  - constructor.
  - intros _ p err Hp _. apply list_elem_of_In, elem_of_seqZ. lia.
Qed.

Lemma pagesInvariant_step c c' :
  step hashStr pages c c' ->
  pagesInvariant hashStr pages c -> pagesInvariant hashStr pages c'.
Proof.
  intros [c0 c1 l1 p l2 Hpend Hfin] (Hrange & Hchunks & Hfail & Hnone).
  rewrite Hpend in Hrange, Hfail.
  assert (Hp : 1 <= p <= Z.of_nat (length pages)).
  { rewrite Forall_app, Forall_cons in Hrange. tauto. }
  assert (Hrest : Forall (fun p => 1 <= p <= Z.of_nat (length pages)) (l1 ++ l2)).
  { rewrite Forall_app, Forall_cons in Hrange. rewrite Forall_app. tauto. }
  assert (Hkeep : forall q err,
             groupErr c0 = None -> q <> p ->
             1 <= q <= Z.of_nat (length pages) ->
             pageAt pages q = FailingPage err -> In q (l1 ++ l2)).
  { intros q err Hg Hq Hr Hpage. specialize (Hfail Hg q err Hr Hpage).
    apply in_app_or in Hfail. apply in_or_app.
    destruct Hfail as [H|[H|H]]; auto. congruence. }
  inversion Hfin as [c2 Hpage|c2 text Hpage|c2 err Hpage|c2 Herr]; subst;
    unfold pagesInvariant; simpl in *.
  - repeat split; auto.
    intros Hg q err Hr Hq. apply (Hkeep q err Hg); auto. congruence.
  - repeat split; auto.
    + apply Forall_app. split; [exact Hchunks|].
      constructor; [|constructor]. exists p, text. auto.
    + intros Hg q err Hr Hq. apply (Hkeep q err Hg); auto. congruence.
  - repeat split; auto.
    + intros Hg. now apply keepFirst_Some in Hg.
    + intros Hno. apply pageAt_failing in Hpage. congruence.
  - repeat split; auto. intros Hg. contradiction.
Qed.

Lemma pagesInvariant_reachable c :
  rtc (step hashStr pages) (initial pages) c -> pagesInvariant hashStr pages c.
Proof.
  intros Hrun.
  refine (rtc_ind_r (fun c => pagesInvariant hashStr pages c) (initial pages) _ _ c Hrun).
  - apply pagesInvariant_initial.
  - intros y z _ Hstep IH. exact (pagesInvariant_step y z Hstep IH).
Qed.

Lemma postProcessChunks_same chunks : postProcessChunks chunks = Ok chunks.
Proof.
  unfold postProcessChunks. f_equal.
  induction chunks as [|[content md] rest IH]; simpl; [reflexivity|].
  now rewrite IH.
Qed.

Lemma pageChunk_lookups pageNum text :
  let md := DocumentChunk.Metadata (pageChunk hashStr pageNum text) in
  md !! "section" = Some (VString ("page_" +:+ pretty pageNum)) /\
  md !! "hash" = Some (VString hashStr) /\
  md !! "pageNumber" = None /\ md !! "imageType" = None /\
  md !! "pageCount" = None /\ md !! "filename" = None /\
  md !! "type" = None /\ md !! "size" = None /\ md !! "confidence" = None.
Proof.
  unfold pageChunk. simpl.
  repeat split;
    repeat (first [ rewrite lookup_insert_eq; reflexivity
                  | rewrite lookup_insert_ne by discriminate
                  | apply lookup_empty ]).
Qed.

End PdfMore.



(** X4: every chunk the PDF extractor returns is the chunk of a page of
    the document that has text: its content is the text of that page, and
    its metadata holds the page number, the section "page_<number>" and
    the hash of the file. *)
Theorem pdf_chunks_are_page_chunks hashStr pages out chunk :
  PdfProcessor.Process (PdfProcessor.Document hashStr pages) (Ok out) ->
  In chunk out ->
  exists pageNum text,
    1 <= pageNum <= Z.of_nat (length pages) /\
    PdfProcessor.pageAt pages pageNum = PdfProcessor.TextPage text /\
    models.DocumentChunk.Content chunk = text /\
    models.DocumentChunk.Metadata chunk !! "page" = Some (VInt pageNum) /\
    models.DocumentChunk.Metadata chunk !! "section"
    = Some (VString ("page_" +:+ pretty pageNum)) /\
    models.DocumentChunk.Metadata chunk !! "hash" = Some (VString hashStr).
Proof.
  intros H Hin. inversion H as [| |h ps c Hrun Hpend Hi Hout]; subst.
  apply pagesInvariant_reachable in Hrun as (_ & Hchunks & _ & _).
  unfold PdfProcessor.collect in Hout.
  destruct (PdfProcessor.groupErr c); [discriminate|].
  rewrite postProcessChunks_same in Hout. injection Hout as <-.
  rewrite Forall_forall in Hchunks. apply list_elem_of_In in Hin.
  destruct (Hchunks chunk Hin) as (p & text & Hp & Hpage & ->).
  exists p, text. split; [exact Hp|]. split; [exact Hpage|]. split; [reflexivity|].
  split; [apply lookup_insert_eq|].
  destruct (pageChunk_lookups hashStr p text) as (Hs & Hh & _). auto.
Qed.

(** The chunk of page 3 in a run of the three-page document. *)
Lemma pdf_chunks_are_page_chunks_witness :
  exists pageNum text,
    1 <= pageNum <= 3 /\
    PdfProcessor.pageAt
      [PdfProcessor.TextPage "first"; PdfProcessor.NullPage; PdfProcessor.TextPage "third"]
      pageNum = PdfProcessor.TextPage text /\
    models.DocumentChunk.Content (PdfProcessor.pageChunk "9f86d081" 3 "third") = text /\
    models.DocumentChunk.Metadata (PdfProcessor.pageChunk "9f86d081" 3 "third") !! "page"
    = Some (VInt pageNum) /\
    models.DocumentChunk.Metadata (PdfProcessor.pageChunk "9f86d081" 3 "third") !! "section"
    = Some (VString ("page_" +:+ pretty pageNum)) /\
    models.DocumentChunk.Metadata (PdfProcessor.pageChunk "9f86d081" 3 "third") !! "hash"
    = Some (VString "9f86d081").
Proof.
  refine (pdf_chunks_are_page_chunks "9f86d081"
            [PdfProcessor.TextPage "first"; PdfProcessor.NullPage;
             PdfProcessor.TextPage "third"]
            [PdfProcessor.pageChunk "9f86d081" 3 "third";
             PdfProcessor.pageChunk "9f86d081" 1 "first"]
            (PdfProcessor.pageChunk "9f86d081" 3 "third") _ _).
  - apply (ProcessWith_is_a_run "9f86d081"
             [PdfProcessor.TextPage "first"; PdfProcessor.NullPage;
              PdfProcessor.TextPage "third"] [3; 2; 1]).
    simpl. symmetry. apply (Permutation_rev [1; 2; 3]).
  - now left.
Defined.

(** ** The PDF extractor and the normalizer together *)

Section PdfConvert.
Import models.

Lemma typeOf_pageChunk hashStr pageNum text :
  typeOf (PdfProcessor.pageChunk hashStr pageNum text) = "".
Proof.
  destruct (pageChunk_lookups hashStr pageNum text) as (_ & _ & Hp & Hi & _).
  unfold typeOf. now rewrite Hp, Hi.
Qed.

Lemma basicInfo_pageChunk hashStr pageNum text rest m :
  JSONConverter.basicInfo (PdfProcessor.pageChunk hashStr pageNum text :: rest) m = m.
Proof.
  destruct (pageChunk_lookups hashStr pageNum text)
    as (_ & _ & _ & _ & Hc & Hf & Ht & Hs & _).
  unfold JSONConverter.basicInfo.
  destruct (0 <? _); [|reflexivity].
  rewrite Hc, Hf, Ht, Hs. simpl. now destruct m.
Qed.

Lemma hasSection_pageChunk hashStr pageNum text s :
  hasSection s (PdfProcessor.pageChunk hashStr pageNum text) <->
  s = "page_" +:+ pretty pageNum.
Proof.
  destruct (pageChunk_lookups hashStr pageNum text) as (Hs & _).
  unfold hasSection. rewrite Hs. split; congruence.
Qed.

End PdfConvert.

(** X5: in the document the normalizer builds from the chunks of the PDF
    extractor no entry has the type "page" (the extractor writes the key
    page, the normalizer looks for pageNumber): every type is empty; the
    page count stays 0; and the sections are the names "page_<n>" of the
    pages that are not null. *)
Theorem pdf_document_has_no_page_type hashStr pages out now doc :
  PdfProcessor.Process (PdfProcessor.Document hashStr pages) (Ok out) ->
  JSONConverter.Convert now out = Ok doc ->
  (forall c, In c (ProcessedDocument.Content doc) -> ChunkContent.Type_ c = "") /\
  DocumentMetadata.PageCount (ProcessedDocument.Metadata doc) = 0 /\
  (forall s,
      In s (DocumentMetadata.Sections (ProcessedDocument.Metadata doc)) <->
      exists p, In p (nonNullPages pages) /\ s = "page_" +:+ pretty p).
Proof.
  intros Hrun Hdoc.
  pose proof (Process_pages_permutation hashStr pages out Hrun) as Hperm.
  assert (Hchunks : Forall (chunkOfPage hashStr pages) out).
  { inversion Hrun as [| |h ps c Hsteps Hpend Hi Hout]; subst.
    apply pagesInvariant_reachable in Hsteps as (_ & Hchunks & _ & _).
    unfold PdfProcessor.collect in Hout.
    destruct (PdfProcessor.groupErr c); [discriminate|].
    rewrite postProcessChunks_same in Hout. now injection Hout as <-. }
  rewrite Forall_forall in Hchunks.
  split; [|split].
  - intros c Hc. apply (In_nth_error _ c) in Hc as [i Hi].
    rewrite (Convert_Content now out doc Hdoc) in Hi.
    assert (Hl : contentsFrom 0 out !! i = Some c).
    { revert Hi. generalize (contentsFrom 0 out). intros l. revert i.
      induction l as [|a l IH]; intros [|i] H; simpl in *; try discriminate; auto. }
    apply contentsFrom_lookup_chunk in Hl as (chunk & Hchunk & ->).
    destruct (chunkContent_keeps (0 + Z.of_nat i) chunk) as (_ & _ & ->).
    apply list_elem_of_lookup_2 in Hchunk.
    destruct (Hchunks chunk Hchunk) as (p & text & _ & _ & ->).
    apply typeOf_pageChunk.
  - unfold JSONConverter.Convert in Hdoc.
    destruct (_ =? 0); [discriminate|]. injection Hdoc as <-. simpl.
    destruct out as [|first rest]; [reflexivity|].
    destruct (Hchunks first) as (p & text & _ & _ & ->); [now left|].
    now rewrite basicInfo_pageChunk.
  - intros s. rewrite (proj2 (Convert_Sections_of now out doc Hdoc) s). split.
    + intros (chunk & Hin & Hsec). apply list_elem_of_In in Hin.
      destruct (Hchunks chunk Hin) as (p & text & _ & _ & ->).
      apply hasSection_pageChunk in Hsec. exists p. split; [|exact Hsec].
      assert (Hp : In (Some p) (map PdfProcessor.pageOf out)).
      { apply in_map_iff. exists (PdfProcessor.pageChunk hashStr p text).
        split; [apply pageOf_pageChunk|now apply list_elem_of_In]. }
      apply (Permutation_in _ Hperm) in Hp.
      apply in_map_iff in Hp as (q & Hq & Hin'). congruence.
    + intros (p & Hp & ->).
      assert (Hin : In (Some p) (map PdfProcessor.pageOf out)).
      { apply (Permutation_in _ (Permutation_sym Hperm)). now apply in_map. }
      apply in_map_iff in Hin as (chunk & Hpage & Hin).
      exists chunk. split; [exact Hin|].
      apply list_elem_of_In in Hin.
      destruct (Hchunks chunk Hin) as (q & text & _ & _ & ->).
      rewrite pageOf_pageChunk in Hpage. injection Hpage as ->.
      now apply hasSection_pageChunk.
Qed.

(** The three-page document with a null page, page 3 delivered first. *)
Lemma pdf_document_has_no_page_type_witness :
  exists doc,
    JSONConverter.Convert 0
      [ PdfProcessor.pageChunk "9f86d081" 3 "third";
        PdfProcessor.pageChunk "9f86d081" 1 "first" ] = Ok doc /\
    (forall c, In c (ProcessedDocument.Content doc) -> ChunkContent.Type_ c = "") /\
    DocumentMetadata.PageCount (ProcessedDocument.Metadata doc) = 0.
Proof.
  destruct (Convert_total 0
              [ PdfProcessor.pageChunk "9f86d081" 3 "third";
                PdfProcessor.pageChunk "9f86d081" 1 "first" ]) as [doc Hdoc];
    [discriminate|].
  exists doc. split; [exact Hdoc|].
  assert (Hrun : PdfProcessor.Process threePagesOneNull
                   (PdfProcessor.ProcessWith [3; 2; 1] threePagesOneNull)).
  { apply ProcessWith_is_a_run. simpl. symmetry. apply (Permutation_rev [1; 2; 3]). }
  destruct (pdf_document_has_no_page_type _ _ _ 0 doc Hrun Hdoc) as (Ht & Hc & _).
  split; [exact Ht|exact Hc].
Defined.



(** ** The status cache *)

Section CacheFacts.
Import AsynqQueue.

Lemma append_cancel_l (p a b : string) : p +:+ a = p +:+ b -> a = b.
Proof.
  induction p as [|c p IH]; simpl; intros H; [exact H|].
  injection H as H. auto.
Qed.

Lemma statusKey_inj a b : statusKey a = statusKey b -> a = b.
Proof. apply append_cancel_l. Qed.

(** What a successful [SaveFinalStatus] has written. *)
Lemma SaveFinalStatus_written q now status q' :
  SaveFinalStatus q now status = (q', None) ->
  broker q' = broker q /\
  redis.up (redis q') = true /\
  redis.kv (redis q')
  = <[statusKey (TaskStatus.TaskID status)
      := (redis.JSONStatus status, now + 24 * Hour)]> (redis.kv (redis q)).
Proof.
  unfold SaveFinalStatus, marshalStatus.
  destruct (jsonFloatOK (TaskStatus.Progress status)); [|discriminate].
  unfold redis.Set_. destruct (redis.up (redis q)) eqn:Hup; simpl; [|discriminate].
  intros H. injection H as <-. simpl. auto.
Qed.

Lemma SaveFinalStatus_succeeds q now status :
  jsonFloatOK (TaskStatus.Progress status) = true ->
  redis.up (redis q) = true ->
  exists q', SaveFinalStatus q now status = (q', None).
Proof.
  intros Hf Hup. unfold SaveFinalStatus, marshalStatus, redis.Set_.
  rewrite Hf, Hup. simpl. eauto.
Qed.

Lemma cached_status_is_served r b status expiry later :
  redis.up r = true ->
  redis.kv r !! statusKey (TaskStatus.TaskID status)
  = Some (redis.JSONStatus status, expiry) ->
  later < expiry ->
  GetTaskStatus (mk b r) later (TaskStatus.TaskID status) = (mk b r, Ok status).
Proof.
  intros Hup Hkv Hlater. unfold GetTaskStatus, redis.Get. simpl.
  rewrite Hup, Hkv. simpl.
  replace (later <? expiry) with true by (symmetry; apply Z.ltb_lt; lia).
  reflexivity.
Qed.

Lemma convertAsynqStatus_marshals now info :
  jsonFloatOK (TaskStatus.Progress (convertAsynqStatus now info)) = true.
Proof.
  unfold convertAsynqStatus. destruct (asynq.TaskInfo.State info); reflexivity.
Qed.

Lemma Get_Nil_up r now key : redis.Get r now key = redis.Nil -> redis.up r = true.
Proof. unfold redis.Get. destruct (redis.up r); [reflexivity|discriminate]. Qed.

(** What [GetTaskStatus] returns on a miss: the projection of a task of
    the queue "critical", which it has then saved. *)
Lemma GetTaskStatus_miss q now taskID q' status :
  redis.Get (redis q) now (statusKey taskID) = redis.Nil ->
  GetTaskStatus q now taskID = (q', Ok status) ->
  exists info,
    asynq.GetTaskInfo (broker q) "critical" taskID = Ok info /\
    status = convertAsynqStatus now info /\
    SaveFinalStatus q now status = (q', None).
Proof.
  intros Hmiss. unfold GetTaskStatus. rewrite Hmiss. simpl.
  destruct (asynq.GetTaskInfo (broker q) "critical" taskID) as [info|err] eqn:Hinfo.
  - intros H. injection H as <- <-. exists info. split; [reflexivity|].
    split; [reflexivity|].
    destruct (SaveFinalStatus_succeeds q now (convertAsynqStatus now info)
                (convertAsynqStatus_marshals now info) (Get_Nil_up _ _ _ Hmiss))
      as [q1 Hq1].
    now rewrite Hq1.
  - destruct (asynq.GetTaskInfo (broker q) "default" taskID); [discriminate|].
    destruct (asynq.GetTaskInfo (broker q) "low" taskID); discriminate.
Qed.

End CacheFacts.

(** X7: a status that [SaveFinalStatus] has saved is what [GetTaskStatus]
    returns for that task during the next 24 hours, without a look at the
    broker; from then on the key reads as missing; and the statuses cached
    for other tasks are as before. *)
Theorem saved_status_round_trip q now status q' later :
  AsynqQueue.SaveFinalStatus q now status = (q', None) ->
  (later < now + 24 * Hour ->
   AsynqQueue.GetTaskStatus q' later (TaskStatus.TaskID status) = (q', Ok status)) /\
  (now + 24 * Hour <= later ->
   redis.Get (AsynqQueue.redis q') later
             (AsynqQueue.statusKey (TaskStatus.TaskID status)) = redis.Nil) /\
  (forall other,
      other <> TaskStatus.TaskID status ->
      redis.Get (AsynqQueue.redis q') later (AsynqQueue.statusKey other)
      = redis.Get (AsynqQueue.redis q) later (AsynqQueue.statusKey other)).
Proof.
  intros Hsave.
  assert (Hup0 : redis.up (AsynqQueue.redis q) = true).
  { revert Hsave. unfold AsynqQueue.SaveFinalStatus, redis.Set_.
    destruct (AsynqQueue.marshalStatus status); [|discriminate].
    destruct (redis.up (AsynqQueue.redis q)); [reflexivity|discriminate]. }
  apply SaveFinalStatus_written in Hsave as (Hb & Hup & Hkv).
  split; [|split].
  - intros Hlater. destruct q' as [b r]. simpl in *.
    apply (cached_status_is_served r b status (now + 24 * Hour) later Hup); [|exact Hlater].
    rewrite Hkv. apply lookup_insert_eq.
  - intros Hlate. unfold redis.Get. rewrite Hup, Hkv, lookup_insert_eq. simpl.
    replace (later <? now + 24 * Hour) with false by (symmetry; apply Z.ltb_ge; lia).
    reflexivity.
  - intros other Hother. unfold redis.Get. rewrite Hup, Hup0, Hkv. simpl.
    rewrite lookup_insert_ne; [reflexivity|].
    intros Heq. apply statusKey_inj in Heq. congruence.
Qed.

(** The status completed, saved at time 100 and read an hour later. *)
Lemma saved_status_round_trip_witness :
  AsynqQueue.GetTaskStatus
    (fst (AsynqQueue.SaveFinalStatus emptyQueue 100 completedStatus))
    (100 + Hour) "t1"
  = (fst (AsynqQueue.SaveFinalStatus emptyQueue 100 completedStatus), Ok completedStatus).
Proof.
  refine (proj1 (saved_status_round_trip emptyQueue 100 completedStatus _ (100 + Hour) _) _).
  - reflexivity.
  - reflexivity.
Defined.

(** X8: the status [GetTaskStatus] projects from the broker on a miss is
    saved, and for the next 24 hours every call for that task returns the
    same status, whatever the broker holds by then. *)
Theorem projected_status_is_served_from_cache q now taskID q' status broker' later :
  redis.Get (AsynqQueue.redis q) now (AsynqQueue.statusKey taskID) = redis.Nil ->
  AsynqQueue.GetTaskStatus q now taskID = (q', Ok status) ->
  later < now + 24 * Hour ->
  AsynqQueue.GetTaskStatus (AsynqQueue.mk broker' (AsynqQueue.redis q')) later
                           (TaskStatus.TaskID status)
  = (AsynqQueue.mk broker' (AsynqQueue.redis q'), Ok status).
Proof.
  intros Hmiss Hget Hlater.
  apply (GetTaskStatus_miss q now taskID q' status Hmiss) in Hget
    as (info & _ & _ & Hsave).
  apply SaveFinalStatus_written in Hsave as (_ & Hup & Hkv).
  apply (cached_status_is_served _ _ status (now + 24 * Hour) later Hup); [|exact Hlater].
  rewrite Hkv. apply lookup_insert_eq.
Qed.

(** A task seen active at time 100 is still reported running one hour
    later by a queue whose broker has completed it. *)
Lemma projected_status_is_served_from_cache_witness :
  exists q' status,
    AsynqQueue.GetTaskStatus (queueHolding "t1" "critical" asynq.TaskStateActive) 100 "t1"
    = (q', Ok status) /\
    TaskStatus.Status status = "running" /\
    AsynqQueue.GetTaskStatus
      (AsynqQueue.mk
         (AsynqQueue.broker (queueHolding "t1" "critical" asynq.TaskStateCompleted))
         (AsynqQueue.redis q'))
      (100 + Hour) "t1"
    = (AsynqQueue.mk
         (AsynqQueue.broker (queueHolding "t1" "critical" asynq.TaskStateCompleted))
         (AsynqQueue.redis q'),
       Ok status).
Proof.
  destruct (AsynqQueue.GetTaskStatus
              (queueHolding "t1" "critical" asynq.TaskStateActive) 100 "t1")
    as [q' [status|err]] eqn:Hget; [|vm_compute in Hget; discriminate].
  exists q', status. split; [reflexivity|].
  assert (Hstatus : status = AsynqQueue.convertAsynqStatus 100
                               (brokerTask "t1" "critical" asynq.TaskStateActive)).
  { vm_compute in Hget. injection Hget as _ <-. reflexivity. }
  split; [now rewrite Hstatus|].
  assert (Hid : TaskStatus.TaskID status = "t1") by now rewrite Hstatus.
  pose proof (projected_status_is_served_from_cache
                (queueHolding "t1" "critical" asynq.TaskStateActive) 100 "t1" q' status
                (AsynqQueue.broker (queueHolding "t1" "critical" asynq.TaskStateCompleted))
                (100 + Hour) eq_refl Hget eq_refl) as Hserved.
  rewrite Hid in Hserved. exact Hserved.
Defined.

(** X9: the status [GetProcessingStatus] reports is pending, running,
    completed or failed, never cancelled; and when it is projected from
    the broker (on a cache miss) it is never running either: an active
    task, like a scheduled or an archived one, reads as pending. *)
Theorem GetProcessingStatus_reports s now taskID s' task :
  DocumentService.GetProcessingStatus s now taskID = (s', Ok task) ->
  In (models.ProcessingTask.Status task)
     [models.StatusPending; models.StatusRunning; models.StatusCompleted;
      models.StatusFailed] /\
  (redis.Get (AsynqQueue.redis (DocumentService.queue s)) now
             (AsynqQueue.statusKey taskID) = redis.Nil ->
   exists info,
     asynq.GetTaskInfo (AsynqQueue.broker (DocumentService.queue s)) "critical" taskID
     = Ok info /\
     models.ProcessingTask.Status task
     = match asynq.TaskInfo.State info with
       | asynq.TaskStateCompleted => models.StatusCompleted
       | asynq.TaskStateRetry => models.StatusFailed
       | _ => models.StatusPending
       end).
Proof.
  unfold DocumentService.GetProcessingStatus.
  destruct (AsynqQueue.GetTaskStatus (DocumentService.queue s) now taskID)
    as [q' [status|err]] eqn:Hget; [|discriminate].
  intros H. injection H as <- <-. simpl. split.
  - destruct (String.eqb _ "pending"); [now left|].
    destruct (String.eqb _ "active"); [right; now left|].
    destruct (String.eqb _ "completed"); [right; right; now left|].
    destruct (String.eqb _ "failed"); [right; right; right; now left|now left].
  - intros Hmiss.
    apply (GetTaskStatus_miss _ now taskID q' status Hmiss) in Hget
      as (info & Hinfo & -> & _).
    exists info. split; [exact Hinfo|].
    unfold AsynqQueue.convertAsynqStatus.
    destruct (asynq.TaskInfo.State info); reflexivity.
Qed.

(** An archived task, one that has used up its retries, reads as
    pending. *)
Lemma GetProcessingStatus_reports_witness :
  exists s' task,
    DocumentService.GetProcessingStatus
      (DocumentService.NewService (queueHolding "t1" "critical" asynq.TaskStateArchived)
         (S3Storage.mk ∅ true) [] None) 100 "t1" = (s', Ok task) /\
    models.ProcessingTask.Status task = models.StatusPending.
Proof.
  destruct (DocumentService.GetProcessingStatus
              (DocumentService.NewService
                 (queueHolding "t1" "critical" asynq.TaskStateArchived)
                 (S3Storage.mk ∅ true) [] None) 100 "t1")
    as [s' [task|err]] eqn:Hget; [|vm_compute in Hget; discriminate].
  exists s', task. split; [reflexivity|].
  destruct (proj2 (GetProcessingStatus_reports _ _ _ _ _ Hget) eq_refl)
    as (info & Hinfo & ->).
  vm_compute in Hinfo. injection Hinfo as <-. reflexivity.
Defined.

(** ** The ingest service *)

Section UploadFacts.
Import models DocumentService.
Variable ToLower : string -> string.

(** A successful [ProcessFile], step by step. *)
Lemma ProcessFile_detail s now taskID file header s' task :
  ProcessFile ToLower s now taskID file header = (s', Ok task) ->
  exists q1 queueTask queueTask',
    validateFile ToLower (config s) header = None /\
    S3Storage.up (storage s) = true /\
    storage s'
    = S3Storage.mk (<[FileHeader.Filename header := file]>
                      (S3Storage.objects (storage s))) (S3Storage.up (storage s)) /\
    config s' = config s /\
    ProcessingTask.ID task = taskID /\
    ProcessingTask.Status task = StatusPending /\
    ProcessingTask.Progress task = 0%float /\
    ProcessingTask.Priority task = ServiceConfig.QueuePriority (config s) /\
    Task.ID queueTask = taskID /\
    Task.Priority queueTask = ServiceConfig.QueuePriority (config s) /\
    Task.Payload queueTask !! "fileId" = Some (VString (FileHeader.Filename header)) /\
    AsynqQueue.Enqueue (queue s) now queueTask = (q1, queueTask', None) /\
    AsynqQueue.broker (queue s') = AsynqQueue.broker q1 /\
    (redis.up (AsynqQueue.redis (queue s)) = true ->
     AsynqQueue.SaveFinalStatus q1 now (initialStatus taskID now) = (queue s', None)).
Proof.
  unfold ProcessFile. simpl.
  destruct (validateFile ToLower (config s) header) eqn:Hv; [discriminate|].
  unfold S3Storage.Store.
  destruct (S3Storage.up (storage s)) eqn:Hup; simpl; [|discriminate].
  match goal with
  | |- context [AsynqQueue.Enqueue ?q ?n ?t] =>
      set (queueTask := t); destruct (AsynqQueue.Enqueue q n queueTask)
        as [[q1 queueTask'] [err|]] eqn:Henq
  end; [discriminate|].
  intros H. injection H as <- <-.
  exists q1, queueTask, queueTask'.
  pose proof (Enqueue_inserts _ _ _ _ _ Henq) as (_ & _ & _ & _ & _ & _ & Hredis & _).
  change (TaskStatus.mk taskID "pending" 0 "" now 0) with (initialStatus taskID now).
  destruct (AsynqQueue.SaveFinalStatus q1 now (initialStatus taskID now))
    as [q2 [e|]] eqn:Hsave; simpl.
  - repeat (split; [first [ reflexivity | exact Henq
                          | unfold queueTask; simpl; apply lookup_insert_eq ]|]).
    intros Hredup. rewrite <- Hredis in Hredup.
    destruct (SaveFinalStatus_succeeds q1 now (initialStatus taskID now) eq_refl Hredup)
      as [q3 Hq3].
    congruence.
  - apply SaveFinalStatus_written in Hsave as (Hb & _).
    repeat (split; [first [ reflexivity | exact Henq | exact Hb
                          | unfold queueTask; simpl; apply lookup_insert_eq ]|]).
    intros _. reflexivity.
Qed.

End UploadFacts.

(** X10: a successful [ProcessFile] has stored the bytes of the upload
    under the bare file name, leaving every other key of the store, and
    has put into the broker a task with the given id whose payload names
    that key as [fileId]; the task it returns is pending. *)
Theorem upload_is_stored_under_its_file_name
  (ToLower : string -> string) s now taskID file header s' task :
  DocumentService.ProcessFile ToLower s now taskID file header = (s', Ok task) ->
  S3Storage.objects (DocumentService.storage s') !! FileHeader.Filename header = Some file /\
  (forall key, key <> FileHeader.Filename header ->
     S3Storage.objects (DocumentService.storage s') !! key
     = S3Storage.objects (DocumentService.storage s) !! key) /\
  models.ProcessingTask.ID task = taskID /\
  models.ProcessingTask.Status task = models.StatusPending /\
  exists info,
    asynq.tasks (AsynqQueue.broker (DocumentService.queue s'))
      !! (AsynqQueue.queueOption
            (ServiceConfig.QueuePriority (DocumentService.config s)), taskID)
    = Some info /\
    Task.Payload (asynq.TaskInfo.Payload info) !! "fileId"
    = Some (VString (FileHeader.Filename header)).
Proof.
  intros Hrun.
  apply ProcessFile_detail in Hrun
    as (q1 & queueTask & queueTask' & _ & _ & Hst & _ & Hid & Hstatus & _ & _
        & Hqid & Hqprio & Hfile & Henq & Hbroker & _).
  rewrite Hst. simpl. split; [apply lookup_insert_eq|].
  split; [intros key Hkey; apply lookup_insert_ne; congruence|].
  split; [exact Hid|]. split; [exact Hstatus|].
  apply Enqueue_inserts in Henq as (info & Htasks & _ & _ & Hpayload & _).
  exists info. rewrite Hbroker, Htasks, Hqprio, Hqid, lookup_insert_eq.
  split; [reflexivity|]. now rewrite Hpayload.
Qed.

(** The upload of a PDF to a fresh service. *)
Lemma upload_is_stored_under_its_file_name_witness :
  exists s' task,
    DocumentService.ProcessFile ToLowerASCII (freshService None) 0 "id-1" "%PDF" pdfUpload
    = (s', Ok task) /\
    S3Storage.objects (DocumentService.storage s') !! "Report.PDF" = Some "%PDF".
Proof.
  destruct (DocumentService.ProcessFile ToLowerASCII (freshService None) 0 "id-1"
              "%PDF" pdfUpload) as [s' [task|err]] eqn:Hrun;
    [|vm_compute in Hrun; discriminate].
  exists s', task. split; [reflexivity|].
  exact (proj1 (upload_is_stored_under_its_file_name ToLowerASCII _ _ _ _ _ _ _ Hrun)).
Defined.

(** X11: when a second file with the same name is uploaded, the store
    holds the bytes of the second upload under that name, and the task of
    the first upload, still in the broker, names the same key: the worker
    that handles the first task reads the second file. *)
Theorem same_name_upload_replaces_blob
  (ToLower : string -> string) s now1 id1 file1 header1 s1 task1
  now2 id2 file2 header2 s2 task2 :
  DocumentService.ProcessFile ToLower s now1 id1 file1 header1 = (s1, Ok task1) ->
  DocumentService.ProcessFile ToLower s1 now2 id2 file2 header2 = (s2, Ok task2) ->
  FileHeader.Filename header1 = FileHeader.Filename header2 ->
  id1 <> id2 ->
  S3Storage.objects (DocumentService.storage s2) !! FileHeader.Filename header1
  = Some file2 /\
  exists info1,
    asynq.tasks (AsynqQueue.broker (DocumentService.queue s2))
      !! (AsynqQueue.queueOption
            (ServiceConfig.QueuePriority (DocumentService.config s)), id1)
    = Some info1 /\
    Task.Payload (asynq.TaskInfo.Payload info1) !! "fileId"
    = Some (VString (FileHeader.Filename header1)).
Proof.
  intros Hrun1 Hrun2 Hname Hids.
  apply ProcessFile_detail in Hrun1
    as (q1 & qt1 & qt1' & _ & _ & _ & Hcfg1 & _ & _ & _ & _
        & Hqid1 & Hqprio1 & Hfile1 & Henq1 & Hbroker1 & _).
  apply ProcessFile_detail in Hrun2
    as (q2 & qt2 & qt2' & _ & _ & Hst2 & _ & _ & _ & _ & _
        & Hqid2 & Hqprio2 & _ & Henq2 & Hbroker2 & _).
  split.
  - rewrite Hst2, Hname. simpl. apply lookup_insert_eq.
  - apply Enqueue_inserts in Henq1 as (info1 & Htasks1 & _ & _ & Hpayload1 & _).
    apply Enqueue_inserts in Henq2 as (info2 & Htasks2 & _).
    exists info1. rewrite Hbroker2, Htasks2, Hbroker1, Htasks1.
    rewrite Hqid1, Hqid2, Hqprio1. split.
    + rewrite lookup_insert_ne by congruence. apply lookup_insert_eq.
    + now rewrite Hpayload1.
Qed.

(** Two uploads named Report.PDF with different bytes. *)
Lemma same_name_upload_replaces_blob_witness :
  exists s1 task1 s2 task2,
    DocumentService.ProcessFile ToLowerASCII (freshService None) 0 "id-1" "%PDF-a" pdfUpload
    = (s1, Ok task1) /\
    DocumentService.ProcessFile ToLowerASCII s1 5 "id-2" "%PDF-b" secondUpload
    = (s2, Ok task2) /\
    S3Storage.objects (DocumentService.storage s2) !! "Report.PDF" = Some "%PDF-b".
Proof.
  destruct (DocumentService.ProcessFile ToLowerASCII (freshService None) 0 "id-1"
              "%PDF-a" pdfUpload) as [s1 [task1|err]] eqn:Hrun1;
    [|vm_compute in Hrun1; discriminate].
  destruct (DocumentService.ProcessFile ToLowerASCII s1 5 "id-2" "%PDF-b" secondUpload)
    as [s2 [task2|err]] eqn:Hrun2.
  - exists s1, task1, s2, task2. split; [reflexivity|]. split; [exact Hrun2|].
    refine (proj1 (same_name_upload_replaces_blob ToLowerASCII _ _ _ _ pdfUpload _ _
                     _ _ _ secondUpload _ _ Hrun1 Hrun2 eq_refl _)).
    discriminate.
  - exfalso. vm_compute in Hrun1. injection Hrun1 as <- _.
    vm_compute in Hrun2. discriminate.
Defined.

(** X12: after a successful [ProcessFile] on a service whose status cache
    answers, [GetProcessingStatus] reports the task as pending, with
    progress 0, for the next 24 hours, from the cached initial status and
    whichever queue holds the task. *)
Theorem status_after_upload_is_pending
  (ToLower : string -> string) s now taskID file header s' task later :
  DocumentService.ProcessFile ToLower s now taskID file header = (s', Ok task) ->
  redis.up (AsynqQueue.redis (DocumentService.queue s)) = true ->
  later < now + 24 * Hour ->
  exists s'' reported,
    DocumentService.GetProcessingStatus s' later taskID = (s'', Ok reported) /\
    models.ProcessingTask.ID reported = taskID /\
    models.ProcessingTask.Status reported = models.StatusPending /\
    models.ProcessingTask.Progress reported = 0%float.
Proof.
  intros Hrun Hup Hlater.
  apply ProcessFile_detail in Hrun
    as (q1 & qt & qt' & _ & _ & _ & _ & _ & _ & _ & _ & _ & _ & _ & _ & _ & Hsave).
  specialize (Hsave Hup).
  apply SaveFinalStatus_written in Hsave as (_ & Hup' & Hkv).
  unfold DocumentService.GetProcessingStatus.
  destruct (DocumentService.queue s') as [b r]. simpl in Hup', Hkv.
  pose proof (cached_status_is_served r b (initialStatus taskID now)
                (now + 24 * Hour) later Hup') as Hserved.
  simpl in Hserved. rewrite Hserved; [|rewrite Hkv; apply lookup_insert_eq|exact Hlater].
  do 2 eexists. split; [reflexivity|]. simpl. auto.
Qed.

(** The upload of a PDF, asked about an hour later. *)
Lemma status_after_upload_is_pending_witness :
  exists s' task s'' reported,
    DocumentService.ProcessFile ToLowerASCII (freshService None) 0 "id-1" "%PDF" pdfUpload
    = (s', Ok task) /\
    DocumentService.GetProcessingStatus s' Hour "id-1" = (s'', Ok reported) /\
    models.ProcessingTask.Status reported = models.StatusPending.
Proof.
  destruct (DocumentService.ProcessFile ToLowerASCII (freshService None) 0 "id-1"
              "%PDF" pdfUpload) as [s' [task|err]] eqn:Hrun;
    [|vm_compute in Hrun; discriminate].
  destruct (status_after_upload_is_pending ToLowerASCII _ 0 "id-1" "%PDF" pdfUpload
              s' task Hour Hrun eq_refl eq_refl)
    as (s'' & reported & Hget & _ & Hstatus & _).
  exists s', task, s'', reported. auto.
Defined.

(** X13: when the file passes validation and the store accepts it but the
    broker does not answer, [ProcessFile] returns an error, no task is in
    the queue and no status is cached, and the bytes stay in the store
    under the file name: the upload is not rolled back. *)
Theorem failed_enqueue_leaves_blob
  (ToLower : string -> string) s now taskID file header :
  DocumentService.validateFile ToLower (DocumentService.config s) header = None ->
  S3Storage.up (DocumentService.storage s) = true ->
  asynq.up (AsynqQueue.broker (DocumentService.queue s)) = false ->
  exists err s',
    DocumentService.ProcessFile ToLower s now taskID file header = (s', Err err) /\
    DocumentService.queue s' = DocumentService.queue s /\
    S3Storage.objects (DocumentService.storage s') !! FileHeader.Filename header
    = Some file.
Proof.
  intros Hv Hup Hdown. unfold DocumentService.ProcessFile. simpl. rewrite Hv.
  unfold S3Storage.Store. rewrite Hup. simpl.
  match goal with
  | |- context [AsynqQueue.Enqueue ?q ?n ?t] =>
      destruct (AsynqQueue.Enqueue q n t) as [[q1 queueTask'] [err|]] eqn:Henq
  end.
  - do 2 eexists. split; [reflexivity|]. simpl. split; [reflexivity|].
    apply lookup_insert_eq.
  - exfalso. revert Henq. unfold AsynqQueue.Enqueue.
    destruct (AsynqQueue.marshalTask _); [|discriminate].
    unfold asynq.EnqueueContext. simpl.
    destruct (String.eqb (TrimSpace taskID) ""); [discriminate|].
    rewrite Hdown. simpl. discriminate.
Qed.

(** The upload of a PDF while the broker is down. *)
Lemma failed_enqueue_leaves_blob_witness :
  exists err s',
    DocumentService.ProcessFile ToLowerASCII brokerDownService 0 "id-1" "%PDF" pdfUpload
    = (s', Err err) /\
    DocumentService.queue s' = DocumentService.queue brokerDownService /\
    S3Storage.objects (DocumentService.storage s') !! "Report.PDF" = Some "%PDF".
Proof.
  apply (failed_enqueue_leaves_blob ToLowerASCII brokerDownService 0 "id-1" "%PDF"
           pdfUpload); reflexivity.
Defined.

(** ** The processor registry and the worker *)

Example ParseInt64_examples :
  ParseInt64 "2048" = Some 2048 /\ ParseInt64 "-7" = Some (-7) /\
  ParseInt64 "+3" = Some 3 /\ ParseInt64 "" = None /\ ParseInt64 "-" = None /\
  ParseInt64 "12a" = None /\
  ParseInt64 "9223372036854775807" = Some (2 ^ 63 - 1) /\
  ParseInt64 "9223372036854775808" = None /\
  ParseInt64 "-9223372036854775808" = Some (- 2 ^ 63).
Proof. vm_compute. repeat split. Qed.

(** X14: of the file types the default configuration of the service lets
    through, the registry has a processor for all but the Word types: a
    file that passes [validateFile] is given a processor by [GetProcessor]
    unless its lowered extension is ".doc" or ".docx", for which
    [GetProcessor] returns an error. *)
Theorem allowed_types_and_processors (ToLower : string -> string) factory header :
  ProcessorFactory.NewProcessorFactory None = Ok factory ->
  DocumentService.validateFile ToLower DocumentService.nilConfig header = None ->
  (isOk (snd (ProcessorFactory.GetProcessor ToLower factory
                (Ext (FileHeader.Filename header)))) = false
   <->
   ToLower (Ext (FileHeader.Filename header)) = ".doc" \/
   ToLower (Ext (FileHeader.Filename header)) = ".docx").
Proof.
  intros Hf Hv. injection Hf as <-.
  apply validateFile_None in Hv as [_ Hin]. simpl in Hin.
  unfold ProcessorFactory.GetProcessor.
  destruct Hin as [H|[H|[H|[H|[H|[H|[H|[]]]]]]]]; rewrite <- H; vm_compute;
    (split; [intros Hno; first [discriminate | auto] | intros [Hd|Hd]; first [discriminate | reflexivity]]).
Qed.

(** A Word file passes validation and has no processor; a PNG has one. *)
Lemma allowed_types_and_processors_witness :
  DocumentService.validateFile ToLowerASCII DocumentService.nilConfig wordUpload = None /\
  isOk (snd (ProcessorFactory.GetProcessor ToLowerASCII registry ".DOCX")) = false.
Proof.
  split; [reflexivity|].
  apply (proj2 (allowed_types_and_processors ToLowerASCII registry wordUpload
                  eq_refl eq_refl)).
  right. reflexivity.
Defined.

Section WorkerFacts.
Import models.
Variable ToLower : string -> string.
Variable process : ProcessorFactory.Processor -> string -> Result (list DocumentChunk.t).
Variable marshalDoc : ProcessedDocument.t -> Result string.
Variable decodeDoc : string -> Result ProcessedDocument.t.

(** A successful [HandleDocument], step by step. *)
Lemma HandleDocument_detail factory s now task s' :
  DocumentService_HandleDocument ToLower process marshalDoc factory s now task
  = Some (s', None) ->
  exists converted resultData,
    marshalDoc (updateResult task now converted) = Ok resultData /\
    ProcessedDocument.Status converted = "completed" /\
    S3Storage.up (DocumentService.storage s') = true /\
    S3Storage.objects (DocumentService.storage s')
    = <["result:" +:+ Task.ID task := resultData]>
        (S3Storage.objects (DocumentService.storage s)) /\
    AsynqQueue.broker (DocumentService.queue s')
    = AsynqQueue.broker (DocumentService.queue s) /\
    (redis.up (AsynqQueue.redis (DocumentService.queue s)) = true ->
     AsynqQueue.SaveFinalStatus (DocumentService.queue s) now
       (TaskStatus.mk (Task.ID task) "completed" 1 "" (Task.CreatedAt task) now)
     = (DocumentService.queue s', None)).
Proof.
  unfold DocumentService_HandleDocument. simpl.
  destruct (asString (Task.Payload task !! "fileId")) as [fileID|]; [|discriminate].
  destruct (S3Storage_Get (DocumentService.storage s) fileID) as [reader|e];
    [|discriminate].
  destruct (ProcessorFactory.GetProcessor ToLower factory _) as [lines [processor|e]];
    [|discriminate].
  simpl. destruct (process processor reader) as [chunks|e]; [|discriminate].
  destruct (JSONConverter.Convert now chunks) as [converted|e] eqn:Hconv; [|discriminate].
  destruct (marshalDoc (updateResult task now converted)) as [resultData|e] eqn:Hm;
    [|discriminate].
  unfold S3Storage.Store.
  destruct (S3Storage.up (DocumentService.storage s)) eqn:Hup; simpl; [|discriminate].
  set (finalStatus := TaskStatus.mk (Task.ID task) "completed" 1 "" (Task.CreatedAt task) now).
  assert (Hstatus : ProcessedDocument.Status converted = "completed").
  { unfold JSONConverter.Convert in Hconv.
    destruct (Z.of_nat (length chunks) =? 0); [discriminate|].
    now injection Hconv as <-. }
  destruct (AsynqQueue.SaveFinalStatus (DocumentService.queue s) now finalStatus)
    as [q2 [e|]] eqn:Hsave; simpl; intros H; injection H as <-; simpl;
    exists converted, resultData;
    (split; [exact Hm|]); (split; [exact Hstatus|]); (split; [reflexivity|]);
    (split; [reflexivity|]).
  - split; [reflexivity|]. intros Hredis.
    destruct (SaveFinalStatus_succeeds (DocumentService.queue s) now finalStatus
                eq_refl Hredis) as [q3 Hq3].
    congruence.
  - apply SaveFinalStatus_written in Hsave as (Hb & _).
    split; [exact Hb|]. intros _. reflexivity.
Qed.

(** A task that is in a queue, not active, can be cancelled. *)
Lemma cancelIn_succeeds b taskID queues : forall lastErr queue info,
  asynq.up b = true ->
  In queue queues ->
  asynq.tasks b !! (queue, taskID) = Some info ->
  asynq.TaskInfo.State info <> asynq.TaskStateActive ->
  exists b', cancelIn b taskID queues lastErr = (b', None) /\ asynq.up b' = true.
Proof.
  induction queues as [|q queues IH]; intros lastErr queue info Hup Hin Hinfo Hstate;
    [contradiction|].
  simpl. unfold asynq_DeleteTask at 1. rewrite Hup. simpl.
  destruct (asynq.tasks b !! (q, taskID)) as [found|] eqn:Hq.
  - destruct (asynq.TaskInfo.State found) eqn:Hs; simpl; eauto.
    destruct Hin as [->|Hin]; [congruence|].
    eapply IH; eauto.
  - destruct Hin as [->|Hin]; [congruence|].
    eapply IH; eauto.
Qed.

End WorkerFacts.

(** X15: when [HandleDocument] returns without error, the store holds,
    under the key "result:<task id>", the serialized document, whose task
    id is the id of the task, whose status is "completed" and whose time
    stamp is the time of the run, and every other key of the store is as
    before; and if the status cache answers, [GetProcessingStatus] reports
    the task as completed with progress 1 for the next 24 hours. *)
Theorem handled_document_is_stored_and_completed
  (ToLower : string -> string)
  (process : ProcessorFactory.Processor -> string -> Result (list models.DocumentChunk.t))
  (marshalDoc : ProcessedDocument.t -> Result string)
  factory s now task s' later :
  DocumentService_HandleDocument ToLower process marshalDoc factory s now task
  = Some (s', None) ->
  (exists doc resultData,
      marshalDoc doc = Ok resultData /\
      ProcessedDocument.TaskID doc = Task.ID task /\
      ProcessedDocument.Status doc = "completed" /\
      ProcessedDocument.ProcessedAt doc = now /\
      S3Storage.objects (DocumentService.storage s') !! ("result:" +:+ Task.ID task)
      = Some resultData /\
      forall key, key <> "result:" +:+ Task.ID task ->
        S3Storage.objects (DocumentService.storage s') !! key
        = S3Storage.objects (DocumentService.storage s) !! key) /\
  (redis.up (AsynqQueue.redis (DocumentService.queue s)) = true ->
   later < now + 24 * Hour ->
   exists s'' reported,
     DocumentService.GetProcessingStatus s' later (Task.ID task) = (s'', Ok reported) /\
     models.ProcessingTask.Status reported = models.StatusCompleted /\
     models.ProcessingTask.Progress reported = 1%float).
Proof.
  intros Hrun.
  apply HandleDocument_detail in Hrun
    as (converted & resultData & Hm & Hstatus & _ & Hobjects & _ & Hsave).
  split.
  - exists (updateResult task now converted), resultData.
    split; [exact Hm|]. split; [reflexivity|]. split; [exact Hstatus|].
    split; [reflexivity|]. rewrite Hobjects. split; [apply lookup_insert_eq|].
    intros key Hkey. apply lookup_insert_ne. congruence.
  - intros Hup Hlater. specialize (Hsave Hup).
    apply SaveFinalStatus_written in Hsave as (_ & Hup' & Hkv).
    unfold DocumentService.GetProcessingStatus.
    destruct (DocumentService.queue s') as [b r]. simpl in Hup', Hkv.
    pose proof (cached_status_is_served r b
                  (TaskStatus.mk (Task.ID task) "completed" 1 "" (Task.CreatedAt task) now)
                  (now + 24 * Hour) later Hup') as Hserved.
    simpl in Hserved. rewrite Hserved; [|rewrite Hkv; apply lookup_insert_eq|exact Hlater].
    do 2 eexists. split; [reflexivity|]. simpl. auto.
Qed.

(** The worker handles the task of the uploaded PDF at time 10; the
    status is read an hour later. *)
Lemma handled_document_is_stored_and_completed_witness :
  exists s' s'' reported,
    DocumentService_HandleDocument ToLowerASCII onePage idCodec registry
      uploadedService 10 uploadedTask = Some (s', None) /\
    S3Storage.objects (DocumentService.storage s') !! "result:id-1" = Some "id-1" /\
    DocumentService.GetProcessingStatus s' Hour "id-1" = (s'', Ok reported) /\
    models.ProcessingTask.Status reported = models.StatusCompleted.
Proof.
  destruct (DocumentService_HandleDocument ToLowerASCII onePage idCodec registry
              uploadedService 10 uploadedTask) as [[s' [err|]]|] eqn:Hrun;
    [vm_compute in Hrun; discriminate| |vm_compute in Hrun; discriminate].
  destruct (handled_document_is_stored_and_completed ToLowerASCII onePage idCodec
              registry uploadedService 10 uploadedTask s' Hour Hrun)
    as ((doc & resultData & Hm & Hid & _ & _ & Hstored & _) & Hstatus).
  destruct (Hstatus eq_refl eq_refl) as (s'' & reported & Hget & Hcompleted & _).
  exists s', s'', reported. split; [reflexivity|].
  split; [|split; [exact Hget|exact Hcompleted]].
  unfold idCodec in Hm. injection Hm as <-. rewrite Hid in Hstored. exact Hstored.
Defined.

(** X16: when [HandleDocument] returns an error, whether the file is
    missing, has no processor, cannot be processed, converted or
    serialized, or the result cannot be stored, it has written nothing:
    the store and the queue with its status cache are as before, so the
    status a client reads is the one it read before the run. *)
Theorem failed_document_writes_nothing
  (ToLower : string -> string)
  (process : ProcessorFactory.Processor -> string -> Result (list models.DocumentChunk.t))
  (marshalDoc : ProcessedDocument.t -> Result string)
  factory s now task s' err later taskID :
  DocumentService_HandleDocument ToLower process marshalDoc factory s now task
  = Some (s', Some err) ->
  DocumentService.storage s' = DocumentService.storage s /\
  DocumentService.queue s' = DocumentService.queue s /\
  snd (DocumentService.GetProcessingStatus s' later taskID)
  = snd (DocumentService.GetProcessingStatus s later taskID).
Proof.
  intros Hrun.
  assert (H : DocumentService.storage s' = DocumentService.storage s /\
              DocumentService.queue s' = DocumentService.queue s).
  { revert Hrun. unfold DocumentService_HandleDocument. simpl.
    destruct (asString (Task.Payload task !! "fileId")) as [fileID|]; [|discriminate].
    destruct (S3Storage_Get (DocumentService.storage s) fileID) as [reader|e];
      [|intros H; injection H as <- _; auto].
    destruct (ProcessorFactory.GetProcessor ToLower factory _) as [lines [processor|e]];
      [|intros H; injection H as <- _; auto].
    simpl. destruct (process processor reader) as [chunks|e];
      [|intros H; injection H as <- _; auto].
    destruct (JSONConverter.Convert now chunks) as [converted|e];
      [|intros H; injection H as <- _; auto].
    destruct (marshalDoc (updateResult task now converted)) as [resultData|e];
      [|intros H; injection H as <- _; auto].
    destruct (S3Storage.Store _ _ _) as [storage' [key|e]];
      [|intros H; injection H as <- _; auto].
    simpl. destruct (AsynqQueue.SaveFinalStatus _ _ _) as [q2 [e|]]; discriminate. }
  destruct H as [Hst Hq]. split; [exact Hst|]. split; [exact Hq|].
  unfold DocumentService.GetProcessingStatus. rewrite Hq.
  destruct (AsynqQueue.GetTaskStatus (DocumentService.queue s) later taskID)
    as [q' [status|e]]; reflexivity.
Qed.

(** The worker fails on the uploaded PDF: the status stays pending. *)
Lemma failed_document_writes_nothing_witness :
  exists s' err,
    DocumentService_HandleDocument ToLowerASCII failingProcess idCodec registry
      uploadedService 10 uploadedTask = Some (s', Some err) /\
    DocumentService.storage s' = DocumentService.storage uploadedService /\
    snd (DocumentService.GetProcessingStatus s' Hour "id-1")
    = snd (DocumentService.GetProcessingStatus uploadedService Hour "id-1").
Proof.
  destruct (DocumentService_HandleDocument ToLowerASCII failingProcess idCodec registry
              uploadedService 10 uploadedTask) as [[s' [err|]]|] eqn:Hrun;
    [|vm_compute in Hrun; discriminate|vm_compute in Hrun; discriminate].
  exists s', err. split; [reflexivity|].
  destruct (failed_document_writes_nothing ToLowerASCII failingProcess idCodec registry
              uploadedService 10 uploadedTask s' err Hour "id-1" Hrun)
    as (Hst & _ & Hstatus).
  split; [exact Hst|exact Hstatus].
Defined.

(** X17: a task that [ProcessFile] has just created can be cancelled, and
    [CancelTask] does not touch the status cache: if the cache answers,
    [GetProcessingStatus] still reports the cancelled task as pending for
    the rest of the 24 hours. *)
Theorem cancelled_upload_still_reads_pending
  (ToLower : string -> string) s now taskID file header s1 task later :
  DocumentService.ProcessFile ToLower s now taskID file header = (s1, Ok task) ->
  exists s2,
    DocumentService_CancelTask s1 taskID = (s2, None) /\
    AsynqQueue.redis (DocumentService.queue s2)
    = AsynqQueue.redis (DocumentService.queue s1) /\
    (redis.up (AsynqQueue.redis (DocumentService.queue s)) = true ->
     later < now + 24 * Hour ->
     exists s3 reported,
       DocumentService.GetProcessingStatus s2 later taskID = (s3, Ok reported) /\
       models.ProcessingTask.Status reported = models.StatusPending).
Proof.
  intros Hrun.
  apply ProcessFile_detail in Hrun
    as (q1 & qt & qt' & _ & _ & _ & _ & _ & _ & _ & _ & Hqid & _ & _ & Henq & Hbroker & Hsave).
  pose proof Henq as Hup.
  apply Enqueue_inserts in Henq as (info & Htasks & _ & _ & _ & Hstate & _).
  assert (Hbup : asynq.up (AsynqQueue.broker q1) = true).
  { revert Hup. unfold AsynqQueue.Enqueue.
    destruct (AsynqQueue.marshalTask qt); [|discriminate].
    unfold asynq.EnqueueContext.
    destruct (String.eqb (TrimSpace (Task.Type_ qt)) ""); [discriminate|].
    destruct (String.eqb (TrimSpace (Task.ID qt)) ""); [discriminate|].
    destruct (asynq.up (AsynqQueue.broker (DocumentService.queue s))) eqn:Hb;
      [|discriminate]. simpl.
    destruct (asynq.tasks _ !! _); [discriminate|].
    intros H. injection H as <- _. reflexivity. }
  assert (Hin : In (AsynqQueue.queueOption (Task.Priority qt))
                   ["critical"; "default"; "low"]).
  { destruct (queueOption_cases (Task.Priority qt))
      as [[_ ->]|[[_ ->]|(_ & _ & ->)]]; simpl; auto. }
  destruct (cancelIn_succeeds (AsynqQueue.broker (DocumentService.queue s1)) taskID
              ["critical"; "default"; "low"] ""
              (AsynqQueue.queueOption (Task.Priority qt)) info)
    as (b' & Hcancel & Hb'); auto.
  - now rewrite Hbroker.
  - rewrite Hbroker, Htasks, Hqid. apply lookup_insert_eq.
  - rewrite Hstate. discriminate.
  - unfold DocumentService_CancelTask, AsynqQueue_CancelTask. rewrite Hcancel.
    eexists. split; [reflexivity|]. split; [reflexivity|].
    intros Hredis Hlater. specialize (Hsave Hredis).
    apply SaveFinalStatus_written in Hsave as (_ & Hup' & Hkv).
    unfold DocumentService.GetProcessingStatus. simpl.
    pose proof (cached_status_is_served (AsynqQueue.redis (DocumentService.queue s1)) b'
                  (initialStatus taskID now) (now + 24 * Hour) later Hup') as Hserved.
    simpl in Hserved. rewrite Hserved; [|rewrite Hkv; apply lookup_insert_eq|exact Hlater].
    do 2 eexists. split; [reflexivity|]. reflexivity.
Qed.

(** The uploaded PDF is cancelled and asked about an hour later. *)
Lemma cancelled_upload_still_reads_pending_witness :
  exists s2 s3 reported,
    DocumentService_CancelTask uploadedService "id-1" = (s2, None) /\
    DocumentService.GetProcessingStatus s2 Hour "id-1" = (s3, Ok reported) /\
    models.ProcessingTask.Status reported = models.StatusPending.
Proof.
  destruct (DocumentService.ProcessFile ToLowerASCII (freshService None) 0 "id-1"
              "%PDF" pdfUpload) as [s1 [task|err]] eqn:Hrun;
    [|vm_compute in Hrun; discriminate].
  assert (Hs1 : uploadedService = s1) by (unfold uploadedService; now rewrite Hrun).
  destruct (cancelled_upload_still_reads_pending ToLowerASCII _ 0 "id-1" "%PDF"
              pdfUpload s1 task Hour Hrun) as (s2 & Hcancel & _ & Hstatus).
  destruct (Hstatus eq_refl eq_refl) as (s3 & reported & Hget & Hpending).
  exists s2, s3, reported. rewrite Hs1. auto.
Defined.

(** X18: a document that [HandleDocument] has stored can be fetched: if
    the status cache answers and decoding the stored bytes gives back a
    document with the task id that was serialized, then for the next 24
    hours [GetProcessedDocument] returns a document whose task id is the
    id of the task. *)
Theorem handled_document_can_be_fetched
  (ToLower : string -> string)
  (process : ProcessorFactory.Processor -> string -> Result (list models.DocumentChunk.t))
  (marshalDoc : ProcessedDocument.t -> Result string)
  (decodeDoc : string -> Result ProcessedDocument.t)
  factory s now task s' later :
  DocumentService_HandleDocument ToLower process marshalDoc factory s now task
  = Some (s', None) ->
  (forall doc data, marshalDoc doc = Ok data ->
     exists doc', decodeDoc data = Ok doc' /\
                  ProcessedDocument.TaskID doc' = ProcessedDocument.TaskID doc) ->
  redis.up (AsynqQueue.redis (DocumentService.queue s)) = true ->
  later < now + 24 * Hour ->
  exists s'' doc,
    DocumentService_GetProcessedDocument decodeDoc s' later (Task.ID task)
    = (s'', Ok doc) /\
    ProcessedDocument.TaskID doc = Task.ID task.
Proof.
  intros Hrun Hcodec Hup Hlater.
  apply HandleDocument_detail in Hrun
    as (converted & resultData & Hm & _ & Hsup & Hobjects & _ & Hsave).
  specialize (Hsave Hup).
  apply SaveFinalStatus_written in Hsave as (_ & Hup' & Hkv).
  destruct (Hcodec _ _ Hm) as (doc' & Hdecode & Hid).
  unfold DocumentService_GetProcessedDocument, DocumentService.GetProcessingStatus.
  destruct (DocumentService.queue s') as [b r]. simpl in Hup', Hkv.
  pose proof (cached_status_is_served r b
                (TaskStatus.mk (Task.ID task) "completed" 1 "" (Task.CreatedAt task) now)
                (now + 24 * Hour) later Hup') as Hserved.
  simpl in Hserved. rewrite Hserved; [|rewrite Hkv; apply lookup_insert_eq|exact Hlater].
  simpl. unfold S3Storage_Get. simpl. rewrite Hsup, Hobjects, lookup_insert_eq. simpl.
  rewrite Hdecode. do 2 eexists. split; [reflexivity|exact Hid].
Qed.

(** The handled PDF is fetched an hour after the upload. *)
Lemma handled_document_can_be_fetched_witness :
  exists s' s'' doc,
    DocumentService_HandleDocument ToLowerASCII onePage idCodec registry
      uploadedService 10 uploadedTask = Some (s', None) /\
    DocumentService_GetProcessedDocument idDecode s' Hour "id-1" = (s'', Ok doc) /\
    ProcessedDocument.TaskID doc = "id-1".
Proof.
  destruct (DocumentService_HandleDocument ToLowerASCII onePage idCodec registry
              uploadedService 10 uploadedTask) as [[s' [err|]]|] eqn:Hrun;
    [vm_compute in Hrun; discriminate| |vm_compute in Hrun; discriminate].
  destruct (handled_document_can_be_fetched ToLowerASCII onePage idCodec idDecode
              registry uploadedService 10 uploadedTask s' Hour Hrun)
    as (s'' & doc & Hget & Hid).
  - intros doc data Hm. unfold idCodec in Hm. injection Hm as <-.
    eexists. split; reflexivity.
  - reflexivity.
  - reflexivity.
  - exists s', s'', doc. auto.
Defined.

(** ** The cloud OCR extractor: lines and tables *)

Section TextractMore.
Import models TextractProcessor.

(** [processBlocks] collects the texts of the accepted lines, and
    panics iff one of them has no text. *)
Lemma processBlocks_accepted config blocks : forall texts,
  processBlocks config blocks texts
  = if forallb hasText (filter (fun b => acceptedLine config b = true) blocks)
    then Some (texts
               ++ map textOf (filter (fun b => acceptedLine config b = true) blocks))
    else None.
Proof.
  induction blocks as [|block rest IH]; intros texts; simpl.
  - now rewrite app_nil_r.
  - destruct (acceptedLine config block) eqn:Hacc.
    + rewrite !filter_cons_True by exact Hacc. simpl.
      unfold acceptedLine in Hacc.
      destruct (Block.Confidence block);
        [|rewrite andb_false_r in Hacc; discriminate].
      rewrite Hacc. unfold hasText at 1, textOf at 1.
      destruct (Block.Text block); simpl; [|reflexivity].
      rewrite IH, <- app_assoc. reflexivity.
    + rewrite !filter_cons_False by (rewrite Hacc; discriminate).
      unfold acceptedLine in Hacc.
      destruct (Block.Confidence block); [rewrite Hacc|]; apply IH.
Qed.

Lemma typed_tableChunk t table :
  isTypedChunk t (tableChunk table) = String.eqb "table" t.
Proof.
  unfold isTypedChunk, tableChunk. simpl.
  rewrite lookup_insert_ne by discriminate. now rewrite lookup_insert_eq.
Qed.

Lemma typed_formChunk t form :
  isTypedChunk t (formChunk form) = String.eqb "form" t.
Proof.
  unfold isTypedChunk, formChunk. simpl.
  rewrite lookup_insert_ne by discriminate. now rewrite lookup_insert_eq.
Qed.

Lemma typed_textChunk t texts :
  isTypedChunk t (textChunk texts) = String.eqb "text" t.
Proof.
  unfold isTypedChunk, textChunk. simpl.
  rewrite lookup_insert_ne by discriminate. now rewrite lookup_insert_eq.
Qed.

Lemma filter_text_tables tables :
  filter (fun c => isTypedChunk "text" c = true) (map tableChunk tables) = [].
Proof.
  induction tables as [|table rest IH]; [reflexivity|]. simpl.
  rewrite filter_cons_False; [exact IH|].
  rewrite typed_tableChunk. discriminate.
Qed.

Lemma filter_text_forms forms :
  filter (fun c => isTypedChunk "text" c = true) (map formChunk forms) = [].
Proof.
  induction forms as [|form rest IH]; [reflexivity|]. simpl.
  rewrite filter_cons_False; [exact IH|].
  rewrite typed_formChunk. discriminate.
Qed.

(** The chunks of a run that returns: the text chunk if a line was
    accepted, then the table chunks, then the form chunks. *)
Lemma Process_chunks_shape config blocks chunks :
  Process config (Analyzed blocks) = Some (Ok chunks) ->
  exists texts tables forms,
    processBlocks config blocks [] = Some texts /\
    chunks
    = (if 0 <? Z.of_nat (length texts) then [textChunk texts] else [])
      ++ map tableChunk tables ++ map formChunk forms.
Proof.
  unfold Process. intros Hrun.
  destruct (processBlocks config blocks []) as [texts|]; [|discriminate].
  exists texts.
  destruct (TextractConfig.EnableTable config).
  - destruct (processTables blocks) as [tables|]; [|discriminate].
    destruct (TextractConfig.EnableForm config); injection Hrun as <-.
    + exists tables, (processForms blocks). now rewrite <- app_assoc.
    + exists tables, []. simpl. now rewrite app_nil_r.
  - destruct (TextractConfig.EnableForm config); injection Hrun as <-.
    + exists [], (processForms blocks). auto.
    + exists [], []. simpl. now rewrite app_nil_r.
Qed.

(** *** Tables *)

Lemma largestIndex_nonneg index blocks : 0 <= largestIndex index blocks.
Proof.
  induction blocks as [|block rest IH]; simpl; [lia|].
  destruct (isCell block); [|exact IH].
  destruct (index block); lia.
Qed.

Lemma largestIndex_bound index blocks block i :
  In block blocks -> isCell block = true -> index block = Some i ->
  i <= largestIndex index blocks.
Proof.
  induction blocks as [|b rest IH]; intros Hin Hcell Hi; [contradiction|].
  simpl. destruct Hin as [->|Hin].
  - rewrite Hcell, Hi. lia.
  - specialize (IH Hin Hcell Hi).
    destruct (isCell b); [|exact IH]. destruct (index b); lia.
Qed.

(** The scan of the cells takes the largest indexes of the document. *)
Lemma cellExtent_largest blocks : forall r c,
  0 <= r -> 0 <= c ->
  cellExtent blocks (r, c)
  = (Z.max r (largestIndex Block.RowIndex blocks),
     Z.max c (largestIndex Block.ColumnIndex blocks)).
Proof.
  unfold cellExtent.
  induction blocks as [|block rest IH]; intros r c Hr Hc; simpl.
  - f_equal; lia.
  - fold (isCell block). destruct (isCell block); [|now apply IH].
    destruct (Block.RowIndex block) as [i|], (Block.ColumnIndex block) as [j|];
      repeat match goal with |- context [?a <? ?b] => destruct (Z.ltb_spec a b) end;
      (rewrite IH by lia); f_equal; lia.
Qed.

Lemma tableExtent_extentOf block blocks :
  tableExtent block blocks = extentOf blocks block.
Proof.
  unfold tableExtent, extentOf, hasChildren.
  pose proof (largestIndex_nonneg Block.RowIndex blocks) as Hr.
  pose proof (largestIndex_nonneg Block.ColumnIndex blocks) as Hc.
  assert (H : forall rels r c, 0 <= r -> 0 <= c ->
             fold_left
               (fun counts relationship =>
                  if String.eqb (Relationship.Type_ relationship) "CHILD"
                  then cellExtent blocks counts else counts) rels (r, c)
             = if existsb (fun rel => String.eqb (Relationship.Type_ rel) "CHILD") rels
               then (Z.max r (largestIndex Block.RowIndex blocks),
                     Z.max c (largestIndex Block.ColumnIndex blocks))
               else (r, c)).
  { induction rels as [|rel rels IH]; intros r c Hr0 Hc0; simpl; [reflexivity|].
    destruct (String.eqb (Relationship.Type_ rel) "CHILD"); simpl; [|now apply IH].
    rewrite cellExtent_largest, IH by lia.
    destruct (existsb _ rels); f_equal; lia. }
  rewrite H by lia. destruct (existsb _ _); [|reflexivity]. f_equal; lia.
Qed.

Lemma rectangular_newTable r c : 0 <= r -> 0 <= c -> rectangular (newTable r c).
Proof.
  intros Hr Hc. unfold rectangular, newTable. simpl.
  split; [reflexivity|]. split; [now rewrite length_replicate|].
  apply Forall_replicate. now rewrite length_replicate.
Qed.

Lemma extentOf_nonneg blocks block :
  0 <= fst (extentOf blocks block) /\ 0 <= snd (extentOf blocks block).
Proof.
  unfold extentOf. destruct (hasChildren block); simpl; [|lia].
  split; apply largestIndex_nonneg.
Qed.

Lemma setCell_rectangular table row col text table' :
  setCell table row col text = Some table' ->
  rectangular table ->
  rectangular table' /\ dimensions table' = dimensions table.
Proof.
  unfold setCell. intros Hset (Hcontent & Hrows & Hcols).
  destruct ((0 <=? row) && (row <? Z.of_nat (length (Table.Cells table)))) eqn:Hrow;
    [|discriminate].
  destruct ((0 <=? col) && (col <? _)) eqn:Hcol; [|discriminate].
  injection Hset as <-. split; [|reflexivity].
  unfold rectangular. simpl. split; [exact Hcontent|].
  split; [now rewrite length_insert|].
  apply Forall_insert; [exact Hcols|].
  rewrite length_insert.
  apply (proj1 (List.Forall_nth _ _) Hcols). lia.
Qed.

(** The loop of [processTables] opens one table per TABLE block, of the
    extent of that block, and keeps every table rectangular. *)
Lemma tablesLoop_tables all blocks : forall tables currentTable tables' currentTable',
  tablesLoop all blocks tables currentTable = Some (tables', currentTable') ->
  Forall rectangular (tablesSoFar tables currentTable) ->
  Forall rectangular (tablesSoFar tables' currentTable') /\
  map dimensions (tablesSoFar tables' currentTable')
  = map dimensions (tablesSoFar tables currentTable)
    ++ map (extentOf all) (filter (fun b => isTable b = true) blocks).
Proof.
  induction blocks as [|block rest IH];
    intros tables currentTable tables' currentTable' Hrun Hrect; simpl in Hrun.
  - injection Hrun as <- <-. rewrite app_nil_r. auto.
  - fold (isTable block) in Hrun. destruct (isTable block) eqn:Htable.
    + rewrite filter_cons_True by exact Htable.
      rewrite tableExtent_extentOf in Hrun.
      pose proof (extentOf_nonneg all block) as [Hr Hc].
      destruct (extentOf all block) as [rowCount colCount] eqn:Hext.
      simpl in Hr, Hc.
      assert (Heq : match currentTable with
                    | Some table => tables ++ [table]
                    | None => tables
                    end = tablesSoFar tables currentTable).
      { unfold tablesSoFar. destruct currentTable; [reflexivity|].
        now rewrite app_nil_r. }
      rewrite Heq in Hrun. clear Heq.
      apply IH in Hrun as [Hrect' Hdims].
      * split; [exact Hrect'|]. rewrite Hdims. unfold tablesSoFar at 1.
        rewrite map_app. simpl. rewrite Hext, <- app_assoc. reflexivity.
      * unfold tablesSoFar at 1. apply Forall_app. split.
        -- exact Hrect.
        -- constructor; [|constructor]. now apply rectangular_newTable.
    + rewrite filter_cons_False by (rewrite Htable; discriminate).
      destruct currentTable as [table|]; [|now apply IH].
      fold (isCell block) in Hrun. destruct (isCell block); [|now apply IH].
      destruct (Block.RowIndex block) as [rowIndex|]; [|now apply IH].
      destruct (Block.ColumnIndex block) as [columnIndex|]; [|now apply IH].
      destruct (Block.Text block) as [text|]; [|now apply IH].
      destruct (setCell table _ _ text) as [table'|] eqn:Hset; [|discriminate].
      unfold tablesSoFar in Hrect. apply Forall_app in Hrect as [Hrect Htab].
      apply Forall_inv in Htab.
      apply setCell_rectangular in Hset as [Hrect1 Hdim]; [|exact Htab].
      apply IH in Hrun as [Hrect' Hdims].
      * split; [exact Hrect'|]. rewrite Hdims. unfold tablesSoFar.
        rewrite !map_app. simpl. now rewrite Hdim.
      * unfold tablesSoFar. apply Forall_app. split; [exact Hrect|].
        constructor; [exact Hrect1|constructor].
Qed.

Lemma processTables_tablesSoFar blocks :
  processTables blocks
  = match tablesLoop blocks blocks [] None with
    | Some (tables, currentTable) => Some (tablesSoFar tables currentTable)
    | None => None
    end.
Proof.
  unfold processTables, tablesSoFar.
  destruct (tablesLoop blocks blocks [] None) as [[tables [table|]]|];
    try reflexivity.
  now rewrite app_nil_r.
Qed.

Lemma tablesLoop_app all l1 l2 : forall tables currentTable,
  tablesLoop all (l1 ++ l2) tables currentTable
  = match tablesLoop all l1 tables currentTable with
    | Some (tables', currentTable') => tablesLoop all l2 tables' currentTable'
    | None => None
    end.
Proof.
  induction l1 as [|block rest IH]; intros tables currentTable; simpl;
    [reflexivity|].
  destruct (String.eqb (Block.BlockType block) BlockTypeTable).
  - destruct (tableExtent block all). apply IH.
  - destruct currentTable as [table|]; [|apply IH].
    destruct (String.eqb (Block.BlockType block) BlockTypeCell); [|apply IH].
    destruct (Block.RowIndex block); [|apply IH].
    destruct (Block.ColumnIndex block); [|apply IH].
    destruct (Block.Text block); [|apply IH].
    destruct (setCell table _ _ _); [apply IH|reflexivity].
Qed.

Lemma isCell_not_table block : isCell block = true -> isTable block = false.
Proof.
  unfold isCell, isTable. intros H. apply String.eqb_eq in H. now rewrite H.
Qed.

(** While the current table has no rows, the loop stops at the first
    cell with indexes and a text. *)
Lemma empty_table_panics all cell post r c text mid : forall tables table,
  Table.Cells table = [] ->
  Forall (fun b => isTable b = false) mid ->
  isCell cell = true ->
  Block.RowIndex cell = Some r -> Block.ColumnIndex cell = Some c ->
  Block.Text cell = Some text ->
  tablesLoop all (mid ++ cell :: post) tables (Some table) = None.
Proof.
  intros tables table Hcells Hmid Hcell Hr Hc Htext.
  assert (Hset : forall row col t, setCell table row col t = None).
  { intros row col t. unfold setCell. rewrite Hcells.
    change (Z.of_nat (length (@nil (list string)))) with 0.
    destruct (Z.leb_spec 0 row), (Z.ltb_spec row 0); simpl; try reflexivity. lia. }
  induction Hmid as [|block mid Hblock Hmid IH]; simpl.
  - fold (isTable cell) (isCell cell).
    rewrite (isCell_not_table _ Hcell), Hcell, Hr, Hc, Htext, Hset. reflexivity.
  - fold (isTable block). rewrite Hblock.
    destruct (String.eqb (Block.BlockType block) BlockTypeCell); [|exact IH].
    destruct (Block.RowIndex block); [|exact IH].
    destruct (Block.ColumnIndex block); [|exact IH].
    destruct (Block.Text block); [|exact IH].
    now rewrite Hset.
Qed.

Lemma wrap32_small n : - 2 ^ 31 <= n < 2 ^ 31 -> wrap32 n = n.
Proof.
  intros H. unfold wrap32. rewrite Z.mod_small; lia.
Qed.

(** With every table of the extent of the document and every cell index
    at least 1, the loop of [processTables] returns. *)
Lemma tablesLoop_returns all blocks : forall tables currentTable,
  (forall b, In b blocks -> In b all) ->
  Forall (fun b => isTable b = true -> hasChildren b = true) blocks ->
  Forall (fun b => isCell b = true ->
            forall r c, Block.RowIndex b = Some r -> Block.ColumnIndex b = Some c ->
                        1 <= r < 2 ^ 31 /\ 1 <= c < 2 ^ 31) blocks ->
  (forall table, currentTable = Some table ->
     rectangular table /\
     dimensions table = (largestIndex Block.RowIndex all,
                         largestIndex Block.ColumnIndex all)) ->
  exists result, tablesLoop all blocks tables currentTable = Some result.
Proof.
  induction blocks as [|block rest IH];
    intros tables currentTable Hsub Htables Hcells Hcur; simpl; [eauto|].
  apply Forall_cons in Htables as [Htable Htables].
  apply Forall_cons in Hcells as [Hcell Hcells].
  assert (Hsub' : forall b, In b rest -> In b all) by (intros b Hb; apply Hsub; now right).
  fold (isTable block). destruct (isTable block) eqn:Hist.
  - rewrite tableExtent_extentOf. unfold extentOf. rewrite (Htable eq_refl).
    apply IH; auto. intros table Heq. injection Heq as <-.
    split; [|reflexivity].
    apply rectangular_newTable; apply largestIndex_nonneg.
  - destruct currentTable as [table|]; [|now apply IH].
    fold (isCell block). destruct (isCell block) eqn:Hisc; [|now apply IH].
    destruct (Block.RowIndex block) as [r|] eqn:Hr; [|now apply IH].
    destruct (Block.ColumnIndex block) as [c|] eqn:Hc; [|now apply IH].
    destruct (Block.Text block) as [text|]; [|now apply IH].
    destruct (Hcell eq_refl r c eq_refl eq_refl) as [Hrb Hcb].
    destruct (Hcur table eq_refl) as [Hrect Hdim].
    pose proof Hrect as (_ & Hrows & Hcols).
    unfold dimensions in Hdim. injection Hdim as HR HC.
    pose proof (largestIndex_bound Block.RowIndex all block r
                  (Hsub block (or_introl eq_refl)) Hisc Hr) as Hrmax.
    pose proof (largestIndex_bound Block.ColumnIndex all block c
                  (Hsub block (or_introl eq_refl)) Hisc Hc) as Hcmax.
    rewrite !wrap32_small by lia.
    destruct (setCell table (r - 1) (c - 1) text) as [table'|] eqn:Hset.
    + apply IH; auto. intros t Heq. injection Heq as <-.
      apply setCell_rectangular in Hset as [Hrect' Hdim']; [|exact Hrect].
      split; [exact Hrect'|]. rewrite Hdim'. unfold dimensions. now rewrite HR, HC.
    + exfalso. revert Hset. unfold setCell.
      assert (Hrow : (0 <=? r - 1) && (r - 1 <? Z.of_nat (length (Table.Cells table)))
                     = true) by lia.
      rewrite Hrow.
      assert (Hlen : length (nth (Z.to_nat (r - 1)) (Table.Cells table) [])
                     = Z.to_nat (Table.Cols table)).
      { apply (proj1 (List.Forall_nth _ _) Hcols). lia. }
      rewrite Hlen.
      assert (Hcol : (0 <=? c - 1) && (c - 1 <? Z.of_nat (Z.to_nat (Table.Cols table)))
                     = true) by (rewrite Z2Nat.id by lia; lia).
      rewrite Hcol. discriminate.
Qed.

End TextractMore.

(** X19: when the extractor returns, every accepted line, a LINE block
    with a confidence of at least [MinConfidence], has a text (a line
    without one makes the run panic), and the chunks of type "text" are:
    none if no line is accepted, else the one chunk whose content is the
    texts of the accepted lines, in the order of the blocks, joined by
    line feeds. *)
Theorem textract_text_chunk_of_accepted_lines config blocks chunks :
  TextractProcessor.Process config (TextractProcessor.Analyzed blocks)
  = Some (Ok chunks) ->
  let lines := filter (fun b => acceptedLine config b = true) blocks in
  Forall (fun b => Block.Text b <> None) lines /\
  filter (fun c => isTypedChunk "text" c = true) chunks
  = match lines with
    | [] => []
    | _ :: _ =>
        [models.DocumentChunk.mk
           (String.concat (String (byte_of 10) "") (map textOf lines))
           (<["source" := VString "textract"]> (<["type" := VString "text"]> ∅))]
    end.
Proof.
  intros Hrun lines.
  apply Process_chunks_shape in Hrun as (texts & tables & forms & Htexts & ->).
  rewrite processBlocks_accepted in Htexts. fold lines in Htexts.
  destruct (forallb hasText lines) eqn:Hall; [|discriminate].
  injection Htexts as <-. simpl. rewrite length_map. split.
  - apply Forall_forall. intros b Hb.
    rewrite forallb_forall in Hall. apply list_elem_of_In in Hb.
    specialize (Hall b Hb). unfold hasText in Hall.
    destruct (Block.Text b); [discriminate|discriminate].
  - rewrite !filter_app, filter_text_tables, filter_text_forms, !app_nil_r.
    destruct lines as [|line rest]; [reflexivity|].
    change (0 <? Z.of_nat (length (line :: rest)))
      with (0 <? Z.pos (Pos.of_succ_nat (length rest))).
    simpl. rewrite filter_cons_True by apply typed_textChunk. reflexivity.
Qed.

(** Three lines, the second below the confidence bound. *)
Lemma textract_text_chunk_of_accepted_lines_witness :
  exists chunk,
    TextractProcessor.Process textOnly (TextractProcessor.Analyzed threeLines)
    = Some (Ok [chunk]) /\
    filter (fun c => isTypedChunk "text" c = true) [chunk] = [chunk] /\
    models.DocumentChunk.Content chunk
    = "Invoice" +:+ String (byte_of 10) "Total: 5".
Proof.
  eexists. split; [reflexivity|]. split; [|reflexivity].
  exact (proj2 (textract_text_chunk_of_accepted_lines textOnly threeLines _ eq_refl)).
Defined.

(** X20: [processTables] returns one table per TABLE block, in the order
    of the blocks.  Each has an empty content and [Rows] rows of [Cols]
    cells; and its numbers of rows and columns are not those of its own
    cells: they are 0 and 0 if the block has no CHILD relationship, and
    otherwise the largest row index and the largest column index of all
    CELL blocks of the document. *)
Theorem textract_tables_share_the_document_extent blocks tables :
  TextractProcessor.processTables blocks = Some tables ->
  Forall rectangular tables /\
  map dimensions tables
  = map (extentOf blocks) (filter (fun b => isTable b = true) blocks).
Proof.
  rewrite processTables_tablesSoFar.
  destruct (TextractProcessor.tablesLoop blocks blocks [] None)
    as [[done currentTable]|] eqn:Hloop; [|discriminate].
  intros H. injection H as <-.
  apply tablesLoop_tables in Hloop; [exact Hloop|].
  unfold tablesSoFar. simpl. constructor.
Qed.

(** A table of 1 by 2 cells and a table of 2 by 1 cells both come out
    as 2 by 2. *)
Lemma textract_tables_share_the_document_extent_witness :
  exists first second,
    TextractProcessor.processTables twoTables = Some [first; second] /\
    map dimensions [first; second] = [(2, 2); (2, 2)] /\
    Table.Cells first = [["a"; "b"]; [""; ""]] /\
    Table.Cells second = [["c"; ""]; ["d"; ""]].
Proof.
  do 2 eexists. split; [reflexivity|]. split; [|split; reflexivity].
  exact (proj2 (textract_tables_share_the_document_extent twoTables _ eq_refl)).
Defined.

(** X21: if every TABLE block of the document has a CHILD relationship
    and every CELL block that has both indexes has them at least 1, then
    [processTables] returns: no cell falls outside its table. *)
Theorem processTables_returns blocks :
  Forall (fun b => isTable b = true -> hasChildren b = true) blocks ->
  Forall (fun b => isCell b = true ->
            forall r c, Block.RowIndex b = Some r -> Block.ColumnIndex b = Some c ->
                        1 <= r < 2 ^ 31 /\ 1 <= c < 2 ^ 31) blocks ->
  exists tables, TextractProcessor.processTables blocks = Some tables.
Proof.
  intros Htables Hcells. rewrite processTables_tablesSoFar.
  destruct (tablesLoop_returns blocks blocks [] None) as ([done currentTable] & ->);
    eauto. discriminate.
Qed.

Lemma processTables_returns_witness :
  exists tables, TextractProcessor.processTables twoTables = Some tables.
Proof.
  apply processTables_returns; unfold twoTables.
  - repeat (apply List.Forall_cons;
            [intros H; first [reflexivity | vm_compute in H; discriminate H]|]).
    apply List.Forall_nil.
  - repeat (apply List.Forall_cons;
            [intros H r c Hr Hc;
             first [ vm_compute in H; discriminate H
                   | injection Hr as <-; injection Hc as <-; lia ]|]).
    apply List.Forall_nil.
Defined.

(** X22: a TABLE block without a CHILD relationship opens a table of no
    rows, so the first CELL block after it that has both indexes and a
    text, with no other TABLE block between them, makes [processTables]
    panic on the index, and with it [Process] when tables are enabled. *)
Theorem childless_table_cell_panics config pre table mid cell post r c text :
  isTable table = true -> hasChildren table = false ->
  Forall (fun b => isTable b = false) mid ->
  isCell cell = true ->
  Block.RowIndex cell = Some r -> Block.ColumnIndex cell = Some c ->
  Block.Text cell = Some text ->
  let blocks := pre ++ table :: mid ++ cell :: post in
  TextractProcessor.processTables blocks = None /\
  (TextractConfig.EnableTable config = true ->
   TextractProcessor.Process config (TextractProcessor.Analyzed blocks) = None).
Proof.
  intros Htable Hchild Hmid Hcell Hr Hc Htext blocks.
  assert (Hpanic : TextractProcessor.processTables blocks = None).
  { rewrite processTables_tablesSoFar. unfold blocks at 2.
    rewrite tablesLoop_app.
    destruct (TextractProcessor.tablesLoop blocks pre [] None)
      as [[done currentTable]|]; [|reflexivity].
    simpl. fold (isTable table). rewrite Htable, tableExtent_extentOf.
    unfold extentOf. rewrite Hchild.
    now rewrite (empty_table_panics blocks cell post r c text mid). }
  split; [exact Hpanic|]. intros Henabled.
  unfold TextractProcessor.Process. rewrite Henabled, Hpanic.
  destruct (TextractProcessor.processBlocks config blocks []); reflexivity.
Qed.

Lemma childless_table_cell_panics_witness :
  TextractProcessor.processTables childlessTable = None /\
  TextractProcessor.Process tablesOnly (TextractProcessor.Analyzed childlessTable) = None.
Proof.
  destruct (childless_table_cell_panics tablesOnly [] (tableBlock []) []
              (cellBlock 1 1 "a") [] 1 1 "a" eq_refl eq_refl (List.Forall_nil _)
              eq_refl eq_refl eq_refl eq_refl) as [Hpanic Hprocess].
  split; [exact Hpanic|exact (Hprocess eq_refl)].
Defined.

(** ** The extractors of images and the normalizer *)

Section ImageMore.
Import models.

(** The filter loop of [postProcessOCR]. *)
Lemma postProcess_loop config boxes : forall total valid,
  fold_left
    (fun '(total, valid) box =>
       if PrimFloat.leb (ProcessOptions.MinConfidence config)
                        (BoundingBox.Confidence box)
       then ((total + BoundingBox.Confidence box)%float, valid ++ [box])
       else (total, valid))
    boxes (total, valid)
  = (addConfidences (filter (fun box => confident config box = true) boxes) total,
     valid ++ filter (fun box => confident config box = true) boxes).
Proof.
  induction boxes as [|box rest IH]; intros total valid; simpl.
  - now rewrite app_nil_r.
  - fold (confident config box). destruct (confident config box) eqn:Hbox.
    + rewrite filter_cons_True by exact Hbox. rewrite IH, <- app_assoc. reflexivity.
    + rewrite filter_cons_False by (rewrite Hbox; discriminate). apply IH.
Qed.

(** The file type [Convert] stores is the string under the key "type"
    of the first chunk. *)
Lemma Convert_FileType now first rest doc :
  JSONConverter.Convert now (first :: rest) = Ok doc ->
  DocumentMetadata.FileType (ProcessedDocument.Metadata doc)
  = default "" (asString (DocumentChunk.Metadata first !! "type")).
Proof.
  unfold JSONConverter.Convert. destruct (_ =? 0); [discriminate|].
  intros H. injection H as <-. simpl.
  destruct (0 <? Z.of_nat (size (DocumentChunk.Metadata first))) eqn:Hsize.
  - destruct (asString (_ !! "filename")), (asString (_ !! "type")),
      (asInt64 (_ !! "size")), (asInt (_ !! "pageCount")); reflexivity.
  - assert (Hempty : DocumentChunk.Metadata first = ∅).
    { apply map_size_empty_iff. lia. }
    rewrite Hempty, lookup_empty. reflexivity.
Qed.

Lemma typeOf_textract_chunks texts tables forms c :
  In c ((if 0 <? Z.of_nat (length texts)
         then [TextractProcessor.textChunk texts] else [])
        ++ map TextractProcessor.tableChunk tables
        ++ map TextractProcessor.formChunk forms) ->
  typeOf c = "" /\
  exists t, In t ["text"; "table"; "form"] /\
            DocumentChunk.Metadata c !! "type" = Some (VString t).
Proof.
  intros Hin. apply in_app_or in Hin as [Hin|Hin]; [|apply in_app_or in Hin as [Hin|Hin]].
  - destruct (0 <? _); [|contradiction]. destruct Hin as [<-|[]].
    split; [reflexivity|]. exists "text". split; [simpl; auto|reflexivity].
  - apply in_map_iff in Hin as (table & <- & _).
    split; [reflexivity|]. exists "table". split; [simpl; auto|].
    unfold TextractProcessor.tableChunk. simpl.
    rewrite lookup_insert_ne by discriminate. apply lookup_insert_eq.
  - apply in_map_iff in Hin as (form & <- & _).
    split; [reflexivity|]. exists "form". split; [simpl; auto|].
    unfold TextractProcessor.formChunk. simpl.
    rewrite lookup_insert_ne by discriminate. apply lookup_insert_eq.
Qed.

Lemma Convert_types now chunks doc :
  JSONConverter.Convert now chunks = Ok doc ->
  (forall chunk, In chunk chunks -> typeOf chunk = "") ->
  forall c, In c (ProcessedDocument.Content doc) -> ChunkContent.Type_ c = "".
Proof.
  intros Hdoc Htypes c Hc. rewrite (Convert_Content _ _ _ Hdoc) in Hc.
  apply list_elem_of_In, list_elem_of_lookup in Hc as [j Hj].
  apply contentsFrom_lookup_chunk in Hj as (chunk & Hchunk & ->).
  destruct (chunkContent_keeps (0 + Z.of_nat j) chunk) as (_ & _ & ->).
  apply Htypes. apply list_elem_of_In. eapply list_elem_of_lookup_2. exact Hchunk.
Qed.

End ImageMore.

(** X23: [postProcessOCR] returns the text as it is, the regions of the
    word boxes whose confidence is at least [MinConfidence], in the order
    of the boxes, each with the width and height of its box, and as
    confidence the sum of the confidences of these boxes over their
    number, or 0 when none is kept. *)
Theorem postProcessOCR_keeps_confident_words config text boxes :
  let kept := filter (fun box => confident config box = true) boxes in
  ImageProcessor.postProcessOCR config text boxes
  = (text,
     match kept with
     | [] => 0%float
     | _ :: _ =>
         (addConfidences kept 0 / float64_of_int (Z.of_nat (length kept)))%float
     end,
     map (fun box =>
            mkRegion (BoundingBox.MinX box) (BoundingBox.MinY box)
                     (BoundingBox.MaxX box - BoundingBox.MinX box)
                     (BoundingBox.MaxY box - BoundingBox.MinY box)
                     (BoundingBox.Word box) (BoundingBox.Confidence box))
         kept).
Proof.
  intros kept. unfold ImageProcessor.postProcessOCR.
  rewrite postProcess_loop. fold kept. simpl.
  destruct kept as [|box rest]; [reflexivity|].
  change (0 <? Z.of_nat (length (box :: rest)))
    with (0 <? Z.pos (Pos.of_succ_nat (length rest))).
  reflexivity.
Qed.

(** X24: the chunks the local extractor returns always convert, and in
    the document the confidence is the OCR confidence (added to 0) over
    the number of chunks, so over 2 when the vision model has answered;
    no content entry has a type, no section is listed and the file type
    is empty. *)
Theorem image_document_confidence
  (Sprintf : string -> string -> string) config run lines chunks now :
  ImageProcessor.Process Sprintf config run = (lines, Ok chunks) ->
  exists lines0 text confidence regions doc,
    ImageProcessor.performOCRWithClient config (ImageProcessor.ocr run)
    = (lines0, Ok (text, confidence, regions)) /\
    JSONConverter.Convert now chunks = Ok doc /\
    (length chunks = 1 \/ length chunks = 2)%nat /\
    DocumentMetadata.Confidence (ProcessedDocument.Metadata doc)
    = ((0 + confidence) / float64_of_int (Z.of_nat (length chunks)))%float /\
    (forall c, In c (ProcessedDocument.Content doc) -> ChunkContent.Type_ c = "") /\
    DocumentMetadata.Sections (ProcessedDocument.Metadata doc) = [] /\
    DocumentMetadata.FileType (ProcessedDocument.Metadata doc) = "".
Proof.
  unfold ImageProcessor.Process. intros Hrun.
  destruct (ImageProcessor.setup run); [discriminate|].
  destruct (ImageProcessor.performOCRWithClient config (ImageProcessor.ocr run))
    as [lines0 [[[text confidence] regions]|err]]; [|discriminate].
  exists lines0, text, confidence, regions.
  set (ollama := ProcessOptions.OllamaConfig_ config) in *.
  set (first := models.DocumentChunk.mk text
                  (<["source" := VString "tesseract"]>
                     (<["confidence" := VFloat64 confidence]>
                        (<["regions" := VRegions regions]> ∅)))) in *.
  assert (Hchunks : exists ollamaText,
             chunks
             = first :: (if negb (String.eqb ollamaText "")
                         then [models.DocumentChunk.mk ollamaText
                                 (<["source" := VString "ollama"]>
                                    (<["model" := VString (OllamaConfig.Model ollama)]> ∅))]
                         else [])).
  { destruct (if OllamaConfig.Enabled ollama then _ else _) as [ollamaText lines1].
    exists ollamaText. injection Hrun as _ <-.
    destruct (negb (String.eqb ollamaText "")); reflexivity. }
  destruct Hchunks as [ollamaText ->].
  set (second := models.DocumentChunk.mk ollamaText _).
  set (chunks := first :: _).
  destruct (Convert_total now chunks) as [doc Hdoc]; [discriminate|].
  exists doc. split; [reflexivity|]. split; [exact Hdoc|].
  assert (Hfirst : models.DocumentChunk.Metadata first !! "confidence"
                   = Some (VFloat64 confidence)).
  { unfold first. simpl. rewrite lookup_insert_ne by discriminate.
    apply lookup_insert_eq. }
  assert (Hkeys : forall chunk, In chunk chunks ->
             typeOf chunk = "" /\
             models.DocumentChunk.Metadata chunk !! "section" = None /\
             models.DocumentChunk.Metadata chunk !! "type" = None).
  { intros chunk Hin. unfold chunks in Hin.
    destruct Hin as [<-|Hin]; [repeat split|].
    destruct (negb (String.eqb ollamaText "")); [|contradiction].
    destruct Hin as [<-|[]]. repeat split. }
  split; [|split; [|split; [|split]]].
  - unfold chunks. destruct (negb (String.eqb ollamaText "")); simpl; auto.
  - rewrite (Convert_Confidence _ _ _ Hdoc). f_equal.
    unfold chunks. simpl. unfold addConfidence at 2. rewrite Hfirst. simpl.
    destruct (negb (String.eqb ollamaText "")); reflexivity.
  - apply (Convert_types now chunks doc Hdoc). intros chunk Hin. apply Hkeys, Hin.
  - destruct (Convert_Sections_of now chunks doc Hdoc) as [_ Hsec].
    destruct (DocumentMetadata.Sections (ProcessedDocument.Metadata doc)) as [|s l];
      [reflexivity|].
    destruct (proj1 (Hsec s) (or_introl eq_refl)) as (chunk & Hin & Hs).
    destruct (Hkeys chunk Hin) as (_ & Hnone & _).
    unfold hasSection in Hs. congruence.
  - unfold chunks in Hdoc. rewrite (Convert_FileType _ _ _ _ Hdoc).
    destruct (Hkeys first (or_introl eq_refl)) as (_ & _ & ->). reflexivity.
Qed.

(** The run in which the vision model answers: the OCR confidence 90
    becomes 45. *)
Lemma image_document_confidence_witness :
  exists lines chunks doc,
    ImageProcessor.Process SprintfS visionOptions visionAnswers = (lines, Ok chunks) /\
    length chunks = 2%nat /\
    JSONConverter.Convert 0 chunks = Ok doc /\
    DocumentMetadata.Confidence (ProcessedDocument.Metadata doc) = 45%float.
Proof.
  destruct (ImageProcessor.Process SprintfS visionOptions visionAnswers)
    as [lines [chunks|err]] eqn:Hrun; [|vm_compute in Hrun; discriminate].
  destruct (image_document_confidence SprintfS visionOptions visionAnswers lines chunks 0
              Hrun) as (lines0 & text & confidence & regions & doc & Hocr & Hdoc & _ & Hc & _).
  exists lines, chunks, doc. split; [reflexivity|].
  vm_compute in Hrun. injection Hrun as _ <-. split; [reflexivity|].
  split; [exact Hdoc|]. rewrite Hc.
  vm_compute in Hocr. injection Hocr as _ _ <- _. reflexivity.
Defined.

(** X25: the chunks the cloud extractor returns convert unless there is
    none, and the file type of the document is then the type of its first
    chunk, "text", "table" or "form", not a type of file; no content
    entry has a type. *)
Theorem textract_document_file_type config blocks chunks now :
  TextractProcessor.Process config (TextractProcessor.Analyzed blocks)
  = Some (Ok chunks) ->
  match chunks with
  | [] => JSONConverter.Convert now chunks = Err "no chunks to convert"
  | first :: _ =>
      exists doc t,
        JSONConverter.Convert now chunks = Ok doc /\
        In t ["text"; "table"; "form"] /\
        isTypedChunk t first = true /\
        DocumentMetadata.FileType (ProcessedDocument.Metadata doc) = t /\
        forall c, In c (ProcessedDocument.Content doc) -> ChunkContent.Type_ c = ""
  end.
Proof.
  intros Hrun.
  apply Process_chunks_shape in Hrun as (texts & tables & forms & _ & Hchunks).
  pose proof (fun c => typeOf_textract_chunks texts tables forms c) as Hall.
  rewrite <- Hchunks in Hall. clear Hchunks.
  destruct chunks as [|first rest]; [reflexivity|].
  destruct (Convert_total now (first :: rest)) as [doc Hdoc]; [discriminate|].
  destruct (Hall first (or_introl eq_refl)) as (_ & t & Ht & Hfirst).
  exists doc, t. split; [exact Hdoc|]. split; [exact Ht|]. split; [|split].
  - unfold isTypedChunk. rewrite Hfirst. apply String.eqb_refl.
  - rewrite (Convert_FileType _ _ _ _ Hdoc), Hfirst. reflexivity.
  - apply (Convert_types now _ doc Hdoc). intros chunk Hin. apply Hall, Hin.
Qed.

(** The scan of three lines: the file type of the document is "text". *)
Lemma textract_document_file_type_witness :
  exists chunk doc,
    TextractProcessor.Process textOnly (TextractProcessor.Analyzed threeLines)
    = Some (Ok [chunk]) /\
    JSONConverter.Convert 0 [chunk] = Ok doc /\
    DocumentMetadata.FileType (ProcessedDocument.Metadata doc) = "text".
Proof.
  destruct (TextractProcessor.Process textOnly (TextractProcessor.Analyzed threeLines))
    as [[chunks|err]|] eqn:Hrun;
    [|vm_compute in Hrun; discriminate|vm_compute in Hrun; discriminate].
  pose proof (textract_document_file_type textOnly threeLines chunks 0 Hrun) as H.
  vm_compute in Hrun. injection Hrun as <-.
  destruct H as (doc & t & Hdoc & _ & Htyped & Htype & _).
  do 2 eexists. split; [reflexivity|]. split; [exact Hdoc|].
  rewrite Htype. change (String.eqb "text" t = true) in Htyped.
  apply String.eqb_eq in Htyped. now rewrite <- Htyped.
Defined.

(** ** Edge and table detection, and the adaptive threshold again *)

Section PaintFacts.
Variable grayImg : GrayImage.t.

Let bounds := GrayImage.Bounds grayImg.

Lemma shaped_NewGray : shaped bounds (Gray.NewGray bounds).
Proof.
  unfold shaped, Gray.NewGray. simpl.
  repeat split. now rewrite length_replicate.
Qed.

Lemma GrayAt_NewGray x y : Gray.GrayAt (Gray.NewGray bounds) x y = 0.
Proof.
  unfold Gray.GrayAt. destruct (Rectangle.contains _ x y); [|reflexivity].
  simpl. destruct (replicate _ 0 !! _) as [v|] eqn:Hv; [|reflexivity].
  apply lookup_replicate in Hv as [-> _]. reflexivity.
Qed.

(** A loop that sets the pixel of each point to a value of the point. *)
Lemma paint_loop (value : Z -> Z -> Z) (points : list (Z * Z)) : forall r x' y',
  shaped bounds r ->
  Forall (fun '(x, y) => Rectangle.contains bounds x y = true) points ->
  Rectangle.contains bounds x' y' = true ->
  Gray.GrayAt
    (fold_left (fun r '(x, y) => Gray.Set_ r x y (value x y)) points r) x' y'
  = if existsb (fun '(x, y) => (x =? x') && (y =? y')) points
    then value x' y' else Gray.GrayAt r x' y'.
Proof.
  induction points as [|[x y] points IH]; intros r x' y' Hsh Hall Hin'; simpl;
    [reflexivity|].
  apply Forall_cons in Hall as [Hin Hall].
  rewrite IH; [|now apply shaped_Set|exact Hall|exact Hin'].
  rewrite (GrayAt_Set grayImg r x y _ x' y' Hsh Hin Hin').
  destruct ((x =? x') && (y =? y')) eqn:Heq; simpl.
  - assert (x = x' /\ y = y') as [-> ->] by lia.
    destruct (existsb _ points); reflexivity.
  - reflexivity.
Qed.

End PaintFacts.

Section ScanFacts.
Variable dark : Z -> bool.
Variable lo hi minLen : Z.
Variable mkLine : Z -> Z -> Rectangle.t.
Hypothesis lo_nonneg : 0 <= lo.

(** The state of the scan before position [pos]: no run is open and the
    position before is light or none, or the open run is the dark
    positions from [lineStart], which [blackCount] counts. *)
Let scanning (lineStart blackCount pos : Z) : Prop :=
  (lineStart = -1 /\ blackCount = 0 /\ (pos = lo \/ dark (pos - 1) = false)) \/
  (lo <= lineStart < pos /\ blackCount = pos - lineStart /\
   (forall i, lineStart <= i < pos -> dark i = true) /\
   (lineStart = lo \/ dark (lineStart - 1) = false)).

Let lineOfRun (line : Rectangle.t) : Prop :=
  exists first last, line = mkLine first last /\ isRun dark lo hi minLen first last.

(** After [n] positions from [pos] the state is a state of the scan
    again, and the lines added are lines of runs. *)
Lemma scan_loop (n : nat) : forall pos lineStart blackCount lines,
  lo <= pos -> pos + Z.of_nat n <= hi ->
  scanning lineStart blackCount pos ->
  exists lineStart' blackCount' new,
    fold_left (scanStep dark minLen mkLine) (seqZ pos (Z.of_nat n))
      (lineStart, blackCount, lines)
    = (lineStart', blackCount', lines ++ new) /\
    scanning lineStart' blackCount' (pos + Z.of_nat n) /\
    Forall lineOfRun new.
Proof.
  induction n as [|n IH]; intros pos lineStart blackCount lines Hlo Hhi Hscan.
  { exists lineStart, blackCount, []. simpl. rewrite app_nil_r, Z.add_0_r. auto. }
  rewrite seqZ_cons by lia. cbn [fold_left].
  replace (Z.pred (Z.of_nat (S n))) with (Z.of_nat n) by lia.
  replace (pos + Z.of_nat (S n)) with (Z.succ pos + Z.of_nat n) by lia.
  destruct (scanStep dark minLen mkLine (lineStart, blackCount, lines) pos)
    as [[lineStart' blackCount'] lines'] eqn:Hstep.
  unfold scanStep in Hstep.
  destruct (dark pos) eqn:Hdark.
  - injection Hstep as <- <- <-.
    apply IH; [lia|lia|].
    right. destruct Hscan as [(-> & -> & Hbefore)|(Hstart & -> & Hrun & Hbefore)].
    + simpl. split; [lia|]. split; [lia|]. split.
      * intros i Hi. now replace i with pos by lia.
      * destruct Hbefore as [->|Hb]; [now left|now right].
    + replace (lineStart =? -1) with false by lia.
      split; [lia|]. split; [lia|]. split; [|exact Hbefore].
      intros i Hi. destruct (Z.eq_dec i pos) as [->|]; [exact Hdark|].
      apply Hrun. lia.
  - assert (Hnone : scanning (-1) 0 (Z.succ pos)).
    { left. repeat split. right. now replace (Z.succ pos - 1) with pos by lia. }
    destruct Hscan as [(-> & -> & Hbefore)|(Hstart & -> & Hrun & Hbefore)].
    + simpl in Hstep. injection Hstep as <- <- <-.
      apply IH; [lia|lia|exact Hnone].
    + replace (lineStart =? -1) with false in Hstep by lia. simpl in Hstep.
      injection Hstep as <- <- <-.
      destruct (IH (Z.succ pos) (-1) 0
                  (if minLen <=? pos - lineStart
                   then lines ++ [mkLine lineStart pos] else lines))
        as (lineStart' & blackCount' & new & Hnew & Hscan' & Hall);
        [lia|lia|exact Hnone|].
      rewrite Hnew.
      destruct (Z.leb_spec minLen (pos - lineStart));
        [|now exists lineStart', blackCount', new].
      exists lineStart', blackCount', (mkLine lineStart pos :: new).
      rewrite <- app_assoc.
      split; [reflexivity|]. split; [exact Hscan'|]. constructor; [|exact Hall].
      exists lineStart, pos. split; [reflexivity|].
      unfold isRun. repeat split; try lia; auto.
Qed.

Lemma scan_range a b lineStart blackCount lines :
  lo <= a -> a <= b -> b <= hi ->
  scanning lineStart blackCount a ->
  exists lineStart' blackCount' new,
    fold_left (scanStep dark minLen mkLine) (seqZ a (b - a))
      (lineStart, blackCount, lines)
    = (lineStart', blackCount', lines ++ new) /\
    scanning lineStart' blackCount' b /\
    Forall lineOfRun new.
Proof.
  intros Ha Hab Hb Hscan.
  destruct (scan_loop (Z.to_nat (b - a)) a lineStart blackCount lines)
    as (lineStart' & blackCount' & new & Hfold & Hscan' & Hall); [lia|lia|exact Hscan|].
  replace (Z.of_nat (Z.to_nat (b - a))) with (b - a) in * by lia.
  replace (a + (b - a)) with b in Hscan' by lia.
  now exists lineStart', blackCount', new.
Qed.

(** The lines a row adds are lines of runs. *)
Lemma scan_row (lines : list Rectangle.t) :
  exists new,
    snd (forRange lo hi (scanStep dark minLen mkLine) (-1, 0, lines)) = lines ++ new /\
    Forall lineOfRun new.
Proof.
  unfold forRange.
  destruct (Z.le_gt_cases lo hi) as [Hle|Hgt].
  - destruct (scan_range lo hi (-1) 0 lines) as (ls & bc & new & -> & _ & Hall);
      [lia|lia|lia|left; auto|].
    now exists new.
  - rewrite seqZ_nil by lia. exists []. simpl. now rewrite app_nil_r.
Qed.

(** The line of every run of the row is added. *)
Lemma scan_row_complete (lines : list Rectangle.t) first last :
  isRun dark lo hi minLen first last ->
  In (mkLine first last)
     (snd (forRange lo hi (scanStep dark minLen mkLine) (-1, 0, lines))).
Proof.
  intros (Hfirst & Hlt & Hlast & Hdark & Hlight & Hlen & Hbefore).
  unfold forRange.
  assert (Hsplit : seqZ lo (hi - lo)
                   = seqZ lo (last - lo) ++ last :: seqZ (Z.succ last) (hi - Z.succ last)).
  { replace (hi - lo) with ((last - lo) + (hi - last)) by lia.
    rewrite seqZ_app by lia. f_equal.
    replace (lo + (last - lo)) with last by lia.
    rewrite seqZ_cons by lia. f_equal. f_equal. lia. }
  rewrite Hsplit, fold_left_app. cbn [fold_left].
  destruct (scan_range lo last (-1) 0 lines)
    as (lineStart & blackCount & new & -> & Hscan & _); [lia|lia|lia|left; auto|].
  assert (Hstate : lineStart = first /\ blackCount = last - first).
  { destruct Hscan as [(_ & _ & [Heq|Hb])|(Hstart & Hcount & Hrun & Hb)].
    - lia.
    - rewrite Hdark in Hb by lia. discriminate.
    - assert (lineStart = first); [|split; lia].
      destruct (Z.lt_trichotomy lineStart first) as [Hl|[Heq|Hg]]; [|exact Heq|].
      + destruct Hbefore as [Heq|Hb']; [lia|].
        rewrite Hrun in Hb' by lia. discriminate.
      + destruct Hb as [Heq|Hb]; [lia|].
        rewrite Hdark in Hb by lia. discriminate. }
  destruct Hstate as [-> ->].
  unfold scanStep at 2. rewrite Hlight.
  replace (first =? -1) with false by lia. simpl negb. cbv iota.
  replace (minLen <=? last - first) with true by lia.
  destruct (scan_range (Z.succ last) hi (-1) 0 ((lines ++ new) ++ [mkLine first last]))
    as (ls & bc & new' & -> & _ & _); [lia|lia|lia| |].
  - left. split; [reflexivity|]. split; [reflexivity|]. right.
    now replace (Z.succ last - 1) with last by lia.
  - simpl. apply in_or_app. left. apply in_or_app. right. now left.
Qed.

End ScanFacts.

Section DetectionFacts.
Import TableDetectionProcessor.
Variable p : t.
Variable bounds : Rectangle.t.
Variable grayImg : GrayImage.t.

Lemma horizontalStep_scan y s x :
  horizontalStep p grayImg y s x
  = scanStep (fun x => GrayImage.GrayAt grayImg x y <? 128) (minLineLength p)
             (fun first last => Rect first y last (y + 1)) s x.
Proof. destruct s as [[lineStart blackCount] lines]. reflexivity. Qed.

Lemma verticalStep_scan x s y :
  verticalStep p grayImg x s y
  = scanStep (fun y => GrayImage.GrayAt grayImg x y <? 128) (minLineLength p)
             (fun first last => Rect x first (x + 1) last) s y.
Proof. destruct s as [[lineStart blackCount] lines]. reflexivity. Qed.

Lemma Rect_ordered x0 y0 x1 y1 :
  x0 <= x1 -> y0 <= y1 -> Rect x0 y0 x1 y1 = Rectangle.mk x0 y0 x1 y1.
Proof.
  intros Hx Hy. unfold Rect.
  destruct (Z.ltb_spec x1 x0); [lia|]. destruct (Z.ltb_spec y1 y0); [lia|].
  reflexivity.
Qed.

Lemma fold_left_ext_in {A B} (f g : A -> B -> A) (l : list B) : forall a,
  (forall a b, f a b = g a b) -> fold_left f l a = fold_left g l a.
Proof.
  induction l as [|b l IH]; intros a Hfg; simpl; [reflexivity|].
  rewrite Hfg. now apply IH.
Qed.

Lemma horizontalLines_runs :
  0 <= Rectangle.MinX bounds ->
  Forall (horizontalRun bounds grayImg (minLineLength p))
         (horizontalLines p bounds grayImg).
Proof.
  intros Hmin. unfold horizontalLines. unfold forRange at 1.
  assert (Hrows : forall ys lines,
             Forall (fun y => Rectangle.MinY bounds <= y < Rectangle.MaxY bounds) ys ->
             Forall (horizontalRun bounds grayImg (minLineLength p)) lines ->
             Forall (horizontalRun bounds grayImg (minLineLength p))
               (fold_left
                  (fun horizontalLines y =>
                     let '(_, _, horizontalLines) :=
                       forRange (Rectangle.MinX bounds) (Rectangle.MaxX bounds)
                         (horizontalStep p grayImg y) (-1, 0, horizontalLines) in
                     horizontalLines) ys lines)).
  { induction ys as [|y ys IH]; intros lines Hys Hlines; [exact Hlines|].
    apply Forall_cons in Hys as [Hy Hys]. simpl. apply IH; [exact Hys|].
    unfold forRange.
    rewrite (fold_left_ext_in _ _ _ _ (horizontalStep_scan y)).
    destruct (scan_row (fun x => GrayImage.GrayAt grayImg x y <? 128)
                (Rectangle.MinX bounds) (Rectangle.MaxX bounds) (minLineLength p)
                (fun first last => Rect first y last (y + 1)) Hmin lines)
      as (new & Hnew & Hall).
    unfold forRange in Hnew.
    destruct (fold_left _ _ _) as [[lineStart blackCount] lines'].
    simpl in Hnew. subst lines'.
    apply Forall_app. split; [exact Hlines|].
    eapply Forall_impl; [exact Hall|].
    intros line (first & last & -> & Hrun).
    exists y, first, last. split; [|split; [exact Hy|exact Hrun]].
    destruct Hrun as (_ & Hlt & _). apply Rect_ordered; lia. }
  apply Hrows; [|constructor].
  apply Forall_forall. intros y Hy. apply elem_of_seqZ in Hy. lia.
Qed.

Lemma verticalLines_runs :
  0 <= Rectangle.MinY bounds ->
  Forall (verticalRun bounds grayImg (minLineLength p))
         (verticalLines p bounds grayImg).
Proof.
  intros Hmin. unfold verticalLines. unfold forRange at 1.
  assert (Hcols : forall xs lines,
             Forall (fun x => Rectangle.MinX bounds <= x < Rectangle.MaxX bounds) xs ->
             Forall (verticalRun bounds grayImg (minLineLength p)) lines ->
             Forall (verticalRun bounds grayImg (minLineLength p))
               (fold_left
                  (fun verticalLines x =>
                     let '(_, _, verticalLines) :=
                       forRange (Rectangle.MinY bounds) (Rectangle.MaxY bounds)
                         (verticalStep p grayImg x) (-1, 0, verticalLines) in
                     verticalLines) xs lines)).
  { induction xs as [|x xs IH]; intros lines Hxs Hlines; [exact Hlines|].
    apply Forall_cons in Hxs as [Hx Hxs]. simpl. apply IH; [exact Hxs|].
    unfold forRange.
    rewrite (fold_left_ext_in _ _ _ _ (verticalStep_scan x)).
    destruct (scan_row (fun y => GrayImage.GrayAt grayImg x y <? 128)
                (Rectangle.MinY bounds) (Rectangle.MaxY bounds) (minLineLength p)
                (fun first last => Rect x first (x + 1) last) Hmin lines)
      as (new & Hnew & Hall).
    unfold forRange in Hnew.
    destruct (fold_left _ _ _) as [[lineStart blackCount] lines'].
    simpl in Hnew. subst lines'.
    apply Forall_app. split; [exact Hlines|].
    eapply Forall_impl; [exact Hall|].
    intros line (first & last & -> & Hrun).
    exists x, first, last. split; [|split; [exact Hx|exact Hrun]].
    destruct Hrun as (_ & Hlt & _). apply Rect_ordered; lia. }
  apply Hcols; [|constructor].
  apply Forall_forall. intros x Hx. apply elem_of_seqZ in Hx. lia.
Qed.

Lemma horizontalLines_complete line :
  0 <= Rectangle.MinX bounds ->
  horizontalRun bounds grayImg (minLineLength p) line ->
  In line (horizontalLines p bounds grayImg).
Proof.
  intros Hmin (y & first & last & -> & Hy & Hrun).
  unfold horizontalLines. unfold forRange at 1.
  assert (Hrows : forall ys lines,
             In (Rectangle.mk first y last (y + 1)) lines \/ In y ys ->
             In (Rectangle.mk first y last (y + 1))
               (fold_left
                  (fun horizontalLines y =>
                     let '(_, _, horizontalLines) :=
                       forRange (Rectangle.MinX bounds) (Rectangle.MaxX bounds)
                         (horizontalStep p grayImg y) (-1, 0, horizontalLines) in
                     horizontalLines) ys lines)).
  { induction ys as [|y0 ys IH]; intros lines Hin; [destruct Hin as [H|[]]; exact H|].
    simpl. apply IH. unfold forRange.
    rewrite (fold_left_ext_in _ _ _ _ (horizontalStep_scan y0)).
    destruct (scan_row (fun x => GrayImage.GrayAt grayImg x y0 <? 128)
                (Rectangle.MinX bounds) (Rectangle.MaxX bounds) (minLineLength p)
                (fun first last => Rect first y0 last (y0 + 1)) Hmin lines)
      as (new & Hnew & _).
    pose proof (scan_row_complete (fun x => GrayImage.GrayAt grayImg x y <? 128)
                  (Rectangle.MinX bounds) (Rectangle.MaxX bounds) (minLineLength p)
                  (fun first last => Rect first y last (y + 1)) Hmin lines
                  first last Hrun) as Hcomplete.
    unfold forRange in Hnew, Hcomplete.
    destruct Hin as [Hin|[->|Hin]].
    - left. destruct (fold_left _ _ _) as [[lineStart blackCount] lines'].
      simpl in Hnew. subst lines'. apply in_or_app. now left.
    - left. destruct (fold_left _ _ _) as [[lineStart blackCount] lines'].
      simpl in Hcomplete. rewrite Rect_ordered in Hcomplete; [exact Hcomplete| |lia].
      destruct Hrun as (_ & Hlt & _). lia.
    - right. exact Hin. }
  apply Hrows. right. apply list_elem_of_In, elem_of_seqZ. lia.
Qed.

Lemma verticalLines_complete line :
  0 <= Rectangle.MinY bounds ->
  verticalRun bounds grayImg (minLineLength p) line ->
  In line (verticalLines p bounds grayImg).
Proof.
  intros Hmin (x & first & last & -> & Hx & Hrun).
  unfold verticalLines. unfold forRange at 1.
  assert (Hcols : forall xs lines,
             In (Rectangle.mk x first (x + 1) last) lines \/ In x xs ->
             In (Rectangle.mk x first (x + 1) last)
               (fold_left
                  (fun verticalLines x =>
                     let '(_, _, verticalLines) :=
                       forRange (Rectangle.MinY bounds) (Rectangle.MaxY bounds)
                         (verticalStep p grayImg x) (-1, 0, verticalLines) in
                     verticalLines) xs lines)).
  { induction xs as [|x0 xs IH]; intros lines Hin; [destruct Hin as [H|[]]; exact H|].
    simpl. apply IH. unfold forRange.
    rewrite (fold_left_ext_in _ _ _ _ (verticalStep_scan x0)).
    destruct (scan_row (fun y => GrayImage.GrayAt grayImg x0 y <? 128)
                (Rectangle.MinY bounds) (Rectangle.MaxY bounds) (minLineLength p)
                (fun first last => Rect x0 first (x0 + 1) last) Hmin lines)
      as (new & Hnew & _).
    pose proof (scan_row_complete (fun y => GrayImage.GrayAt grayImg x y <? 128)
                  (Rectangle.MinY bounds) (Rectangle.MaxY bounds) (minLineLength p)
                  (fun first last => Rect x first (x + 1) last) Hmin lines
                  first last Hrun) as Hcomplete.
    unfold forRange in Hnew, Hcomplete.
    destruct Hin as [Hin|[->|Hin]].
    - left. destruct (fold_left _ _ _) as [[lineStart blackCount] lines'].
      simpl in Hnew. subst lines'. apply in_or_app. now left.
    - left. destruct (fold_left _ _ _) as [[lineStart blackCount] lines'].
      simpl in Hcomplete. rewrite Rect_ordered in Hcomplete; [exact Hcomplete|lia|].
      destruct Hrun as (_ & Hlt & _). lia.
    - right. exact Hin. }
  apply Hcols. right. apply list_elem_of_In, elem_of_seqZ. lia.
Qed.

End DetectionFacts.

(** X26: in an image whose bounds start at non-negative coordinates, the
    scan of [detectTableCells] finds as horizontal lines exactly the runs
    of dark pixels (gray value below 128) of a row that are at least
    [minLineLength] long, cannot be extended to the left and end at a
    light pixel of the row: a run that reaches the right border is not
    found.  Each line is one pixel high and ends at the light pixel.
    The vertical lines are the runs of the columns, in the same way. *)
Theorem detected_lines_are_the_closed_runs p bounds grayImg line :
  0 <= Rectangle.MinX bounds -> 0 <= Rectangle.MinY bounds ->
  (In line (TableDetectionProcessor.horizontalLines p bounds grayImg) <->
   horizontalRun bounds grayImg (TableDetectionProcessor.minLineLength p) line) /\
  (In line (TableDetectionProcessor.verticalLines p bounds grayImg) <->
   verticalRun bounds grayImg (TableDetectionProcessor.minLineLength p) line).
Proof.
  intros Hx Hy. split; split.
  - intros Hin. pose proof (horizontalLines_runs p bounds grayImg Hx) as Hall.
    rewrite List.Forall_forall in Hall. now apply Hall.
  - now apply horizontalLines_complete.
  - intros Hin. pose proof (verticalLines_runs p bounds grayImg Hy) as Hall.
    rewrite List.Forall_forall in Hall. now apply Hall.
  - now apply verticalLines_complete.
Qed.

(** A row of six pixels, dark except the third: the two dark pixels
    before the light one are a line, the three after it are not. *)
Lemma detected_lines_are_the_closed_runs_witness :
  TableDetectionProcessor.horizontalLines
    (TableDetectionProcessor.NewTableDetectionProcessor 2 0)
    (Rectangle.mk 0 0 6 1) sixPixels
  = [Rectangle.mk 0 0 2 1] /\
  horizontalRun (Rectangle.mk 0 0 6 1) sixPixels 2 (Rectangle.mk 0 0 2 1) /\
  ~ horizontalRun (Rectangle.mk 0 0 6 1) sixPixels 2 (Rectangle.mk 3 0 6 1).
Proof.
  split; [reflexivity|].
  pose proof (fun line =>
                proj1 (detected_lines_are_the_closed_runs
                         (TableDetectionProcessor.NewTableDetectionProcessor 2 0)
                         (Rectangle.mk 0 0 6 1) sixPixels line
                         (Z.le_refl 0) (Z.le_refl 0))) as Hiff.
  split.
  - apply Hiff. now left.
  - intros Hrun. apply Hiff in Hrun. destruct Hrun as [Heq|[]]. discriminate Heq.
Defined.

(** X27: in the image [EdgeDetectionProcessor.Process] returns, a pixel
    that is not on the border is black, 0, if the magnitude of the
    gradient there exceeds the threshold and white, 255, if not; the
    pixels of the border are never written and stay 0, the value that
    marks an edge. *)
Theorem edge_image_border_is_black p grayImg result x y :
  EdgeDetectionProcessor.Process p grayImg = Ok result ->
  Rectangle.contains (GrayImage.Bounds grayImg) x y = true ->
  Gray.GrayAt result x y
  = if interior (GrayImage.Bounds grayImg) x y then
      if PrimFloat.ltb (EdgeDetectionProcessor.threshold p)
                       (EdgeDetectionProcessor.magnitude grayImg x y)
      then 0 else 255
    else 0.
Proof.
  unfold EdgeDetectionProcessor.Process, forRange. intros Hres Hin.
  injection Hres as <-.
  set (value := fun x y =>
                  if PrimFloat.ltb (EdgeDetectionProcessor.threshold p)
                                   (EdgeDetectionProcessor.magnitude grayImg x y)
                  then 0 else 255).
  rewrite (nested_loops (fun r x y => EdgeDetectionProcessor.edgePixel p grayImg r x y)).
  set (points := flat_map _ _).
  assert (Hbody : forall r xy,
             (let '(x, y) := xy in EdgeDetectionProcessor.edgePixel p grayImg r x y)
             = (let '(x, y) := xy in Gray.Set_ r x y (value x y))).
  { intros r [x0 y0]. unfold EdgeDetectionProcessor.edgePixel, value.
    destruct (PrimFloat.ltb _ _); reflexivity. }
  rewrite (fold_left_ext_in _ _ _ _ Hbody).
  assert (Hpoints : forall x0 y0, In (x0, y0) points <-> interior (GrayImage.Bounds grayImg) x0 y0 = true).
  { intros x0 y0. unfold points, interior. rewrite in_flat_map. split.
    - intros (y1 & Hy1 & Hxy). apply in_map_iff in Hxy as (x1 & Heq & Hx1).
      injection Heq as -> ->.
      apply list_elem_of_In, elem_of_seqZ in Hy1, Hx1. lia.
    - intros Hint. exists y0. split.
      + apply list_elem_of_In, elem_of_seqZ. lia.
      + apply in_map_iff. exists x0. split; [reflexivity|].
        apply list_elem_of_In, elem_of_seqZ. lia. }
  rewrite (paint_loop grayImg value points);
    [|apply shaped_NewGray| |exact Hin].
  - rewrite GrayAt_NewGray.
    destruct (interior (GrayImage.Bounds grayImg) x y) eqn:Hint.
    + replace (existsb _ points) with true; [reflexivity|].
      symmetry. apply existsb_exists. exists (x, y).
      split; [now apply Hpoints|lia].
    + destruct (existsb _ points) eqn:Hex; [|reflexivity].
      apply existsb_exists in Hex as ([x0 y0] & Hxy & Heq).
      assert (x0 = x /\ y0 = y) as [-> ->] by lia.
      apply Hpoints in Hxy. congruence.
  - apply Forall_forall. intros [x0 y0] Hxy.
    apply list_elem_of_In, Hpoints in Hxy.
    unfold interior in Hxy. unfold Rectangle.contains. lia.
Qed.

(** The image that is dark in its two left columns: the inner pixel
    (1, 1) sees a difference of 255 and becomes black, the inner pixel
    (3, 2) sees none and becomes white; the corner (5, 3) is black. *)
Lemma edge_image_border_is_black_witness :
  exists result,
    EdgeDetectionProcessor.Process
      (EdgeDetectionProcessor.NewEdgeDetectionProcessor 30) darkLeftColumns = Ok result /\
    Gray.GrayAt result 1 1 = 0 /\
    Gray.GrayAt result 3 2 = 255 /\
    Gray.GrayAt result 5 3 = 0.
Proof.
  eexists. split; [reflexivity|].
  split; [|split].
  - exact (edge_image_border_is_black
             (EdgeDetectionProcessor.NewEdgeDetectionProcessor 30) darkLeftColumns
             _ 1 1 eq_refl eq_refl).
  - exact (edge_image_border_is_black
             (EdgeDetectionProcessor.NewEdgeDetectionProcessor 30) darkLeftColumns
             _ 3 2 eq_refl eq_refl).
  - exact (edge_image_border_is_black
             (EdgeDetectionProcessor.NewEdgeDetectionProcessor 30) darkLeftColumns
             _ 5 3 eq_refl eq_refl).
Defined.

Section ThresholdMore.

Lemma graySum_agree g1 g2 (points : list (Z * Z)) :
  (forall nx ny, In (nx, ny) points ->
                 GrayImage.GrayAt g1 nx ny = GrayImage.GrayAt g2 nx ny) ->
  graySum g1 points = graySum g2 points.
Proof.
  induction points as [|[nx ny] points IH]; intros Hagree; [reflexivity|].
  rewrite !graySum_cons, IH.
  - rewrite (Hagree nx ny); [reflexivity|now left].
  - intros nx' ny' Hin. apply Hagree. now right.
Qed.

Lemma halfBlock_negative p :
  AdaptiveThresholdProcessor.blockSize p <= -2 ->
  AdaptiveThresholdProcessor.halfBlock p < 0.
Proof.
  intros Hneg. unfold AdaptiveThresholdProcessor.halfBlock.
  pose proof (Z.quot_rem' (AdaptiveThresholdProcessor.blockSize p) 2) as Hqr.
  pose proof (Z.rem_bound_pos_neg (AdaptiveThresholdProcessor.blockSize p) 2
                ltac:(lia) ltac:(lia)) as Hr.
  lia.
Qed.

End ThresholdMore.

(** X28: the pixel of the adaptive threshold at (x, y) depends on the
    input only in the window of (x, y): two images of the same bounds
    that agree at the pixels at most h columns and h rows from (x, y),
    h the truncated half of [blockSize], get the same result there. *)
Theorem adaptive_threshold_is_local p g1 g2 r1 r2 x y :
  GrayImage.Bounds g1 = GrayImage.Bounds g2 ->
  AdaptiveThresholdProcessor.Process p (AdaptiveThresholdProcessor.Image g1) = Ok r1 ->
  AdaptiveThresholdProcessor.Process p (AdaptiveThresholdProcessor.Image g2) = Ok r2 ->
  Rectangle.contains (GrayImage.Bounds g1) x y = true ->
  (forall nx ny,
      Rectangle.contains (GrayImage.Bounds g1) nx ny = true ->
      Z.abs (nx - x) <= Z.quot (AdaptiveThresholdProcessor.blockSize p) 2 ->
      Z.abs (ny - y) <= Z.quot (AdaptiveThresholdProcessor.blockSize p) 2 ->
      GrayImage.GrayAt g1 nx ny = GrayImage.GrayAt g2 nx ny) ->
  Gray.GrayAt r1 x y = Gray.GrayAt r2 x y.
Proof.
  intros Hbounds H1 H2 Hin Hagree.
  rewrite (Process_pixel p g1 r1 x y H1 Hin).
  rewrite Hbounds in Hin. rewrite (Process_pixel p g2 r2 x y H2 Hin).
  rewrite <- Hbounds in *.
  set (points := window (GrayImage.Bounds g1) (AdaptiveThresholdProcessor.halfBlock p) x y).
  assert (Hwindow : forall nx ny, In (nx, ny) points ->
                      GrayImage.GrayAt g1 nx ny = GrayImage.GrayAt g2 nx ny).
  { intros nx ny Hp. apply window_In in Hp as (Hc & Hx & Hy). now apply Hagree. }
  unfold thresholdRule. rewrite (graySum_agree g1 g2 points Hwindow).
  destruct (0 <? Z.of_nat (length points)) eqn:Hcount; [|reflexivity].
  assert (Hself : In (x, y) points).
  { destruct points as [|[nx ny] rest] eqn:Hpoints; [discriminate|].
    assert (Hp : In (nx, ny) points) by (rewrite Hpoints; now left).
    apply window_In in Hp as (_ & Hx & _).
    rewrite <- Hpoints. apply window_In. split; [exact Hin|].
    unfold AdaptiveThresholdProcessor.halfBlock in *. lia. }
  rewrite (Hwindow x y Hself). reflexivity.
Qed.

(** The two 3 by 3 images differ in the corner (2, 2) only, which is
    outside the window of (0, 0) under a block of size 3. *)
Lemma adaptive_threshold_is_local_witness :
  exists r1 r2,
    AdaptiveThresholdProcessor.Process
      (AdaptiveThresholdProcessor.NewAdaptiveThresholdProcessor 3 2)
      (AdaptiveThresholdProcessor.Image darkCentre) = Ok r1 /\
    AdaptiveThresholdProcessor.Process
      (AdaptiveThresholdProcessor.NewAdaptiveThresholdProcessor 3 2)
      (AdaptiveThresholdProcessor.Image darkCentreLightCorner) = Ok r2 /\
    Gray.GrayAt r1 0 0 = Gray.GrayAt r2 0 0.
Proof.
  do 2 eexists. split; [reflexivity|]. split; [reflexivity|].
  apply (adaptive_threshold_is_local
           (AdaptiveThresholdProcessor.NewAdaptiveThresholdProcessor 3 2)
           darkCentre darkCentreLightCorner _ _ 0 0 eq_refl eq_refl eq_refl eq_refl).
  intros nx ny Hc Hx Hy.
  assert (Hnear : Z.abs (nx - 0) <= 1) by exact Hx.
  simpl. replace ((nx =? 2) && (ny =? 2)) with false by lia. reflexivity.
Defined.

(** X29: with a [blockSize] of -2 or less the window of every pixel is
    empty, no mean is taken and the result is white, 255, at every pixel
    of the image. *)
Theorem adaptive_threshold_without_window_is_white p grayImg result x y :
  AdaptiveThresholdProcessor.Process p (AdaptiveThresholdProcessor.Image grayImg)
  = Ok result ->
  AdaptiveThresholdProcessor.blockSize p <= -2 ->
  Rectangle.contains (GrayImage.Bounds grayImg) x y = true ->
  Gray.GrayAt result x y = 255.
Proof.
  intros Hres Hneg Hin.
  rewrite (Process_pixel p grayImg result x y Hres Hin).
  pose proof (halfBlock_negative p Hneg) as Hh.
  destruct (window (GrayImage.Bounds grayImg) (AdaptiveThresholdProcessor.halfBlock p) x y)
    as [|[nx ny] rest] eqn:Hwindow; [reflexivity|].
  assert (Hp : In (nx, ny)
                 (window (GrayImage.Bounds grayImg)
                    (AdaptiveThresholdProcessor.halfBlock p) x y))
    by (rewrite Hwindow; now left).
  apply window_In in Hp as (_ & Hx & _). lia.
Qed.

(** The image with the dark centre under a block of size -3. *)
Lemma adaptive_threshold_without_window_is_white_witness :
  exists result,
    AdaptiveThresholdProcessor.Process
      (AdaptiveThresholdProcessor.NewAdaptiveThresholdProcessor (-3) 2)
      (AdaptiveThresholdProcessor.Image darkCentre) = Ok result /\
    Gray.GrayAt result 1 1 = 255.
Proof.
  eexists. split; [reflexivity|].
  apply (adaptive_threshold_without_window_is_white
           (AdaptiveThresholdProcessor.NewAdaptiveThresholdProcessor (-3) 2)
           darkCentre _ 1 1 eq_refl); [|reflexivity].
  vm_compute. discriminate.
Defined.
(** ** From the upload to the worker *)

Section PipelineFacts.
Import models DocumentService.
Variable ToLower : string -> string.

(** The task a successful [ProcessFile] leaves in the broker. *)
Lemma ProcessFile_queued s now taskID file header s' task :
  ProcessFile ToLower s now taskID file header = (s', Ok task) ->
  exists info,
    asynq.tasks (AsynqQueue.broker (queue s'))
      !! (AsynqQueue.queueOption (ServiceConfig.QueuePriority (config s)), taskID)
    = Some info /\
    Task.Payload (asynq.TaskInfo.Payload info) !! "fileId"
    = Some (VString (FileHeader.Filename header)) /\
    Task.Metadata (asynq.TaskInfo.Payload info) !! "type"
    = Some (Ext (FileHeader.Filename header)) /\
    S3Storage.up (storage s') = true /\
    S3Storage.objects (storage s') !! FileHeader.Filename header = Some file.
Proof.
  unfold ProcessFile. simpl.
  destruct (validateFile ToLower (config s) header) eqn:Hv; [discriminate|].
  unfold S3Storage.Store.
  destruct (S3Storage.up (storage s)) eqn:Hup; simpl; [|discriminate].
  match goal with
  | |- context [AsynqQueue.Enqueue ?q ?n ?t] =>
      set (queueTask := t); destruct (AsynqQueue.Enqueue q n queueTask)
        as [[q1 queueTask'] [err|]] eqn:Henq
  end; [discriminate|].
  intros H. injection H as <- <-.
  apply Enqueue_inserts in Henq as (info & Htasks & _ & _ & Hpayload & _).
  exists info.
  assert (Hbroker : AsynqQueue.broker
                      (queue
                         (match AsynqQueue.SaveFinalStatus q1 now
                                  (TaskStatus.mk taskID "pending" 0 "" now 0) with
                          | (_, Some _) =>
                              log "Failed to save initial status"
                                (mk q1 (S3Storage.mk
                                          (<[FileHeader.Filename header := file]>
                                             (S3Storage.objects (storage s))) true)
                                    (logger (log "Starting file processing" s))
                                    (config s))
                          | (queue'', None) =>
                              mk queue'' (S3Storage.mk
                                            (<[FileHeader.Filename header := file]>
                                               (S3Storage.objects (storage s))) true)
                                 (logger (log "Starting file processing" s)) (config s)
                          end))
                    = AsynqQueue.broker q1).
  { destruct (AsynqQueue.SaveFinalStatus q1 now _) as [q2 [e|]] eqn:Hsave;
      [reflexivity|].
    apply SaveFinalStatus_written in Hsave as (Hb & _). exact Hb. }
  destruct (AsynqQueue.SaveFinalStatus q1 now _) as [q2 [e|]]; simpl in *.
  - rewrite Htasks. split; [apply lookup_insert_eq|].
    rewrite Hpayload. unfold queueTask. simpl.
    split; [apply lookup_insert_eq|].
    split; [|split; [reflexivity|apply lookup_insert_eq]].
    do 2 (rewrite lookup_insert_ne by discriminate). apply lookup_insert_eq.
  - rewrite Hbroker, Htasks. split; [apply lookup_insert_eq|].
    rewrite Hpayload. unfold queueTask. simpl.
    split; [apply lookup_insert_eq|].
    split; [|split; [reflexivity|apply lookup_insert_eq]].
    do 2 (rewrite lookup_insert_ne by discriminate). apply lookup_insert_eq.
Qed.

(** After an upload the cached status answers for every service with
    the queue of the upload. *)
Lemma upload_status_is_cached s now taskID file header s' task later s2 :
  ProcessFile ToLower s now taskID file header = (s', Ok task) ->
  redis.up (AsynqQueue.redis (queue s)) = true ->
  later < now + 24 * Hour ->
  queue s2 = queue s' ->
  exists s3 reported,
    GetProcessingStatus s2 later taskID = (s3, Ok reported) /\
    ProcessingTask.Status reported = StatusPending.
Proof.
  intros Hrun Hup Hlater Hqueue.
  apply ProcessFile_detail in Hrun
    as (q1 & qt & qt' & _ & _ & _ & _ & _ & _ & _ & _ & _ & _ & _ & _ & _ & Hsave).
  specialize (Hsave Hup).
  apply SaveFinalStatus_written in Hsave as (_ & Hup' & Hkv).
  unfold GetProcessingStatus. rewrite Hqueue.
  destruct (queue s') as [b r]. simpl in Hup', Hkv.
  pose proof (cached_status_is_served r b (initialStatus taskID now)
                (now + 24 * Hour) later Hup') as Hserved.
  simpl in Hserved. rewrite Hserved; [|rewrite Hkv; apply lookup_insert_eq|exact Hlater].
  do 2 eexists. split; [reflexivity|]. reflexivity.
Qed.

End PipelineFacts.

(** X30: a Word file, ".doc" or ".docx", is accepted by [ProcessFile]
    under the default file types, but the registry has no processor for
    it: when the worker handles the task the upload has queued,
    [HandleDocument] returns an error for every outcome of processing,
    stores no result, and the status a client reads stays pending for the
    24 hours the initial status is cached. *)
Theorem word_upload_is_never_processed
  (ToLower : string -> string) factory s now taskID file header s1 task :
  ProcessorFactory.NewProcessorFactory None = Ok factory ->
  DocumentService.ProcessFile ToLower s now taskID file header = (s1, Ok task) ->
  ToLower (Ext (FileHeader.Filename header)) = ".doc" \/
  ToLower (Ext (FileHeader.Filename header)) = ".docx" ->
  exists info,
    asynq.tasks (AsynqQueue.broker (DocumentService.queue s1))
      !! (AsynqQueue.queueOption
            (ServiceConfig.QueuePriority (DocumentService.config s)), taskID)
    = Some info /\
    forall process marshalDoc handledAt,
    exists s2 err,
      DocumentService_HandleDocument ToLower process marshalDoc factory s1 handledAt
        (asynq.TaskInfo.Payload info)
      = Some (s2, Some err) /\
      DocumentService.storage s2 = DocumentService.storage s1 /\
      (redis.up (AsynqQueue.redis (DocumentService.queue s)) = true ->
       forall later, later < now + 24 * Hour ->
       exists s3 reported,
         DocumentService.GetProcessingStatus s2 later taskID = (s3, Ok reported) /\
         models.ProcessingTask.Status reported = models.StatusPending).
Proof.
  intros Hfactory Hrun Hword. injection Hfactory as <-.
  destruct (ProcessFile_queued ToLower s now taskID file header s1 task Hrun)
    as (info & Hinfo & Hfile & Htype & Hup & Hobject).
  exists info. split; [exact Hinfo|].
  intros process marshalDoc handledAt.
  assert (Hno : exists lines e,
             ProcessorFactory.GetProcessor ToLower
               (ProcessorFactory.mk
                  (<["image/tiff" := ProcessorFactory.textractProcessor]>
                     (<["image/png" := ProcessorFactory.textractProcessor]>
                        (<["image/jpg" := ProcessorFactory.textractProcessor]>
                           (<["image/jpeg" := ProcessorFactory.textractProcessor]>
                              (<["application/pdf" := ProcessorFactory.pdfProcessor]> ∅))))))
               (Ext (FileHeader.Filename header)) = (lines, Err e)).
  { unfold ProcessorFactory.GetProcessor.
    destruct Hword as [-> | ->]; vm_compute; eauto. }
  destruct Hno as (lines & e & Hno).
  unfold DocumentService_HandleDocument. simpl.
  rewrite Hfile, Htype. simpl.
  unfold S3Storage_Get. rewrite Hup, Hobject. simpl. rewrite Hno.
  do 2 eexists. split; [reflexivity|]. split; [reflexivity|].
  intros Hredis later Hlater.
  apply (upload_status_is_cached ToLower s now taskID file header s1 task later _
           Hrun Hredis Hlater).
  reflexivity.
Qed.

(** The upload of "letter.DOCX", handled at time 10 and asked about an
    hour later. *)
Lemma word_upload_is_never_processed_witness :
  exists s1 task info s2 err s3 reported,
    DocumentService.ProcessFile ToLowerASCII (freshService None) 0 "id-2" "PK" wordUpload
    = (s1, Ok task) /\
    asynq.tasks (AsynqQueue.broker (DocumentService.queue s1)) !! ("low", "id-2")
    = Some info /\
    DocumentService_HandleDocument ToLowerASCII onePage idCodec registry s1 10
      (asynq.TaskInfo.Payload info) = Some (s2, Some err) /\
    DocumentService.GetProcessingStatus s2 Hour "id-2" = (s3, Ok reported) /\
    models.ProcessingTask.Status reported = models.StatusPending.
Proof.
  destruct (DocumentService.ProcessFile ToLowerASCII (freshService None) 0 "id-2" "PK"
              wordUpload) as [s1 [task|err]] eqn:Hrun;
    [|vm_compute in Hrun; discriminate].
  destruct (word_upload_is_never_processed ToLowerASCII registry (freshService None) 0
              "id-2" "PK" wordUpload s1 task eq_refl Hrun (or_intror eq_refl))
    as (info & Hinfo & Hhandle).
  destruct (Hhandle onePage idCodec 10) as (s2 & err & Herr & _ & Hstatus).
  destruct (Hstatus eq_refl Hour eq_refl) as (s3 & reported & Hget & Hpending).
  exists s1, task, info, s2, err, s3, reported.
  split; [reflexivity|]. split; [exact Hinfo|]. auto.
Defined.
